(** * DAXPY thread-level-parallelism benchmarks

    A shallow embedding of the two benchmark drivers

      - [src/daxpy_benchmark.cpp]       (class [DaxpyBenchmark], "driver 1")
      - [src/multi_threaded_daxpy.cpp]  (class [MultiThreadedDaxpy], "driver 2")

    and the properties of their partitioning, compute phase, verifier and
    command lines.

    Conventions.
      - [double] is the kernel's binary64 [float]; [alpha * x + y] is one
        rounded multiplication followed by one rounded addition.
      - [size_t], [unsigned long] and [unsigned long long] are 64 bits wide,
        [int] and [unsigned] are 32 bits wide (LP64).  Integers are [Z] and
        the wrap-around of each arithmetic operation is written out.
      - [std::vector<double>] is [list float]; [v[i]] is only ever used with
        [i] below the length (C++ leaves the other case undefined).
      - Worker threads are a list of program counters over one shared [y];
        a schedule is the list of thread ids the scheduler picks. *)

From Stdlib Require Import ZArith Lia Floats Ascii String.
From stdpp Require Import base tactics option list numbers strings.

Local Open Scope Z_scope.

(** ** Machine integers *)

Module Machine.

Definition SIZE_MAX : Z := 2 ^ 64 - 1.
Definition INT_MAX : Z := 2 ^ 31 - 1.
Definition INT_MIN : Z := - 2 ^ 31.
Definition UINT_MAX : Z := 2 ^ 32 - 1.
Definition LONG_MAX : Z := 2 ^ 63 - 1.
Definition LONG_MIN : Z := - 2 ^ 63.
(** [std::vector<double>::max_size()]: [PTRDIFF_MAX / sizeof(double)]. *)
Definition VECTOR_MAX : Z := LONG_MAX / 8.

(** Reduction to [size_t]: what unsigned 64-bit arithmetic keeps. *)
Definition to_size_t (z : Z) : Z := z mod 2 ^ 64.
(** Reduction to [unsigned] (32 bits). *)
Definition to_unsigned (z : Z) : Z := z mod 2 ^ 32.
(** Reduction to [int] (two's complement, 32 bits). *)
Definition to_int (z : Z) : Z := (z + 2 ^ 31) mod 2 ^ 32 - 2 ^ 31.

Definition size_add (a b : Z) : Z := to_size_t (a + b).
Definition size_sub (a b : Z) : Z := to_size_t (a - b).
Definition size_mul (a b : Z) : Z := to_size_t (a * b).
(** [a / b] on [size_t]; the callers never pass [b = 0]. *)
Definition size_div (a b : Z) : Z := a / b.

Definition is_size_t (z : Z) : Prop := 0 <= z <= SIZE_MAX.
Definition is_int (z : Z) : Prop := INT_MIN <= z <= INT_MAX.

End Machine.

Import Machine.

(** ** Static partitioning *)

Module Partition.

(** A half-open index range [[lo, hi)]. *)
Abbreviation range := (Z * Z)%type (only parsing).

(** [0; 1; ...; n-1] as loop counters. *)
Definition counters (n : Z) : list Z := Z.of_nat <$> seq 0 (Z.to_nat n).

(** *** Driver 1: [DaxpyBenchmark::run_multithreaded]

    [chunk_size = vector_size / num_threads], and for each [t]
    [start = t * chunk_size],
    [end = (t == num_threads - 1) ? vector_size : (t + 1) * chunk_size]. *)
Definition chunk_size (vector_size num_threads : Z) : Z :=
  size_div vector_size num_threads.

Definition bench_start (vector_size num_threads t : Z) : Z :=
  size_mul t (chunk_size vector_size num_threads).

Definition bench_end (vector_size num_threads t : Z) : Z :=
  if t =? size_sub num_threads 1 then vector_size
  else size_mul (size_add t 1) (chunk_size vector_size num_threads).

Definition bench_range (vector_size num_threads t : Z) : range :=
  (bench_start vector_size num_threads t, bench_end vector_size num_threads t).

(** The ranges handed to the threads, in launch order. *)
Definition bench_ranges (vector_size num_threads : Z) : list range :=
  bench_range vector_size num_threads <$> counters num_threads.

(** *** Driver 2: the prologue of [MultiThreadedDaxpy::thread_worker]

    [elements_per_thread = vector_size / num_threads],
    [start_idx = thread_id * elements_per_thread],
    [end_idx = (thread_id == num_threads - 1) ? vector_size
                                              : start_idx + elements_per_thread].
    [num_threads] and [thread_id] are [int]s, converted to [size_t] where
    they meet [vector_size]. *)
Definition elements_per_thread (vector_size num_threads : Z) : Z :=
  size_div vector_size (to_size_t num_threads).

Definition start_idx (vector_size num_threads thread_id : Z) : Z :=
  size_mul (to_size_t thread_id) (elements_per_thread vector_size num_threads).

Definition end_idx (vector_size num_threads thread_id : Z) : Z :=
  if thread_id =? to_int (num_threads - 1) then vector_size
  else size_add (start_idx vector_size num_threads thread_id)
                (elements_per_thread vector_size num_threads).

Definition worker_range (vector_size num_threads thread_id : Z) : range :=
  (start_idx vector_size num_threads thread_id,
   end_idx vector_size num_threads thread_id).

(** One range per worker, [run_parallel] launching ids [0 .. num_threads-1]. *)
Definition worker_ranges (vector_size num_threads : Z) : list range :=
  worker_range vector_size num_threads <$> counters num_threads.

(** *** What a partition of [[0, N)] is *)

(** The ranges are chained: the first starts at [from], each next one
    starts where the previous ended, the last ends at [upto]. *)
Fixpoint chained (from upto : Z) (rs : list range) : Prop :=
  match rs with
  | [] => from = upto
  | (lo, hi) :: rs' => lo = from /\ lo <= hi /\ chained hi upto rs'
  end.

(** Every index of [[0, N)] lies in exactly one range, and no range
    reaches outside [[0, N)]. *)
Definition exact_cover (N : Z) (rs : list range) : Prop :=
  (forall t lo hi, rs !! t = Some (lo, hi) -> 0 <= lo <= hi /\ hi <= N) /\
  (forall i, 0 <= i < N ->
     exists t lo hi, rs !! t = Some (lo, hi) /\ lo <= i < hi) /\
  (forall t t' lo hi lo' hi' i,
     rs !! t = Some (lo, hi) -> rs !! t' = Some (lo', hi') ->
     lo <= i < hi -> lo' <= i < hi' -> t = t').

End Partition.

Import Partition.

(** ** The DAXPY kernel *)

Module Daxpy.

(** [alpha * x + y] on doubles. *)
Definition axpy (alpha x y : float) : float := (alpha * x + y)%float.

(** [v[i]] and [v[i] = a] for an index held in a [size_t]. *)
Definition vget (v : list float) (i : Z) : float := nth (Z.to_nat i) v 0%float.
Definition vset (v : list float) (i : Z) (a : float) : list float :=
  <[Z.to_nat i := a]> v.

(** [for (size_t i = lo; i < hi; ++i) body(i)], [n] being the number of
    iterations left.  [++i] cannot wrap: [i < hi <= SIZE_MAX]. *)
Fixpoint for_count {S : Type} (n : nat) (i : Z) (body : Z -> S -> S) (s : S) : S :=
  match n with
  | O => s
  | S n' => for_count n' (i + 1) body (body i s)
  end.

Definition for_loop {S : Type} (lo hi : Z) (body : Z -> S -> S) (s : S) : S :=
  for_count (Z.to_nat (hi - lo)) lo body s.

(** The loop body shared by [daxpy_thread], [thread_worker],
    [run_sequential] and [verify_results]: [y[i] = alpha * x[i] + y[i]]. *)
Definition daxpy_at (alpha : float) (x : list float) (i : Z) (y : list float) : list float :=
  vset y i (axpy alpha (vget x i) (vget y i)).

(** [DaxpyBenchmark::daxpy_thread(start, end)] executed on its own. *)
Definition daxpy_thread (alpha : float) (x : list float) (start end_ : Z)
    (y : list float) : list float :=
  for_loop start end_ (daxpy_at alpha x) y.

(** The sequential pass of [run_sequential] and [verify_results]:
    [for (size_t i = 0; i < vector_size; ++i) y[i] = alpha * x[i] + y[i]]. *)
Definition sequential_pass (alpha : float) (x : list float) (vector_size : Z)
    (y : list float) : list float :=
  for_loop 0 vector_size (daxpy_at alpha x) y.

End Daxpy.

Import Daxpy.

(** ** Worker threads over a shared [y] *)

Module Threads.

(** The two rendezvous of [thread_worker]: before and after the loop. *)
Inductive rendezvous : Type := Opening | Closing.

(** The two gem5 pseudo-instructions the worker may issue. *)
Inductive m5op : Type := m5_dump_reset_stats | m5_dump_stats.

(** Where a worker stands in its body. *)
Inductive pc : Type :=
| Arrive (b : rendezvous)
    (** about to call [thread_barrier.arrive_and_wait()] *)
| Waiting (b : rendezvous) (token : nat)
    (** arrived during phase [token], blocked until that phase completes *)
| Hook (b : rendezvous)
    (** at the [if (thread_id == 0) { ... }] block that follows the barrier *)
| Loop (i : Z)
    (** at the loop test [i < end] *)
| Store (i : Z) (v : float)
    (** [alpha * x[i] + y[i]] evaluated to [v], about to assign [y[i]] *)
| Done.

(** What an observer of the run can see, one entry per action. *)
Inductive event : Type :=
| Arrived (b : rendezvous) (t : nat)
| Passed (b : rendezvous) (t : nat)
| Stats (op : m5op) (t : nat)
| Wrote (t : nat) (i : Z).

(** What is fixed for the whole compute phase. *)
Record config : Type := Config {
  gated : bool;        (** [true]: the body is [thread_worker] (driver 2);
                           [false]: it is [daxpy_thread] (driver 1) *)
  gem5 : bool;         (** built with [GEM5] defined *)
  parties : nat;       (** the count [thread_barrier] was constructed with *)
  alpha : float;
  xs : list float;
  ranges : list range  (** worker [t] updates [ranges !! t] *)
}.

(** The shared memory, the workers, the barrier and the history. *)
Record state : Type := State {
  ys : list float;
  pcs : list pc;
  arrived : nat;       (** arrivals of the barrier's current phase *)
  phase : nat;         (** number of completed barrier phases *)
  log : list event     (** oldest first *)
}.

Definition first_pc (c : config) (r : range) : pc :=
  if gated c then Arrive Opening else Loop (fst r).

Definition initial (c : config) (y : list float) : state :=
  State y (first_pc c <$> ranges c) 0 0 [].

(** [m5op] is issued only by the worker whose [thread_id] is 0, and only
    in a build where [GEM5] is defined. *)
Definition stats_call (c : config) (t : nat) (op : m5op) : list event :=
  if (t =? 0)%nat && gem5 c then [Stats op t] else [].

(** One action of worker [t]; [None] when the worker does not exist, has
    returned, or is blocked in the barrier. *)
Definition step (c : config) (t : nat) (s : state) : option state :=
  match pcs s !! t, ranges c !! t with
  | Some p, Some (lo, hi) =>
    let goto p' evs :=
      State (ys s) (<[t := p']> (pcs s)) (arrived s) (phase s) (log s ++ evs) in
    match p with
    | Arrive b =>
        let pcs' := <[t := Waiting b (phase s)]> (pcs s) in
        let log' := log s ++ [Arrived b t] in
        if (S (arrived s) =? parties c)%nat
        then Some (State (ys s) pcs' 0 (S (phase s)) log')
        else Some (State (ys s) pcs' (S (arrived s)) (phase s) log')
    | Waiting b token =>
        if (phase s =? token)%nat then None
        else Some (goto (Hook b) [Passed b t])
    | Hook Opening =>
        Some (goto (Loop lo) (stats_call c t m5_dump_reset_stats))
    | Loop i =>
        if i <? hi
        then Some (goto (Store i (axpy (alpha c) (vget (xs c) i) (vget (ys s) i))) [])
        else Some (goto (if gated c then Arrive Closing else Done) [])
    | Store i v =>
        Some (State (vset (ys s) i v) (<[t := Loop (i + 1)]> (pcs s))
                    (arrived s) (phase s) (log s ++ [Wrote t i]))
    | Hook Closing =>
        Some (goto Done (stats_call c t m5_dump_stats))
    | Done => None
    end
  | _, _ => None
  end.

(** The scheduler's picks, taken in order; a pick that cannot act (a
    blocked or finished worker) leaves the state as it is. *)
Definition pick (c : config) (s : state) (t : nat) : state :=
  default s (step c t s).

Definition run_schedule (c : config) (sched : list nat) (s : state) : state :=
  foldl (pick c) s sched.

Definition is_done (p : pc) : bool := if p is Done then true else false.

Definition all_done (s : state) : bool := forallb is_done (pcs s).

(** The lowest-numbered worker that can act. *)
Definition runnable (c : config) (s : state) : option nat :=
  find (fun t => bool_decide (is_Some (step c t s))) (seq 0 (length (pcs s))).

(** [join]: the launcher waits until every worker has returned; the
    workers that can still act do so, lowest id first. *)
Fixpoint join (c : config) (fuel : nat) (s : state) : state :=
  match fuel with
  | O => s
  | S fuel' =>
      match runnable c s with
      | Some t => join c fuel' (pick c s t)
      | None => s
      end
  end.

(** An upper bound on the actions worker [t] still has to take. *)
Definition steps_left (r : range) (p : pc) : nat :=
  match p with
  | Arrive Opening => 7 + 2 * Z.to_nat (snd r - fst r)
  | Waiting Opening _ => 6 + 2 * Z.to_nat (snd r - fst r)
  | Hook Opening => 5 + 2 * Z.to_nat (snd r - fst r)
  | Loop i => 4 + 2 * Z.to_nat (snd r - i)
  | Store i _ => 5 + 2 * Z.to_nat (snd r - (i + 1))
  | Arrive Closing => 3
  | Waiting Closing _ => 2
  | Hook Closing => 1
  | Done => 0
  end%nat.

Definition work_left (c : config) (s : state) : nat :=
  sum_list (zip_with steps_left (ranges c) (pcs s)).

(** The whole compute phase: the workers are launched, run under the given
    schedule, and are joined. *)
Definition compute (c : config) (sched : list nat) (y : list float) : state :=
  let s := run_schedule c sched (initial c y) in
  join c (work_left c s) s.

End Threads.

Import Threads.

(** ** The process around the benchmark: output, exceptions, environment *)

Module Runtime.

(** The exceptions the two programs can meet. *)
Inductive exception : Type :=
| invalid_argument (what : string)   (** [std::sto*]: no conversion *)
| out_of_range (what : string)       (** [std::sto*]: value does not fit *)
| length_error (what : string)       (** a vector above [max_size()] *)
| bad_alloc                          (** a vector cannot be allocated *)
| system_error.                      (** a thread cannot be created *)

(** A call returns, throws, or ends in [std::terminate] while an
    exception is in flight. *)
Inductive result (A : Type) : Type :=
| Ok (a : A)
| Throw (e : exception)
| Abort (e : exception).
Arguments Ok {A} a.
Arguments Throw {A} e.
Arguments Abort {A} e.

Definition bind {A B : Type} (r : result A) (k : A -> result B) : result B :=
  match r with
  | Ok a => k a
  | Throw e => Throw e
  | Abort e => Abort e
  end.

(** How the process ends: [main] returns a code, or an exception leaves
    [main] uncaught, which calls [std::terminate] and aborts the process. *)
Inductive outcome : Type :=
| Exit (code : Z)
| Terminate (e : exception).


Inductive stream : Type := Cout | Cerr.

Inductive payload : Type :=
| Text (s : string)
| Int (z : Z)
| Double (a : float)
| Doubles (l : list float).

(** One line of output: the literal the program prints and the value that
    follows it. *)
Record line : Type := Line { to : stream; label : string; value : payload }.

(** A finished run of one of the programs. *)
Record process : Type := Process {
  status : outcome;
  output : list line;      (** oldest first *)
  workers : nat            (** worker threads created *)
}.

(** What the program reads from its environment. *)
Record world : Type := World {
  schedule : list nat;          (** the scheduler's picks during the compute phase *)
  elapsed : Z;                  (** microseconds between the two clock readings *)
  random : nat -> float;        (** the successive draws of [dis(gen)] *)
  hardware_concurrency : Z;     (** [std::thread::hardware_concurrency()] *)
  can_allocate : Z -> bool;     (** vectors of that many doubles can be created *)
  max_threads : Z               (** threads the system lets the process create *)
}.

(** Why a vector of [n] doubles cannot be created: above [max_size()] the
    container refuses with [std::length_error], whose message is [what];
    below it the allocator has failed with [std::bad_alloc].  On a real
    system [can_allocate] is false for every size above [max_size()]. *)
Definition creation_error (what : string) (n : Z) : exception :=
  if VECTOR_MAX <? n then length_error what else bad_alloc.

End Runtime.

Import Runtime.

(** ** Numeric arguments *)

Module Parse.

(** [isspace] in the "C" locale. *)
Definition isspace (a : ascii) : bool :=
  let n := Z.of_nat (nat_of_ascii a) in (n =? 32) || ((9 <=? n) && (n <=? 13)).

Fixpoint skip_spaces (s : string) : string :=
  match s with
  | String a s' => if isspace a then skip_spaces s' else s
  | EmptyString => s
  end.

Definition digit (a : ascii) : option Z :=
  let n := Z.of_nat (nat_of_ascii a) in
  if (48 <=? n) && (n <=? 57) then Some (n - 48) else None.

(** The value of the longest run of decimal digits at the head of [s];
    [None] when [s] does not start with a digit. *)
Fixpoint digits (s : string) (acc : Z) (seen : bool) : option Z :=
  match s with
  | String a s' =>
      match digit a with
      | Some d => digits s' (10 * acc + d) true
      | None => if seen then Some acc else None
      end
  | EmptyString => if seen then Some acc else None
  end.

(** An optional sign. *)
Definition split_sign (s : string) : bool * string :=
  match s with
  | String "-"%char s' => (true, s')
  | String "+"%char s' => (false, s')
  | _ => (false, s)
  end.

(** The subject sequence of [strtol], [strtoul] and [strtoull] in base 10:
    white space, an optional sign, digits; what follows is ignored.  The
    result is the sign and the magnitude. *)
Definition scan_integer (s : string) : option (bool * Z) :=
  let '(negative, rest) := split_sign (skip_spaces s) in
  match digits rest 0 false with
  | Some m => Some (negative, m)
  | None => None
  end.

(** [std::stoul] and [std::stoull] (64 bits both): no digits is
    [invalid_argument], a magnitude above [ULONG_MAX] is [out_of_range],
    and a minus sign negates in the unsigned type. *)
Definition sto_unsigned (name : string) (s : string) : result Z :=
  match scan_integer s with
  | None => Throw (invalid_argument name)
  | Some (negative, m) =>
      if SIZE_MAX <? m then Throw (out_of_range name)
      else Ok (if negative then to_size_t (- m) else m)
  end.

Definition stoul : string -> result Z := sto_unsigned "stoul".
Definition stoull : string -> result Z := sto_unsigned "stoull".

(** [std::stoi]: [strtol], then the check that the [long] fits an [int]. *)
Definition stoi (s : string) : result Z :=
  match scan_integer s with
  | None => Throw (invalid_argument "stoi")
  | Some (negative, m) =>
      let v := if negative then - m else m in
      if (v <? LONG_MIN) || (LONG_MAX <? v) then Throw (out_of_range "stoi")
      else if (v <? INT_MIN) || (INT_MAX <? v) then Throw (out_of_range "stoi")
      else Ok v
  end.

(** [argv[i]]. *)
Definition arg (argv : list string) (i : nat) : string := nth i argv EmptyString.

End Parse.

Import Parse.

(** ** Driver 1: [daxpy_benchmark.cpp] *)

Module DaxpyBenchmark.

Record t : Type := Build {
  x : list float;
  y : list float;
  vector_size : Z;
  num_threads : Z;
  alpha : float
}.

(** [static_cast<double>] of a [size_t]: the nearest double. *)
Definition to_double (z : Z) : float :=
  SF2Prim (binary_normalize prec emax z 0 false).

(** The body of the constructor's loop:
    [x[i] = (double)(i + 1); y[i] = (double)(vector_size - i)]. *)
Definition init_at (vector_size : Z) (i : Z) (xy : list float * list float)
    : list float * list float :=
  (vset (fst xy) i (to_double (size_add i 1)),
   vset (snd xy) i (to_double (size_sub vector_size i))).

(** [DaxpyBenchmark(size, threads, a)]: both vectors are resized to
    [size] zeros and then filled. *)
Definition construct (size threads : Z) (a : float) : t :=
  let zeros := replicate (Z.to_nat size) 0%float in
  let xy := for_loop 0 size (init_at size) (zeros, zeros) in
  Build (fst xy) (snd xy) size threads a.

(** The workers of [run_multithreaded] run [daxpy_thread] on the ranges
    of [bench_ranges]; there is no barrier and no gem5 call. *)
Definition workers_config (o : t) : config :=
  Config false false 0 (alpha o) (x o)
         (bench_ranges (vector_size o) (num_threads o)).

Definition elapsed_line (what : string) (w : world) : line :=
  Line Cout what (Int (elapsed w)).

(** [run_multithreaded]: creating a thread the system refuses throws out
    of the function. *)
Definition run_multithreaded (w : world) (o : t) : result (t * list line) :=
  if max_threads w <? num_threads o then Throw system_error
  else
    let s := compute (workers_config o) (schedule w) (y o) in
    Ok (Build (x o) (ys s) (vector_size o) (num_threads o) (alpha o),
        [elapsed_line "Multi-threaded execution time: " w]).

Definition run_single_threaded (w : world) (o : t) : t * list line :=
  (Build (x o) (daxpy_thread (alpha o) (x o) 0 (vector_size o) (y o))
         (vector_size o) (num_threads o) (alpha o),
   [elapsed_line "Single-threaded execution time: " w]).

(** [print_results]: the first [min(10, vector_size)] elements of [y]. *)
Definition print_results (o : t) : line :=
  Line Cout "First 10 results: "
       (Doubles (vget (y o) <$> counters (Z.min 10 (vector_size o)))).

(** The three optional arguments, read left to right. *)
Definition parse_arguments (stod : string -> result float) (argv : list string)
    : result (Z * Z * float) :=
  let argc := Z.of_nat (length argv) in
  bind (if 2 <=? argc then stoul (arg argv 1) else Ok 1000) (fun vector_size =>
  bind (if 3 <=? argc then stoul (arg argv 2) else Ok 1) (fun num_threads =>
  bind (if 4 <=? argc then stod (arg argv 3) else Ok 2.5%float) (fun alpha =>
  Ok (vector_size, num_threads, alpha)))).

Definition banner (vector_size num_threads : Z) (alpha : float) : list line :=
  [ Line Cout "DAXPY Benchmark" (Text "");
    Line Cout "Vector size: " (Int vector_size);
    Line Cout "Threads: " (Int num_threads);
    Line Cout "Alpha: " (Double alpha);
    Line Cout "Starting computation..." (Text "") ].

(** The branch of [main] that does the work: the threads of
    [run_multithreaded] when [num_threads > 1], the calling thread alone
    otherwise. *)
Definition compute_phase (w : world) (o : t) : result (t * list line) :=
  if 1 <? num_threads o then run_multithreaded w o
  else Ok (run_single_threaded w o).

(** Threads created by the compute phase. *)
Definition threads_created (w : world) (o : t) : nat :=
  if 1 <? num_threads o then Z.to_nat (Z.min (max_threads w) (num_threads o))
  else 0%nat.

(** [main]; nothing is caught, so whatever is thrown ends the process in
    [std::terminate]: a conversion, [x.resize(vector_size)] in the
    constructor, or the creation of a thread. *)
Definition main (stod : string -> result float) (w : world) (argv : list string)
    : process :=
  match parse_arguments stod argv with
  | Throw e | Abort e => Process (Terminate e) [] 0
  | Ok (vector_size, num_threads, alpha) =>
      let out := banner vector_size num_threads alpha in
      if negb (can_allocate w vector_size) then
        Process (Terminate (creation_error "vector::_M_default_append" vector_size))
                out 0
      else
        let benchmark := construct vector_size num_threads alpha in
        match compute_phase w benchmark with
        | Throw e | Abort e =>
            Process (Terminate e) out (threads_created w benchmark)
        | Ok (benchmark', timing) =>
            Process (Exit 0)
              (out ++ timing ++
               [print_results benchmark';
                Line Cout "Benchmark completed!" (Text "")])
              (threads_created w benchmark)
        end
  end.

End DaxpyBenchmark.

(** ** Driver 2: [multi_threaded_daxpy.cpp] *)

Module MultiThreadedDaxpy.

Record t : Type := Build {
  vector_size : Z;
  num_threads : Z;
  alpha : float;
  x : list float;
  y : list float;
  y_original : list float
}.

Definition with_y (o : t) (y' : list float) : t :=
  Build (vector_size o) (num_threads o) (alpha o) (x o) y' (y_original o).

(** The body of the constructor's loop:
    [x[i] = dis(gen); y[i] = dis(gen); y_original[i] = y[i]], the draws
    being numbered in the order they are made. *)
Definition init_at (random : nat -> float) (i : Z)
    (v : list float * list float * list float)
    : list float * list float * list float :=
  let '(x, y, y_original) := v in
  let x := vset x i (random (2 * Z.to_nat i)%nat) in
  let y := vset y i (random (2 * Z.to_nat i + 1)%nat) in
  (x, y, vset y_original i (vget y i)).

Definition banner (o : t) : list line :=
  [ Line Cout "DAXPY Multi-threaded Benchmark" (Text "");
    Line Cout "Vector size: " (Int (vector_size o));
    Line Cout "Threads: " (Int (num_threads o));
    Line Cout "Alpha: " (Double (alpha o)) ].

(** [MultiThreadedDaxpy(size, threads, a)]: the member initialisers
    [x(size), y(size), y_original(size)] come first and may throw; the
    body fills the vectors and prints the banner. *)
Definition construct (w : world) (size threads : Z) (a : float)
    : result (t * list line) :=
  if negb (can_allocate w size) then
    Throw (creation_error "cannot create std::vector larger than max_size()" size)
  else
    let zeros := replicate (Z.to_nat size) 0%float in
    let '(x, y, y_original) :=
      for_loop 0 size (init_at (random w)) (zeros, zeros, zeros) in
    let o := Build size threads a x y y_original in
    Ok (o, banner o).

(** The workers of [run_parallel] run [thread_worker] on the ranges of
    [worker_ranges], gated by a barrier for [num_threads] parties. *)
Definition workers_config (GEM5 : bool) (o : t) : config :=
  Config true GEM5 (Z.to_nat (num_threads o)) (alpha o) (x o)
         (worker_ranges (vector_size o) (num_threads o)).

(** The literal [1e-10]. *)
Definition tolerance : float := 0x1.b7cdfd9d7bdbbp-34%float.

(** [std::max(a, b)] is [(a < b) ? b : a]. *)
Definition std_max (a b : float) : float := if (a <? b)%float then b else a.

(** The body of the comparison loop of [verify_results]. *)
Definition compare_at (parallel_result y : list float) (i : Z)
    (acc : bool * float) : bool * float :=
  let '(correct, max_error) := acc in
  let error := abs (vget parallel_result i - vget y i)%float in
  let max_error := std_max max_error error in
  (if (tolerance <? error)%float then false else correct, max_error).

(** The comparison loop of [verify_results], from
    [correct = true; max_error = 0.0]. *)
Definition compare (parallel_result y : list float) (vector_size : Z)
    : bool * float :=
  for_loop 0 vector_size (compare_at parallel_result y) (true, 0%float).

Definition verdict (correct : bool) : string :=
  if correct then "PASSED" else "FAILED".

(** [verify_results]. *)
Definition verify_results (o : t) : t * list line :=
  let parallel_result := y o in
  let o := with_y o (y_original o) in
  let o := with_y o (sequential_pass (alpha o) (x o) (vector_size o) (y o)) in
  let '(correct, max_error) := compare parallel_result (y o) (vector_size o) in
  let report :=
    [ Line Cout "Results verification: " (Text (verdict correct));
      Line Cout "Maximum error: " (Double max_error) ] in
  let o := with_y o parallel_result in
  (o, report ++
      [ Line Cout "First 10 results: "
          (Doubles (vget (y o) <$> counters (Z.min 10 (vector_size o)))) ]).

(** The threads of [run_parallel], from launch to the last [join]. *)
Definition compute_phase (GEM5 : bool) (w : world) (o : t) : t :=
  with_y o (ys (compute (workers_config GEM5 o) (schedule w) (y o))).

(** [run_parallel].  When the system refuses a thread, [emplace_back]
    throws; unwinding then destroys the threads already created, which are
    still joinable, and that calls [std::terminate]. *)
Definition run_parallel (GEM5 : bool) (w : world) (o : t)
    : result (t * list line) * list line :=
  let start := [Line Cout "Starting parallel computation..." (Text "")] in
  if max_threads w <? num_threads o then
    (if max_threads w <=? 0 then Throw system_error else Abort system_error, start)
  else
    let o := compute_phase GEM5 w o in
    let timing := [Line Cout "Parallel execution time: " (Int (elapsed w))] in
    let '(o, report) := verify_results o in
    (Ok (o, start ++ timing ++ report), []).

(** [run_sequential] (not called by [main]). *)
Definition run_sequential (w : world) (o : t) : t * list line :=
  let o := with_y o (y_original o) in
  (with_y o (sequential_pass (alpha o) (x o) (vector_size o) (y o)),
   [ Line Cout "Running sequential version for comparison..." (Text "");
     Line Cout "Sequential execution time: " (Int (elapsed w)) ]).

Definition usage (prog : string) : list line :=
  [ Line Cerr "Usage: " (Text (prog ++ " <vector_size> <num_threads> <alpha>"));
    Line Cerr "Example: " (Text (prog ++ " 1000 4 2.5")) ].

(** The three conversions at the top of [main], outside the [try]. *)
Definition parse_arguments (stod : string -> result float) (argv : list string)
    : result (Z * Z * float) :=
  bind (stoull (arg argv 1)) (fun vector_size =>
  bind (stoi (arg argv 2)) (fun num_threads =>
  bind (stod (arg argv 3)) (fun alpha =>
  Ok (vector_size, num_threads, alpha)))).

(** [num_threads <= 0 || num_threads > hardware_concurrency()]: the
    second comparison is made in [unsigned]. *)
Definition bad_thread_count (w : world) (num_threads : Z) : bool :=
  (num_threads <=? 0) || (hardware_concurrency w <? to_unsigned num_threads).

(** The body of the [try] block. *)
Definition benchmark (GEM5 : bool) (w : world) (vector_size num_threads : Z)
    (alpha : float) : result (list line) * list line :=
  match construct w vector_size num_threads alpha with
  | Throw e => (Throw e, [])
  | Abort e => (Abort e, [])
  | Ok (o, out) =>
      match run_parallel GEM5 w o with
      | (Ok (_, out'), _) =>
          (Ok (out ++ out' ++
               [Line Cout "Benchmark completed successfully!" (Text "")]), [])
      | (Throw e, out') => (Throw e, out ++ out')
      | (Abort e, out') => (Abort e, out ++ out')
      end
  end.

Definition what (e : exception) : string :=
  match e with
  | invalid_argument s | out_of_range s | length_error s => s
  | bad_alloc => "std::bad_alloc"
  | system_error => "Resource temporarily unavailable"
  end.

Definition main (GEM5 : bool) (stod : string -> result float) (w : world)
    (argv : list string) : process :=
  if negb (length argv =? 4)%nat then Process (Exit 1) (usage (arg argv 0)) 0
  else
    match parse_arguments stod argv with
    | Throw e | Abort e => Process (Terminate e) [] 0
    | Ok (vector_size, num_threads, alpha) =>
        if bad_thread_count w num_threads then
          Process (Exit 1)
            [Line Cerr "Invalid number of threads. Must be between 1 and "
                  (Int (hardware_concurrency w))] 0
        else if vector_size =? 0 then
          Process (Exit 1)
            [Line Cerr "Vector size must be greater than 0" (Text "")] 0
        else
          match benchmark GEM5 w vector_size num_threads alpha with
          | (Ok out, _) => Process (Exit 0) out (Z.to_nat num_threads)
          | (Throw e, out) =>
              Process (Exit 1) (out ++ [Line Cerr "Error: " (Text (what e))]) 0
          | (Abort e, out) =>
              Process (Terminate e) out (Z.to_nat (max_threads w))
          end
    end.

End MultiThreadedDaxpy.

(** * What is proved about the programs *)

(** ** The partitioner's contract *)

Module PartitionSpec.

(** The closed form both drivers compute: [chunk = N / T], worker [t]
    gets [[t*chunk, (t+1)*chunk)], the last worker's range ends at [N]. *)
Definition static_range (N T t : Z) : range :=
  (t * (N / T), if t =? T - 1 then N else (t + 1) * (N / T)).

Definition static_ranges (N T : Z) : list range :=
  static_range N T <$> counters T.

(** The properties the partitioner promises for [N] elements and [T]
    workers. *)
Record contract (N T : Z) (rs : list range) : Prop := {
  exactly_T : Z.of_nat (length rs) = T;
  inner_ranges : forall t : nat, Z.of_nat t < T - 1 ->
    rs !! t = Some (Z.of_nat t * (N / T), (Z.of_nat t + 1) * (N / T));
  last_range : rs !! Z.to_nat (T - 1) = Some ((T - 1) * (N / T), N);
  first_start : fst <$> rs !! 0%nat = Some 0;
  contiguous : forall (t : nat) lo hi lo' hi',
    rs !! t = Some (lo, hi) -> rs !! S t = Some (lo', hi') -> lo' = hi;
  last_end : snd <$> rs !! Z.to_nat (T - 1) = Some N;
  covering : exact_cover N rs;
  single : T = 1 -> rs = [(0, N)]
}.

End PartitionSpec.

Import PartitionSpec.

(** ** What every interleaving preserves *)

Module Invariants.

(** The first index of its range a worker has not yet written. *)
Definition progress (r : range) (p : pc) : Z :=
  match p with
  | Arrive Opening | Waiting Opening _ | Hook Opening => fst r
  | Loop i | Store i _ => i
  | Arrive Closing | Waiting Closing _ | Hook Closing | Done => snd r
  end.

(** The value [y[j]] must hold while its owner stands at [p], [y0] being
    the vector the phase started from. *)
Definition value_at (c : config) (y0 : list float) (r : range) (p : pc)
    (j : Z) : float :=
  if j <? progress r p then axpy (alpha c) (vget (xs c) j) (vget y0 j)
  else vget y0 j.

Definition pc_ok (c : config) (y0 : list float) (r : range) (p : pc) : Prop :=
  match p with
  | Loop i => fst r <= i <= snd r
  | Store i v =>
      fst r <= i < snd r /\ v = axpy (alpha c) (vget (xs c) i) (vget y0 i)
  | _ => True
  end.

(** Each worker has updated exactly the part of its range below its loop
    counter; everything else still holds its initial value. *)
Record data_inv (c : config) (y0 : list float) (s : state) : Prop := {
  inv_workers : length (pcs s) = length (ranges c);
  inv_length : length (ys s) = length y0;
  inv_owned : forall t p r, pcs s !! t = Some p -> ranges c !! t = Some r ->
    pc_ok c y0 r p /\
    forall j, fst r <= j < snd r ->
      ys s !! Z.to_nat j = Some (value_at c y0 r p j)
}.

(** How many workers stand at a program counter satisfying [f]. *)
Fixpoint count_if (f : pc -> bool) (l : list pc) : nat :=
  match l with
  | [] => 0
  | p :: l' => (if f p then 1 else 0) + count_if f l'
  end%nat.

(** Blocked in the barrier on the phase [ph]. *)
Definition waits_on (ph : nat) (p : pc) : bool :=
  match p with
  | Waiting _ token => (token =? ph)%nat
  | _ => false
  end.

(** Where a worker can stand while [ph] barrier phases have completed. *)
Definition stage_ok (c : config) (ph : nat) (p : pc) : Prop :=
  if gated c then
    match p with
    | Arrive Opening => ph = 0%nat
    | Waiting Opening token => token = 0%nat /\ (ph <= 1)%nat
    | Hook Opening | Loop _ | Store _ _ | Arrive Closing => ph = 1%nat
    | Waiting Closing token => token = 1%nat /\ (1 <= ph <= 2)%nat
    | Hook Closing | Done => ph = 2%nat
    end
  else
    match p with
    | Loop _ | Store _ _ | Done => True
    | _ => False
    end.

(** The barrier's counter is the number of workers blocked in it, never
    all of them, and every worker stands where the phase allows. *)
Record barrier_inv (c : config) (s : state) : Prop := {
  bar_workers : length (pcs s) = length (ranges c);
  bar_count : gated c = true ->
    arrived s = count_if (waits_on (phase s)) (pcs s);
  bar_open : gated c = true -> (arrived s < parties c)%nat;
  bar_stage : forall t p, pcs s !! t = Some p -> stage_ok c (phase s) p
}.

End Invariants.

Import Invariants.

(** ** What the workers do, in order *)

Module History.

(** The events of worker [t]. *)
Definition by_thread (t : nat) (e : event) : bool :=
  match e with
  | Arrived _ t' | Passed _ t' | Stats _ t' | Wrote t' _ => (t' =? t)%nat
  end.

Definition thread_log (t : nat) (l : list event) : list event :=
  List.filter (by_thread t) l.

Definition is_stats (e : event) : bool :=
  if e is Stats _ _ then true else false.

(** The calls made to the statistics interface, in order. *)
Definition stats_log (l : list event) : list event := List.filter is_stats l.

(** The assignments to [y[lo]], ..., [y[i - 1]]. *)
Definition writes (t : nat) (lo i : Z) : list event :=
  Wrote t <$> seqZ lo (i - lo).

(** What a worker has done before its loop, and after it. *)
Definition prologue (c : config) (t : nat) : list event :=
  if gated c
  then [Arrived Opening t; Passed Opening t] ++ stats_call c t m5_dump_reset_stats
  else [].

Definition epilogue (c : config) (t : nat) : list event :=
  if gated c
  then [Arrived Closing t; Passed Closing t] ++ stats_call c t m5_dump_stats
  else [].

(** What worker [t], whose range is [r], has done when it stands at [p]. *)
Definition history (c : config) (t : nat) (r : range) (p : pc) : list event :=
  match p with
  | Arrive Opening => []
  | Waiting Opening _ => [Arrived Opening t]
  | Hook Opening => [Arrived Opening t; Passed Opening t]
  | Loop i | Store i _ => prologue c t ++ writes t (fst r) i
  | Arrive Closing => prologue c t ++ writes t (fst r) (snd r)
  | Waiting Closing _ =>
      prologue c t ++ writes t (fst r) (snd r) ++ [Arrived Closing t]
  | Hook Closing =>
      prologue c t ++ writes t (fst r) (snd r) ++
      [Arrived Closing t; Passed Closing t]
  | Done => prologue c t ++ writes t (fst r) (snd r) ++ epilogue c t
  end.

(** The rendezvous a statistics call is made after. *)
Definition crossing (op : m5op) : rendezvous :=
  match op with
  | m5_dump_reset_stats => Opening
  | m5_dump_stats => Closing
  end.

(** The rendezvous an event comes after: a worker passing it, and the
    statistics call that follows it. *)
Definition follows (e : event) : option rendezvous :=
  match e with
  | Passed b _ => Some b
  | Stats op _ => Some (crossing op)
  | Arrived _ _ | Wrote _ _ => None
  end.

(** No worker has passed a rendezvous, and no statistics call that follows
    it has been made, before all [T] workers had arrived at it. *)
Definition barrier_respected (T : nat) (l : list event) : Prop :=
  forall l1 l2 e b, l = l1 ++ e :: l2 -> follows e = Some b ->
  forall t', (t' < T)%nat -> In (Arrived b t') l1.

(** What one action of worker [t], standing at [p], may add to the log. *)
Definition event_ok (s : state) (t : nat) (p : pc) (e : event) : Prop :=
  by_thread t e = true /\
  (forall op t', e = Stats op t' -> t' = 0%nat) /\
  (forall b, follows e = Some b ->
     (exists token, p = Waiting b token /\ phase s <> token) \/ p = Hook b).

(** The log agrees with where the workers stand. *)
Record log_inv (c : config) (s : state) : Prop := {
  log_threads : forall t p r, pcs s !! t = Some p -> ranges c !! t = Some r ->
    thread_log t (log s) = history c t r p;
  log_stats : forall op t, In (Stats op t) (log s) -> t = 0%nat;
  log_barrier : barrier_respected (length (ranges c)) (log s)
}.

(** The three invariants together. *)
Definition inv (c : config) (y0 : list float) (s : state) : Prop :=
  data_inv c y0 s /\ barrier_inv c s /\ log_inv c s.

End History.

Import History.

(** ** What the verifier measures *)

Module VerifierSpec.

(** [e] is a number, not a NaN. *)
Definition is_number (e : float) : bool := negb (is_nan e).

(** The absolute error the comparison loop computes at index [i]. *)
Definition error_at (parallel_result y : list float) (i : Z) : float :=
  abs (vget parallel_result i - vget y i)%float.

(** What the comparison loop has established once it has handled the
    indices of [[0, hi)]. *)
Record compared (err : Z -> float) (hi : Z) (acc : bool * float) : Prop := {
  max_number : is_number (snd acc) = true;
  verdict_max : fst acc = (snd acc <=? MultiThreadedDaxpy.tolerance)%float;
  max_bounds : forall j, 0 <= j < hi -> is_number (err j) = true ->
    (err j <=? snd acc)%float = true;
  max_attained : snd acc = 0%float \/ exists j, 0 <= j < hi /\ snd acc = err j;
  verdict_all : fst acc = true <->
    forall j, 0 <= j < hi -> (MultiThreadedDaxpy.tolerance <? err j)%float = false
}.

(** The comparison loop passes [parallel_result] against [y] with a
    maximum error within the tolerance, and no element is off by more
    than the tolerance. *)
Definition within_tolerance (parallel_result y : list float) (N : Z) : Prop :=
  (exists max_error,
     MultiThreadedDaxpy.compare parallel_result y N = (true, max_error) /\
     (max_error <=? MultiThreadedDaxpy.tolerance)%float = true) /\
  forall i, 0 <= i < N ->
    (MultiThreadedDaxpy.tolerance <? error_at parallel_result y i)%float = false.

End VerifierSpec.

Import VerifierSpec.

(** ** What driver 1 prints *)

Module Driver1Spec.

(** The vectors [DaxpyBenchmark(N, T, a)] starts from. *)
Definition initial_x (N : Z) : list float :=
  (fun i => DaxpyBenchmark.to_double (i + 1)) <$> counters N.
Definition initial_y (N : Z) : list float :=
  (fun i => DaxpyBenchmark.to_double (N - i)) <$> counters N.

(** What a run of driver 1 leaves in [y]. *)
Definition expected_y (N : Z) (a : float) : list float :=
  zip_with (axpy a) (initial_x N) (initial_y N).

(** What driver 1 prints in a run that reaches the end of [main]. *)
Definition expected_output (w : world) (N T : Z) (a : float) : list line :=
  DaxpyBenchmark.banner N T a ++
  [ DaxpyBenchmark.elapsed_line
      (if 1 <? T then "Multi-threaded execution time: "
       else "Single-threaded execution time: ") w;
    Line Cout "First 10 results: "
         (Doubles (take (Z.to_nat (Z.min 10 N)) (expected_y N a)));
    Line Cout "Benchmark completed!" (Text "") ].

(** The result lines of a run: the vectors it printed. *)
Definition printed_results (p : process) : list (list float) :=
  omap (fun l => if value l is Doubles d then Some d else None) (output p).

End Driver1Spec.

Import Driver1Spec.

(** ** Command lines *)

Module CommandLine.







End CommandLine.

Import CommandLine.

(** ** Sample inputs *)

Module Samples.

(** An environment to run the programs in: eight hardware threads, room
    for vectors of up to [2^32] doubles, and a scheduler that starts with
    the later workers. *)
Definition sample_world : world :=
  World [3; 1; 1; 0; 2; 3; 0; 0; 1]%nat 250
        (fun k => (of_uint63 (Uint63.of_Z (Z.of_nat k)) + 1.5)%float)
        8 (fun n => n <=? 2 ^ 32) 64.

(** A stand-in for [std::stod] that knows two spellings. *)
Definition sample_stod (s : string) : result float :=
  if String.eqb s "2.5" then Ok 2.5%float
  else if String.eqb s "2" then Ok 2%float
  else Throw (invalid_argument "stod").

Definition x4 : list float := [1; 2; 3; 4]%float.
Definition y4 : list float := [10; 20; 30; 40]%float.

End Samples.

Import Samples.

(** ** Which elements the workers assign *)

Module Footprint.

(** An assignment to [y[i]]. *)
Definition writes_to (i : Z) (e : event) : bool :=
  match e with
  | Wrote _ j => j =? i
  | _ => false
  end.

(** How often [y[i]] has been assigned. *)
Definition times_written (i : Z) (l : list event) : nat :=
  length (List.filter (writes_to i) l).

(** The worker an event belongs to. *)
Definition thread_of (e : event) : nat :=
  match e with
  | Arrived _ t | Passed _ t | Stats _ t | Wrote t _ => t
  end.

(** Every event is the action of one of the workers that were launched. *)
Definition log_owned (c : config) (s : state) : Prop :=
  Forall (fun e => (thread_of e < length (ranges c))%nat) (log s).

(** Every assignment is made by a worker to an element of its own range,
    and every element of [[0, N)] is assigned exactly once. *)
Definition race_free (N : Z) (c : config) (l : list event) : Prop :=
  (forall t i, In (Wrote t i) l ->
     exists lo hi, ranges c !! t = Some (lo, hi) /\ lo <= i < hi /\ 0 <= i < N) /\
  (forall i, 0 <= i < N -> times_written i l = 1%nat) /\
  (forall i, ~ 0 <= i < N -> times_written i l = 0%nat).

End Footprint.

Import Footprint.

(** ** The measurement window of driver 2 *)

Module Window.

(** The updates of [y] all fall between the two rendezvous: when an
    element is assigned, all [T] workers have arrived at the first
    rendezvous, and when a worker has passed the second one, or the
    statistics are dumped, every element of [[0, N)] has been assigned. *)
Definition inside_window (T : nat) (N : Z) (l : list event) : Prop :=
  forall l1 e l2, l = l1 ++ e :: l2 ->
    (forall t i, e = Wrote t i ->
       forall t', (t' < T)%nat -> In (Arrived Opening t') l1) /\
    (follows e = Some Closing ->
       forall i, 0 <= i < N -> exists t, In (Wrote t i) l1).

End Window.

Import Window.

(** ** What driver 2 builds and prints *)

Module Driver2Spec.

(** The draws the constructor stores: [x[i]] is draw [2i] and [y[i]] is
    draw [2i + 1]. *)
Definition drawn_x (w : world) (N : Z) : list float :=
  (fun i => random w (2 * Z.to_nat i)%nat) <$> counters N.
Definition drawn_y (w : world) (N : Z) : list float :=
  (fun i => random w (2 * Z.to_nat i + 1)%nat) <$> counters N.

(** The object [MultiThreadedDaxpy(N, T, a)] builds. *)
Definition constructed (w : world) (N T : Z) (a : float) : MultiThreadedDaxpy.t :=
  MultiThreadedDaxpy.Build N T a (drawn_x w N) (drawn_y w N) (drawn_y w N).

(** What a run of driver 2 leaves in [y]. *)
Definition verified_y (w : world) (N : Z) (a : float) : list float :=
  zip_with (axpy a) (drawn_x w N) (drawn_y w N).

(** What driver 2 prints in a run that reaches the end of [main]. *)
Definition verified_output (w : world) (N T : Z) (a : float) : list line :=
  MultiThreadedDaxpy.banner (constructed w N T a) ++
  [ Line Cout "Starting parallel computation..." (Text "");
    Line Cout "Parallel execution time: " (Int (elapsed w));
    Line Cout "Results verification: " (Text "PASSED");
    Line Cout "Maximum error: " (Double 0%float);
    Line Cout "First 10 results: "
         (Doubles (take (Z.to_nat (Z.min 10 N)) (verified_y w N a)));
    Line Cout "Benchmark completed successfully!" (Text "") ].

(** What is printed before a thread that cannot be created ends the run. *)
Definition output_before_launch (w : world) (N T : Z) (a : float) : list line :=
  MultiThreadedDaxpy.banner (constructed w N T a) ++
  [ Line Cout "Starting parallel computation..." (Text "") ].

(** The configurations [main] lets through, on a system that has the
    memory and the threads they need. *)
Definition runs (w : world) (N T : Z) : Prop :=
  1 <= T <= hardware_concurrency w /\ N <> 0 /\
  can_allocate w N = true /\ T <= max_threads w.

End Driver2Spec.

Import Driver2Spec.

(** ** More sample inputs *)

Module Environments.

(** A system that lets the process create a single thread. *)
Definition crowded_world : world :=
  World [] 250 (random sample_world) 8 (can_allocate sample_world) 1.

(** A system that lets the process create no thread at all. *)
Definition exhausted_world : world :=
  World [] 250 (random sample_world) 8 (can_allocate sample_world) 0.

(** A platform on which [hardware_concurrency()] is not computable. *)
Definition unknown_world : world :=
  World [] 250 (random sample_world) 0 (can_allocate sample_world) 64.

End Environments.

Import Environments.

(** ** How the numeric arguments are spelled *)

Module Spelling.

(** [s] begins with a decimal digit. *)
Definition starts_with_digit (s : string) : bool :=
  match s with
  | String a _ => if digit a is Some _ then true else false
  | EmptyString => false
  end.

End Spelling.

Import Spelling.

(** ** A schedule that lets one worker run ahead *)

Module Skew.

(** All [T] workers arrive at the first barrier in turn; the last of them
    then passes it, enters its loop and assigns its first element. *)
Definition early_schedule (T : nat) : list nat :=
  seq 0 T ++ replicate 4 (T - 1)%nat.

(** An element is assigned before the statistics are reset. *)
Definition write_before_reset (l : list event) : Prop :=
  exists l1 t i l2 l3,
    l = l1 ++ Wrote t i :: l2 ++ Stats m5_dump_reset_stats 0 :: l3.

End Skew.

Import Skew.

(** * Proofs *)

(** ** Machine integers *)

Section machine_facts.

Lemma to_size_t_id z : is_size_t z -> to_size_t z = z.
Proof. unfold is_size_t, SIZE_MAX, to_size_t. intros. apply Z.mod_small. lia. Qed.

Lemma to_int_id z : is_int z -> to_int z = z.
Proof.
  unfold is_int, INT_MIN, INT_MAX, to_int. intros.
  rewrite Z.mod_small; lia.
Qed.

Lemma to_unsigned_id z : 0 <= z <= UINT_MAX -> to_unsigned z = z.
Proof. unfold UINT_MAX, to_unsigned. intros. apply Z.mod_small. lia. Qed.

End machine_facts.

(** ** Static partitioning *)

Section partition_facts.

Lemma length_counters n : length (counters n) = Z.to_nat n.
Proof. unfold counters. by rewrite length_fmap, length_seq. Qed.

Lemma lookup_counters n (t : nat) :
  (t < Z.to_nat n)%nat -> counters n !! t = Some (Z.of_nat t).
Proof.
  intros Ht. unfold counters.
  rewrite list_lookup_fmap, lookup_seq_lt by done. done.
Qed.

Lemma lookup_counters_inv n (t : nat) z :
  counters n !! t = Some z -> z = Z.of_nat t /\ (t < Z.to_nat n)%nat.
Proof.
  unfold counters. rewrite list_lookup_fmap.
  destruct (seq 0 (Z.to_nat n) !! t) as [k|] eqn:E; [|done].
  apply lookup_seq in E as [-> ?]. intros [= <-]. done.
Qed.

(** The chunk arithmetic never wraps. *)
Lemma chunk_mul_bound N T t :
  1 <= T -> 0 <= N -> 0 <= t <= T -> 0 <= t * (N / T) <= N.
Proof.
  intros HT HN Ht. split.
  - apply Z.mul_nonneg_nonneg; [lia|]. apply Z.div_pos; lia.
  - transitivity (T * (N / T)).
    + apply Z.mul_le_mono_nonneg_r; [apply Z.div_pos; lia | lia].
    + apply Z.mul_div_le. lia.
Qed.

Lemma chunk_mul_mono N T t t' :
  1 <= T -> 0 <= N -> 0 <= t <= t' -> t * (N / T) <= t' * (N / T).
Proof.
  intros. apply Z.mul_le_mono_nonneg_r; [apply Z.div_pos; lia | lia].
Qed.

Lemma bench_start_eq N T t :
  is_size_t N -> 1 <= T -> 0 <= t <= T -> bench_start N T t = t * (N / T).
Proof.
  intros [HN0 HN] HT Ht. unfold bench_start, size_mul, chunk_size, size_div.
  apply to_size_t_id. pose proof (chunk_mul_bound N T t HT HN0 Ht).
  unfold is_size_t. lia.
Qed.

Lemma bench_end_eq N T t :
  is_size_t N -> is_size_t T -> 1 <= T -> 0 <= t < T ->
  bench_end N T t = if t =? T - 1 then N else (t + 1) * (N / T).
Proof.
  intros [HN0 HN] [_ HTm] HT Ht. unfold bench_end, size_sub, size_add.
  rewrite (to_size_t_id (T - 1)) by (unfold is_size_t in *; lia).
  destruct (t =? T - 1) eqn:E; [done|]. apply Z.eqb_neq in E.
  rewrite (to_size_t_id (t + 1)) by (unfold is_size_t in *; lia).
  unfold size_mul, chunk_size, size_div. apply to_size_t_id.
  pose proof (chunk_mul_bound N T (t + 1) HT HN0). unfold is_size_t. lia.
Qed.

Lemma start_idx_eq N T t :
  is_size_t N -> is_int T -> 1 <= T -> 0 <= t <= T -> start_idx N T t = t * (N / T).
Proof.
  intros [HN0 HN] [_ HTm] HT Ht.
  unfold start_idx, size_mul, elements_per_thread, size_div.
  unfold INT_MAX in HTm.
  rewrite (to_size_t_id t), (to_size_t_id T) by (unfold is_size_t, SIZE_MAX; lia).
  apply to_size_t_id. pose proof (chunk_mul_bound N T t HT HN0 Ht).
  unfold is_size_t. lia.
Qed.

Lemma end_idx_eq N T t :
  is_size_t N -> is_int T -> 1 <= T -> 0 <= t < T ->
  end_idx N T t = if t =? T - 1 then N else (t + 1) * (N / T).
Proof.
  intros HN HT HT1 Ht. unfold end_idx.
  rewrite (to_int_id (T - 1)) by (unfold is_int, INT_MIN, INT_MAX in *; lia).
  destruct (t =? T - 1) eqn:E; [done|]. apply Z.eqb_neq in E.
  rewrite start_idx_eq by (done || lia).
  unfold size_add, elements_per_thread, size_div.
  destruct HT as [_ HTm]. unfold INT_MAX in HTm.
  rewrite (to_size_t_id T) by (unfold is_size_t, SIZE_MAX; lia).
  replace (t * (N / T) + N / T) with ((t + 1) * (N / T)) by lia.
  apply to_size_t_id. destruct HN as [HN0 HN].
  pose proof (chunk_mul_bound N T (t + 1) HT1 HN0). unfold is_size_t. lia.
Qed.

End partition_facts.

Section partition_proofs.

Lemma chained_bounds rs : forall from upto,
  chained from upto rs ->
  from <= upto /\
  (forall t lo hi, rs !! t = Some (lo, hi) -> from <= lo /\ lo <= hi /\ hi <= upto).
Proof.
  induction rs as [|[lo hi] rs IH]; simpl; intros from upto H.
  - split; [lia|]. intros t ? ? Hl. by rewrite lookup_nil in Hl.
  - destruct H as (-> & Hle & Hc). destruct (IH _ _ Hc) as [Hhu Hin].
    split; [lia|]. intros [|t] lo' hi' Hl; simpl in Hl.
    + injection Hl as <- <-. lia.
    + specialize (Hin _ _ _ Hl). lia.
Qed.

Lemma chained_covers rs : forall from upto,
  chained from upto rs -> forall i, from <= i < upto ->
  exists t lo hi, rs !! t = Some (lo, hi) /\ lo <= i < hi.
Proof.
  induction rs as [|[lo hi] rs IH]; simpl; intros from upto H i Hi.
  - lia.
  - destruct H as (-> & Hle & Hc).
    destruct (Z_lt_ge_dec i hi) as [Hlt|Hge].
    + exists 0%nat, from, hi. split; [done | lia].
    + destruct (IH _ _ Hc i) as (t & lo' & hi' & Hl & Hr); [lia|].
      exists (S t), lo', hi'. done.
Qed.

Lemma chained_disjoint rs : forall from upto,
  chained from upto rs ->
  forall t t' lo hi lo' hi' i,
    rs !! t = Some (lo, hi) -> rs !! t' = Some (lo', hi') ->
    lo <= i < hi -> lo' <= i < hi' -> t = t'.
Proof.
  induction rs as [|[lo0 hi0] rs IH]; simpl; intros from upto H.
  - intros t ? ? ? ? ? ? Hl. by rewrite lookup_nil in Hl.
  - destruct H as (-> & Hle & Hc).
    pose proof (chained_bounds _ _ _ Hc) as [_ Hin].
    intros [|t] [|t'] lo hi lo' hi' i Hl Hl' Hi Hi'; simpl in Hl, Hl'.
    + done.
    + injection Hl as <- <-. specialize (Hin _ _ _ Hl'). lia.
    + injection Hl' as <- <-. specialize (Hin _ _ _ Hl). lia.
    + f_equal. eapply IH; eauto.
Qed.

Lemma chained_exact_cover N rs : chained 0 N rs -> exact_cover N rs.
Proof.
  intros H. split; [|split].
  - intros t lo hi Hl. destruct (chained_bounds _ _ _ H) as [_ Hin].
    specialize (Hin _ _ _ Hl). lia.
  - by apply chained_covers.
  - by eapply chained_disjoint.
Qed.

Lemma chained_contiguous rs : forall from upto,
  chained from upto rs ->
  forall (t : nat) lo hi lo' hi',
    rs !! t = Some (lo, hi) -> rs !! S t = Some (lo', hi') -> lo' = hi.
Proof.
  induction rs as [|[lo0 hi0] rs IH]; simpl; intros from upto H.
  - intros t ? ? ? ? Hl. by rewrite lookup_nil in Hl.
  - destruct H as (-> & Hle & Hc).
    intros [|t] lo hi lo' hi' Hl Hl'; simpl in Hl, Hl'.
    + injection Hl as <- <-. destruct rs as [|[a b] rs]; [done|].
      simpl in Hl'. injection Hl' as <- <-. simpl in Hc. by destruct Hc.
    + eapply IH; eauto.
Qed.

(** The tail of the closed form, from worker [k] on, is chained from
    [k * chunk] to [N]. *)
Lemma static_tail_chained N T : 1 <= T -> 0 <= N ->
  forall (n k : nat), Z.of_nat k + Z.of_nat n = T ->
  chained (if n is O then N else Z.of_nat k * (N / T)) N
          (static_range N T <$> (Z.of_nat <$> seq k n)).
Proof.
  intros HT HN. induction n as [|n IH]; intros k Hk; simpl; [done|].
  split; [done|]. specialize (IH (S k)).
  destruct (Z.of_nat k =? T - 1) eqn:E.
  - apply Z.eqb_eq in E. assert (n = 0%nat) as -> by lia. simpl.
    pose proof (chunk_mul_bound N T (Z.of_nat k) HT HN). split; [lia|done].
  - apply Z.eqb_neq in E. destruct n as [|n]; [lia|].
    split.
    + apply chunk_mul_mono; lia.
    + replace (Z.of_nat k + 1) with (Z.of_nat (S k)) by lia.
      apply IH. lia.
Qed.

Lemma static_ranges_chained N T : 1 <= T -> 0 <= N ->
  chained 0 N (static_ranges N T).
Proof.
  intros HT HN. unfold static_ranges, counters.
  pose proof (static_tail_chained N T HT HN (Z.to_nat T) 0%nat) as H.
  destruct (Z.to_nat T) eqn:E; [lia|]. apply H. lia.
Qed.

Lemma lookup_static_ranges N T (t : nat) :
  Z.of_nat t < T -> static_ranges N T !! t = Some (static_range N T (Z.of_nat t)).
Proof.
  intros Ht. unfold static_ranges.
  rewrite list_lookup_fmap, lookup_counters by lia. done.
Qed.

Lemma static_ranges_contract N T : 1 <= T -> 0 <= N ->
  contract N T (static_ranges N T).
Proof.
  intros HT HN. pose proof (static_ranges_chained N T HT HN) as Hc.
  split.
  - unfold static_ranges. rewrite length_fmap, length_counters. lia.
  - intros t Ht. rewrite lookup_static_ranges by lia. unfold static_range.
    destruct (Z.of_nat t =? T - 1) eqn:E; [apply Z.eqb_eq in E; lia | done].
  - rewrite lookup_static_ranges by lia. unfold static_range.
    rewrite Z2Nat.id by lia. by rewrite Z.eqb_refl.
  - rewrite lookup_static_ranges by lia. done.
  - by eapply chained_contiguous.
  - rewrite lookup_static_ranges by lia. unfold static_range.
    rewrite Z2Nat.id by lia. by rewrite Z.eqb_refl.
  - by apply chained_exact_cover.
  - intros ->. unfold static_ranges, counters, static_range. simpl.
    by rewrite Z.div_1_r.
Qed.

Lemma bench_ranges_static N T :
  is_size_t N -> is_size_t T -> 1 <= T ->
  bench_ranges N T = static_ranges N T.
Proof.
  intros HN HT HT1. unfold bench_ranges, static_ranges.
  apply list_eq. intros t. rewrite !list_lookup_fmap.
  destruct (counters T !! t) as [z|] eqn:E; [|done]. simpl.
  apply lookup_counters_inv in E as [-> Ht].
  unfold bench_range, static_range.
  rewrite bench_start_eq, bench_end_eq by (done || lia). done.
Qed.

Lemma worker_ranges_static N T :
  is_size_t N -> is_int T -> 1 <= T ->
  worker_ranges N T = static_ranges N T.
Proof.
  intros HN HT HT1. unfold worker_ranges, static_ranges.
  apply list_eq. intros t. rewrite !list_lookup_fmap.
  destruct (counters T !! t) as [z|] eqn:E; [|done]. simpl.
  apply lookup_counters_inv in E as [-> Ht].
  unfold worker_range, static_range.
  rewrite start_idx_eq, end_idx_eq by (done || lia). done.
Qed.

Lemma bench_ranges_contract N T :
  is_size_t N -> is_size_t T -> 1 <= T -> contract N T (bench_ranges N T).
Proof.
  intros HN HT HT1. rewrite bench_ranges_static by done.
  apply static_ranges_contract; [done | apply HN].
Qed.

Lemma worker_ranges_contract N T :
  is_size_t N -> is_int T -> 1 <= T -> contract N T (worker_ranges N T).
Proof.
  intros HN HT HT1. rewrite worker_ranges_static by done.
  apply static_ranges_contract; [done | apply HN].
Qed.

End partition_proofs.

(** C2. For every vector length [N >= 1] and thread count [T >= 1] (in the
    range of the C++ types that hold them), the partitioner of either driver
    produces exactly [T] half-open ranges with [chunk = N / T],
    [start_t = t * chunk] and [end_t = (t + 1) * chunk] for [t < T - 1],
    and [end_{T-1} = N]; [start_0 = 0], consecutive ranges meet, and every
    index of [[0, N)] lies in exactly one range.  For [T = 1] the only range
    is [[0, N)]. *)
Theorem partition_contract N T :
  1 <= N <= SIZE_MAX -> 1 <= T ->
  (T <= SIZE_MAX -> contract N T (bench_ranges N T)) /\
  (T <= INT_MAX -> contract N T (worker_ranges N T)).
Proof.
  intros HN HT. split; intros HTm.
  - apply bench_ranges_contract; unfold is_size_t; lia.
  - apply worker_ranges_contract;
      unfold is_size_t, is_int, INT_MIN, INT_MAX in *; lia.
Qed.

(** The remainder goes to the last worker: ten elements over three workers
    are split as [[0,3)], [[3,6)], [[6,10)] by both drivers. *)
Lemma partition_contract_witness :
  (1 <= 10 <= SIZE_MAX /\ 1 <= 3) /\
  bench_ranges 10 3 = [(0, 3); (3, 6); (6, 10)] /\
  worker_ranges 10 3 = [(0, 3); (3, 6); (6, 10)] /\
  contract 10 3 (bench_ranges 10 3) /\ contract 10 3 (worker_ranges 10 3).
Proof.
  assert (H : 1 <= 10 <= SIZE_MAX) by (unfold SIZE_MAX; lia).
  assert (H3 : 1 <= 3) by lia.
  split; [done|]. split; [reflexivity|]. split; [reflexivity|].
  destruct (partition_contract 10 3 H H3) as [Hb Hw].
  split; [apply Hb | apply Hw]; unfold SIZE_MAX, INT_MAX; lia.
Defined.

(** ** Facts about the kernel run on its own *)

Section kernel_facts.

Lemma vget_lookup (v : list float) (i : Z) (a : float) :
  v !! Z.to_nat i = Some a -> vget v i = a.
Proof. intros H. unfold vget. by apply nth_lookup_Some. Qed.

Lemma length_vset (v : list float) i a : length (vset v i a) = length v.
Proof. apply length_insert. Qed.

Lemma length_daxpy_at alpha x i y : length (daxpy_at alpha x i y) = length y.
Proof. apply length_vset. Qed.

Lemma lookup_daxpy_at_eq alpha x i y :
  (Z.to_nat i < length y)%nat ->
  daxpy_at alpha x i y !! Z.to_nat i = Some (axpy alpha (vget x i) (vget y i)).
Proof. intros. unfold daxpy_at, vset. by rewrite list_lookup_insert_eq. Qed.

Lemma lookup_daxpy_at_ne alpha x i y (j : nat) :
  Z.to_nat i <> j -> daxpy_at alpha x i y !! j = y !! j.
Proof. intros. unfold daxpy_at, vset. by rewrite list_lookup_insert_ne. Qed.

Lemma vget_daxpy_at_ne alpha x i y j :
  Z.to_nat i <> Z.to_nat j -> vget (daxpy_at alpha x i y) j = vget y j.
Proof.
  intros. unfold vget. by rewrite !nth_lookup, lookup_daxpy_at_ne.
Qed.

(** The loop touches exactly the indices [[i, i + n)], and each one once. *)
Lemma for_count_daxpy alpha x (n : nat) : forall (i : Z) (y : list float) (j : nat),
  0 <= i -> (Z.to_nat i + n <= length y)%nat ->
  for_count n i (daxpy_at alpha x) y !! j =
    if bool_decide (i <= Z.of_nat j < i + Z.of_nat n)
    then Some (axpy alpha (vget x (Z.of_nat j)) (vget y (Z.of_nat j)))
    else y !! j.
Proof.
  induction n as [|n IH]; intros i y j Hi Hlen; simpl.
  - rewrite bool_decide_eq_false_2 by lia. done.
  - rewrite IH by (rewrite ?length_daxpy_at; lia).
    destruct (decide (Z.of_nat j = i)) as [<-|Hne].
    + rewrite (bool_decide_eq_false_2 (Z.of_nat j + 1 <= _ < _)) by lia.
      rewrite bool_decide_eq_true_2 by lia.
      pose proof (lookup_daxpy_at_eq alpha x (Z.of_nat j) y) as H.
      rewrite Nat2Z.id in H. apply H. lia.
    + rewrite lookup_daxpy_at_ne, vget_daxpy_at_ne by lia.
      case_bool_decide; case_bool_decide; (done || lia).
Qed.

Lemma length_for_count_daxpy alpha x (n : nat) : forall i y,
  length (for_count n i (daxpy_at alpha x) y) = length y.
Proof.
  induction n as [|n IH]; intros i y; simpl; [done|].
  by rewrite IH, length_daxpy_at.
Qed.

(** Run alone over the whole vector, the kernel computes
    [alpha * x[i] + y[i]] at every index. *)
Lemma sequential_pass_zip alpha x y :
  length x = length y ->
  sequential_pass alpha x (Z.of_nat (length y)) y = zip_with (axpy alpha) x y.
Proof.
  intros Hlen. unfold sequential_pass, for_loop. apply list_eq. intros j.
  rewrite Z.sub_0_r, Nat2Z.id.
  rewrite for_count_daxpy by (simpl; lia).
  rewrite lookup_zip_with.
  case_bool_decide as Hj.
  - destruct (lookup_lt_is_Some_2 x j) as [a Ha]; [lia|].
    destruct (lookup_lt_is_Some_2 y j) as [b Hb]; [lia|].
    rewrite Ha, Hb. simpl. unfold vget. rewrite Nat2Z.id.
    by rewrite (nth_lookup_Some _ _ _ _ Ha), (nth_lookup_Some _ _ _ _ Hb).
  - rewrite (lookup_ge_None_2 y j) by lia.
    by destruct (x !! j).
Qed.

Lemma daxpy_thread_whole alpha x n y :
  daxpy_thread alpha x 0 n y = sequential_pass alpha x n y.
Proof. done. Qed.

End kernel_facts.

(** ** The compute phase under an arbitrary interleaving *)

Section compute_phase.

Context (c : config) (y0 : list float) (N : Z).
Hypothesis Hcover : exact_cover N (ranges c).
Hypothesis Hy0 : Z.of_nat (length y0) = N.

Local Abbreviation value_at := (value_at c y0).
Local Abbreviation pc_ok := (pc_ok c y0).
Local Abbreviation data_inv := (data_inv c y0).
Local Abbreviation inv_workers := (inv_workers c y0).
Local Abbreviation inv_length := (inv_length c y0).
Local Abbreviation inv_owned := (inv_owned c y0).

Lemma range_bounds t lo hi :
  ranges c !! t = Some (lo, hi) -> 0 <= lo /\ lo <= hi /\ hi <= N.
Proof. intros H. destruct Hcover as (Hb & _ & _). specialize (Hb _ _ _ H). lia. Qed.

Lemma range_disjoint t t' lo hi lo' hi' i :
  ranges c !! t = Some (lo, hi) -> ranges c !! t' = Some (lo', hi') ->
  lo <= i < hi -> lo' <= i < hi' -> t = t'.
Proof. destruct Hcover as (_ & _ & Hd). apply Hd. Qed.

Lemma initial_data_inv : data_inv (initial c y0).
Proof.
  split; simpl.
  - by rewrite length_fmap.
  - done.
  - intros t p [lo hi] Hp Hr. rewrite list_lookup_fmap, Hr in Hp.
    injection Hp as <-. pose proof (range_bounds _ _ _ Hr) as Hb.
    unfold first_pc. split.
    + destruct (gated c); simpl; [done | lia].
    + intros j Hj. simpl in Hj. unfold value_at.
      replace (j <? _) with false.
      2:{ symmetry. apply Z.ltb_ge. destruct (gated c); simpl; lia. }
      unfold vget. rewrite nth_lookup.
      destruct (lookup_lt_is_Some_2 y0 (Z.to_nat j)) as [a ->]; [lia | done].
Qed.

(** A step of worker [t] that only moves its program counter. *)
Lemma data_inv_goto s t p r p' a ph evs :
  data_inv s -> pcs s !! t = Some p -> ranges c !! t = Some r ->
  pc_ok r p' -> progress r p' = progress r p ->
  data_inv (State (ys s) (<[t := p']> (pcs s)) a ph evs).
Proof.
  intros [Hw Hl Ho] Hp Hr Hok Hpr. split; simpl.
  - by rewrite length_insert.
  - done.
  - intros t' q r' Hq Hr'. destruct (decide (t = t')) as [<-|Hne].
    + rewrite list_lookup_insert_eq in Hq by (by eapply lookup_lt_Some).
      injection Hq as <-. rewrite Hr in Hr'. injection Hr' as <-.
      split; [done|]. intros j Hj. unfold value_at. rewrite Hpr.
      by apply (Ho _ _ _ Hp Hr).
    + rewrite list_lookup_insert_ne in Hq by done. by eapply Ho.
Qed.

Lemma step_data_inv s t s' :
  data_inv s -> step c t s = Some s' -> data_inv s'.
Proof.
  intros Hinv Hstep. unfold step in Hstep.
  destruct (pcs s !! t) as [p|] eqn:Hp; [|done].
  destruct (ranges c !! t) as [[lo hi]|] eqn:Hr; [|done].
  pose proof (range_bounds _ _ _ Hr) as Hb.
  destruct (inv_owned s Hinv _ _ _ Hp Hr) as [Hok Hval].
  destruct p as [b|b tok|b|i|i v|]; simpl in Hok, Hval.
  - destruct (S (arrived s) =? parties c)%nat; injection Hstep as <-;
      (eapply data_inv_goto; [done..| |]; by destruct b).
  - destruct (phase s =? tok)%nat; [done|]. injection Hstep as <-.
    eapply data_inv_goto; [done..| |]; by destruct b.
  - destruct b; injection Hstep as <-.
    + eapply data_inv_goto; [done..| |]; simpl; [lia | done].
    + eapply data_inv_goto; [done..| |]; done.
  - destruct (i <? hi) eqn:Hi; injection Hstep as <-.
    + apply Z.ltb_lt in Hi. eapply data_inv_goto; [done..| |]; simpl; [|done].
      split; [lia|]. f_equal. apply vget_lookup.
      rewrite Hval by lia. unfold value_at. simpl.
      by rewrite Z.ltb_irrefl.
    + apply Z.ltb_ge in Hi.
      eapply data_inv_goto; [done..| |]; destruct (gated c); simpl; (done || lia).
  - injection Hstep as <-. destruct Hok as [Hi ->].
    destruct Hinv as [Hw Hl Ho]. split; simpl.
    + by rewrite length_insert.
    + by rewrite length_vset.
    + intros t' q [lo' hi'] Hq Hr'. destruct (decide (t = t')) as [<-|Hne].
      * rewrite list_lookup_insert_eq in Hq by (by eapply lookup_lt_Some).
        injection Hq as <-. rewrite Hr in Hr'. injection Hr' as <- <-.
        split; [simpl; lia|]. intros j Hj. simpl in Hj. unfold value_at, vset. simpl.
        destruct (decide (j = i)) as [->|Hji].
        -- rewrite list_lookup_insert_eq.
           ++ replace (i <? i + 1) with true by (symmetry; apply Z.ltb_lt; lia). done.
           ++ apply lookup_lt_is_Some. rewrite Hval by lia. done.
        -- rewrite list_lookup_insert_ne by lia.
           rewrite Hval by lia. unfold value_at. simpl.
           replace (j <? i + 1) with (j <? i); [done|].
           destruct (Z.ltb_spec j i), (Z.ltb_spec j (i + 1)); (done || lia).
      * rewrite list_lookup_insert_ne in Hq by done.
        destruct (Ho _ _ _ Hq Hr') as [Hok' Hval']. split; [done|].
        intros j Hj. simpl in Hj. unfold vset.
        pose proof (range_bounds _ _ _ Hr') as Hb'.
        rewrite list_lookup_insert_ne; [by apply Hval'|].
        intros Heq. assert (i = j) as -> by lia.
        apply Hne. eapply range_disjoint; eauto.
  - done.
Qed.

Lemma pick_data_inv s t : data_inv s -> data_inv (pick c s t).
Proof.
  intros H. unfold pick. destruct (step c t s) eqn:E; simpl; [|done].
  by eapply step_data_inv.
Qed.

Lemma run_schedule_data_inv sched : forall s,
  data_inv s -> data_inv (run_schedule c sched s).
Proof.
  induction sched as [|t sched IH]; intros s H; simpl; [done|].
  apply IH. by apply pick_data_inv.
Qed.

Lemma join_data_inv fuel : forall s, data_inv s -> data_inv (join c fuel s).
Proof.
  induction fuel as [|fuel IH]; intros s H; simpl; [done|].
  destruct (runnable c s); [|done]. apply IH. by apply pick_data_inv.
Qed.

Lemma all_done_lookup s t p : all_done s = true -> pcs s !! t = Some p -> p = Done.
Proof.
  unfold all_done. rewrite forallb_forall. intros H Hp.
  assert (Hin : In p (pcs s)).
  { apply list_elem_of_In. by eapply list_elem_of_lookup_2. }
  specialize (H _ Hin). by destruct p.
Qed.

(** When every worker has returned, every element has been updated
    exactly once. *)
Lemma done_values s i :
  data_inv s -> all_done s = true -> 0 <= i < N ->
  ys s !! Z.to_nat i = Some (axpy (alpha c) (vget (xs c) i) (vget y0 i)).
Proof.
  intros Hinv Hdone Hi.
  destruct Hcover as (_ & Hc & _). destruct (Hc i Hi) as (t & lo & hi & Hr & Hin).
  destruct (lookup_lt_is_Some_2 (pcs s) t) as [p Hp].
  { rewrite (inv_workers s Hinv). by eapply lookup_lt_Some. }
  pose proof (all_done_lookup _ _ _ Hdone Hp) as ->.
  destruct (inv_owned s Hinv _ _ _ Hp Hr) as [_ Hval].
  rewrite Hval by (simpl; lia). unfold value_at. simpl.
  replace (i <? hi) with true by (symmetry; apply Z.ltb_lt; lia). done.
Qed.

Lemma done_zip s :
  data_inv s -> all_done s = true -> length (xs c) = length y0 ->
  ys s = zip_with (axpy (alpha c)) (xs c) y0.
Proof.
  intros Hinv Hdone Hx. apply list_eq. intros j.
  rewrite lookup_zip_with.
  destruct (decide (j < length y0)%nat) as [Hj|Hj].
  - pose proof (done_values s (Z.of_nat j) Hinv Hdone) as H.
    rewrite Nat2Z.id in H. rewrite H by lia.
    destruct (lookup_lt_is_Some_2 (xs c) j) as [a Ha]; [lia|].
    destruct (lookup_lt_is_Some_2 y0 j) as [b Hb]; [lia|].
    rewrite Ha, Hb. simpl. unfold vget. rewrite Nat2Z.id.
    by rewrite (nth_lookup_Some _ _ _ _ Ha), (nth_lookup_Some _ _ _ _ Hb).
  - rewrite (lookup_ge_None_2 (ys s)) by (rewrite (inv_length s Hinv); lia).
    rewrite (lookup_ge_None_2 y0) by lia. by destruct (xs c !! j).
Qed.

End compute_phase.

(** ** The barrier and the end of the phase *)

Section counting.

Context (f : pc -> bool).

Local Abbreviation count_if := (count_if f).

Lemma count_if_le l : (count_if l <= length l)%nat.
Proof. induction l as [|p l IH]; simpl; [lia|]. destruct (f p); lia. Qed.

Lemma count_if_insert l : forall t p p',
  l !! t = Some p ->
  (count_if (<[t := p']> l) + (if f p then 1 else 0) =
   count_if l + (if f p' then 1 else 0))%nat.
Proof.
  induction l as [|q l IH]; intros [|t] p p' H; simpl in *; try done.
  - injection H as ->. lia.
  - specialize (IH _ _ p' H). lia.
Qed.

Lemma count_if_full l :
  count_if l = length l -> forall t p, l !! t = Some p -> f p = true.
Proof.
  induction l as [|q l IH]; simpl; intros H t p Hp; [done|].
  pose proof (count_if_le l). destruct (f q) eqn:E; [|lia].
  destruct t as [|t]; simpl in Hp.
  - by injection Hp as <-.
  - eapply IH; [lia | done].
Qed.

Lemma count_if_zero l :
  (forall t p, l !! t = Some p -> f p = false) -> count_if l = 0%nat.
Proof.
  induction l as [|q l IH]; simpl; intros H; [done|].
  rewrite (H 0%nat q) by done. rewrite IH; [done|].
  intros t p Hp. by apply (H (S t)).
Qed.

Lemma count_if_short l :
  (count_if l < length l)%nat -> exists t p, l !! t = Some p /\ f p = false.
Proof.
  induction l as [|q l IH]; simpl; intros H; [lia|].
  destruct (f q) eqn:E.
  - destruct IH as (t & p & Hp & Hf); [lia|]. by exists (S t), p.
  - by exists 0%nat, q.
Qed.

End counting.

Section barrier_facts.

Context (c : config).
Hypothesis Hparties : gated c = true ->
  parties c = length (ranges c) /\ (1 <= parties c)%nat.

Local Abbreviation stage_ok := (stage_ok c).
Local Abbreviation barrier_inv := (barrier_inv c).
Local Abbreviation bar_stage := (bar_stage c).

Lemma initial_barrier_inv y : barrier_inv (initial c y).
Proof.
  split; simpl.
  - by rewrite length_fmap.
  - intros Hg. symmetry. apply count_if_zero. intros t p Hp.
    rewrite list_lookup_fmap in Hp. destruct (ranges c !! t); [|done].
    injection Hp as <-. unfold first_pc. by rewrite Hg.
  - intros Hg. destruct (Hparties Hg). lia.
  - intros t p Hp. rewrite list_lookup_fmap in Hp.
    destruct (ranges c !! t); [|done]. injection Hp as <-.
    unfold first_pc, stage_ok. by destruct (gated c).
Qed.

(** A step that moves worker [t] between two program counters that are
    not blocked and belong to the same barrier phase. *)
Lemma barrier_inv_goto s t p p' ys' evs :
  barrier_inv s -> pcs s !! t = Some p ->
  waits_on (phase s) p = false -> waits_on (phase s) p' = false ->
  stage_ok (phase s) p' ->
  barrier_inv (State ys' (<[t := p']> (pcs s)) (arrived s) (phase s) evs).
Proof.
  intros [Hw Hc Ho Hs] Hp Hf Hf' Hok. split; simpl.
  - by rewrite length_insert.
  - intros Hg. rewrite (Hc Hg).
    pose proof (count_if_insert (waits_on (phase s)) _ _ _ p' Hp) as E.
    rewrite Hf, Hf' in E. lia.
  - done.
  - intros t' q Hq. destruct (decide (t = t')) as [<-|Hne].
    + rewrite list_lookup_insert_eq in Hq by (by eapply lookup_lt_Some).
      by injection Hq as <-.
    + rewrite list_lookup_insert_ne in Hq by done. by eapply Hs.
Qed.

Lemma step_barrier_inv s t s' :
  barrier_inv s -> step c t s = Some s' -> barrier_inv s'.
Proof.
  intros Hinv Hstep. unfold step in Hstep.
  destruct (pcs s !! t) as [p|] eqn:Hp; [|done].
  destruct (ranges c !! t) as [[lo hi]|] eqn:Hr; [|done].
  pose proof (bar_stage s Hinv _ _ Hp) as Hst. unfold stage_ok in Hst.
  destruct p as [b|b tok|b|i|i v|].
  - (* arrive_and_wait: arrival *)
    destruct (gated c) eqn:Hg; [|done].
    destruct (Hparties eq_refl) as [HT HT1].
    destruct Hinv as [Hw Hc Ho Hs]. specialize (Hc Hg). specialize (Ho Hg).
    pose proof (count_if_insert (waits_on (phase s)) _ _ _
                  (Waiting b (phase s)) Hp) as E.
    simpl in E. rewrite Nat.eqb_refl in E.
    destruct (S (arrived s) =? parties c)%nat eqn:Hlast; injection Hstep as <-.
    + apply Nat.eqb_eq in Hlast.
      assert (Hall : forall t' q,
                <[t := Waiting b (phase s)]> (pcs s) !! t' = Some q ->
                waits_on (phase s) q = true).
      { apply count_if_full. rewrite length_insert. lia. }
      split; simpl.
      * by rewrite length_insert.
      * intros _. symmetry. apply count_if_zero. intros t' q Hq.
        specialize (Hall _ _ Hq). destruct q; simpl in *; try done.
        apply Nat.eqb_eq in Hall. apply Nat.eqb_neq. lia.
      * intros _. lia.
      * intros t' q Hq. pose proof (Hall _ _ Hq) as Hwq.
        unfold stage_ok. rewrite Hg.
        destruct (decide (t = t')) as [<-|Hne].
        -- rewrite list_lookup_insert_eq in Hq by (by eapply lookup_lt_Some).
           injection Hq as <-. destruct b; lia.
        -- rewrite list_lookup_insert_ne in Hq by done.
           specialize (Hs _ _ Hq). unfold stage_ok in Hs. rewrite Hg in Hs.
           destruct q as [| b' tok' | | | |]; simpl in Hwq; try done.
           apply Nat.eqb_eq in Hwq. destruct b'; lia.
    + apply Nat.eqb_neq in Hlast. split; simpl.
      * by rewrite length_insert.
      * intros _. lia.
      * intros _. lia.
      * intros t' q Hq. destruct (decide (t = t')) as [<-|Hne].
        -- rewrite list_lookup_insert_eq in Hq by (by eapply lookup_lt_Some).
           injection Hq as <-. unfold stage_ok. rewrite Hg. destruct b; lia.
        -- rewrite list_lookup_insert_ne in Hq by done. by eapply Hs.
  - (* arrive_and_wait: release *)
    destruct (phase s =? tok)%nat eqn:Hph; [done|]. injection Hstep as <-.
    apply Nat.eqb_neq in Hph.
    eapply barrier_inv_goto; [done..| | |]; simpl.
    + apply Nat.eqb_neq. lia.
    + done.
    + unfold stage_ok. destruct (gated c); [|done]. destruct b; lia.
  - destruct b; injection Hstep as <-;
      (eapply barrier_inv_goto; [done..| |]; [done|]);
      unfold stage_ok; by destruct (gated c).
  - destruct (i <? hi); injection Hstep as <-;
      (eapply barrier_inv_goto; [done..| | |]; [done| |]);
      unfold stage_ok; by destruct (gated c).
  - injection Hstep as <-.
    eapply barrier_inv_goto; [done..| |]; [done|].
    unfold stage_ok; by destruct (gated c).
  - done.
Qed.

End barrier_facts.

(** ** Every interleaving runs to completion *)

Section termination.

Context (c : config).
Hypothesis Hparties : gated c = true ->
  parties c = length (ranges c) /\ (1 <= parties c)%nat.

Lemma forallb_false_lookup (f : pc -> bool) l :
  forallb f l = false -> exists t p, l !! t = Some p /\ f p = false.
Proof.
  induction l as [|q l IH]; simpl; [done|].
  destruct (f q) eqn:E; simpl.
  - intros H. destruct (IH H) as (t & p & Hp & Hf). by exists (S t), p.
  - intros _. by exists 0%nat, q.
Qed.

Lemma unblocked_can_step s t p :
  barrier_inv c s -> pcs s !! t = Some p ->
  is_done p = false -> waits_on (phase s) p = false ->
  is_Some (step c t s).
Proof.
  intros Hinv Hp Hd Hw. unfold step. rewrite Hp.
  destruct (lookup_lt_is_Some_2 (ranges c) t) as [[lo hi] ->].
  { rewrite <- (bar_workers c s Hinv). by eapply lookup_lt_Some. }
  destruct p as [b|b tok|b|i|i v|]; simpl in Hd, Hw; try done;
    lazy beta iota zeta.
  - destruct (S (arrived s) =? parties c)%nat; by eexists.
  - rewrite Nat.eqb_sym, Hw. by eexists.
  - destruct b; by eexists.
  - destruct (i <? hi); by eexists.
Qed.

(** No deadlock: while some worker has not returned, some worker can act. *)
Lemma progress_step s :
  barrier_inv c s -> all_done s = false -> exists t, is_Some (step c t s).
Proof.
  intros Hinv Hnd.
  destruct (forallb_false_lookup _ _ Hnd) as (t & p & Hp & Hd).
  destruct (waits_on (phase s) p) eqn:Hw.
  2:{ exists t. by eapply unblocked_can_step. }
  pose proof (bar_stage c s Hinv _ _ Hp) as Hst. unfold stage_ok in Hst.
  destruct (gated c) eqn:Hg; [|by destruct p].
  destruct (Hparties eq_refl) as [HT HT1].
  pose proof (bar_count c s Hinv Hg) as Hc.
  pose proof (bar_open c s Hinv Hg) as Ho.
  destruct (count_if_short (waits_on (phase s)) (pcs s)) as (t' & q & Hq & Hwq).
  { rewrite <- Hc, (bar_workers c s Hinv). lia. }
  exists t'. eapply unblocked_can_step; [done..| |done].
  pose proof (bar_stage c s Hinv _ _ Hq) as Hsq. unfold stage_ok in Hsq.
  rewrite Hg in Hsq.
  destruct p as [|b tok| | | |]; simpl in Hw; try done.
  apply Nat.eqb_eq in Hw. destruct q; [done..|].
  destruct b; lia.
Qed.

Lemma runnable_Some s t : runnable c s = Some t -> is_Some (step c t s).
Proof.
  unfold runnable. intros H. apply find_some in H as [_ H].
  by apply bool_decide_eq_true_1 in H.
Qed.

Lemma runnable_None s : runnable c s = None -> forall t, step c t s = None.
Proof.
  unfold runnable. intros H t.
  destruct (decide (t < length (pcs s))%nat) as [Hlt|Hge].
  - pose proof (find_none _ _ H t) as Hf. simpl in Hf.
    destruct (step c t s) eqn:E; [|done].
    rewrite bool_decide_eq_true_2 in Hf by done.
    discriminate Hf. apply in_seq. lia.
  - unfold step. by rewrite (lookup_ge_None_2 (pcs s) t) by lia.
Qed.

Lemma stuck_all_done s :
  barrier_inv c s -> runnable c s = None -> all_done s = true.
Proof.
  intros Hinv Hr. destruct (all_done s) eqn:E; [done|].
  destruct (progress_step s Hinv E) as [t [s' Hs']].
  by rewrite (runnable_None s Hr t) in Hs'.
Qed.

Lemma work_insert (rs : list range) : forall (l : list pc) t r p p',
  rs !! t = Some r -> l !! t = Some p ->
  (sum_list (zip_with steps_left rs (<[t := p']> l)) + steps_left r p =
   sum_list (zip_with steps_left rs l) + steps_left r p')%nat.
Proof.
  induction rs as [|r0 rs IH]; intros [|q l] [|t] r p p' Hr Hp;
    simpl in *; try done.
  - injection Hr as ->. injection Hp as ->. lia.
  - specialize (IH _ _ _ _ p' Hr Hp). lia.
Qed.

(** Every action uses up some of the work that is left. *)
Lemma step_work_left s t s' :
  step c t s = Some s' -> (work_left c s' < work_left c s)%nat.
Proof.
  unfold step, work_left. intros Hstep.
  destruct (pcs s !! t) as [p|] eqn:Hp; [|done].
  destruct (ranges c !! t) as [[lo hi]|] eqn:Hr; [|done].
  assert (Hdec : forall p' ys' a ph evs,
    (steps_left (lo, hi) p' < steps_left (lo, hi) p)%nat ->
    (sum_list (zip_with steps_left (ranges c)
       (pcs (State ys' (<[t := p']> (pcs s)) a ph evs))) <
     sum_list (zip_with steps_left (ranges c) (pcs s)))%nat).
  { intros p' ? ? ? ? Hlt. simpl.
    pose proof (work_insert _ _ _ _ _ p' Hr Hp). lia. }
  destruct p as [b|b tok|b|i|i v|].
  - destruct (S (arrived s) =? parties c)%nat; injection Hstep as <-;
      apply Hdec; destruct b; simpl; lia.
  - destruct (phase s =? tok)%nat; [done|]. injection Hstep as <-.
    apply Hdec; destruct b; simpl; lia.
  - destruct b; injection Hstep as <-; apply Hdec; simpl; lia.
  - destruct (i <? hi) eqn:Hi; injection Hstep as <-; apply Hdec.
    + apply Z.ltb_lt in Hi. simpl. lia.
    + destruct (gated c); simpl; lia.
  - injection Hstep as <-. apply Hdec. simpl. lia.
  - done.
Qed.

Lemma pick_barrier_inv s t : barrier_inv c s -> barrier_inv c (pick c s t).
Proof.
  intros H. unfold pick. destruct (step c t s) eqn:E; simpl; [|done].
  by eapply step_barrier_inv.
Qed.

Lemma run_schedule_barrier_inv sched : forall s,
  barrier_inv c s -> barrier_inv c (run_schedule c sched s).
Proof.
  induction sched as [|t sched IH]; intros s H; simpl; [done|].
  apply IH. by apply pick_barrier_inv.
Qed.

(** Given at least [work_left] actions, [join] returns with every worker
    done. *)
Lemma join_all_done fuel : forall s,
  barrier_inv c s -> (work_left c s <= fuel)%nat ->
  all_done (join c fuel s) = true.
Proof.
  induction fuel as [|fuel IH]; intros s Hinv Hfuel; simpl.
  - destruct (runnable c s) as [t|] eqn:Hr; [|by apply stuck_all_done].
    destruct (runnable_Some _ _ Hr) as [s' Hs'].
    pose proof (step_work_left _ _ _ Hs'). lia.
  - destruct (runnable c s) as [t|] eqn:Hr; [|by apply stuck_all_done].
    destruct (runnable_Some _ _ Hr) as [s' Hs'].
    unfold pick. rewrite Hs'. simpl. apply IH.
    + by eapply step_barrier_inv.
    + pose proof (step_work_left _ _ _ Hs'). lia.
Qed.

Lemma compute_all_done sched y : all_done (compute c sched y) = true.
Proof.
  unfold compute. apply join_all_done; [|done].
  apply run_schedule_barrier_inv, initial_barrier_inv. done.
Qed.

End termination.

(** ** The order on doubles *)

Section float_order.

Local Open Scope float_scope.

Lemma SFcompare_nan_r a : SFcompare a S754_nan = None.
Proof. by destruct a. Qed.

Local Ltac order_cases :=
  repeat match goal with
  | s : bool |- _ => destruct s
  end;
  simpl in *; try done;
  repeat match goal with
  | |- context [Z.compare ?a ?b] => destruct (Z.compare_spec a b); subst; simpl in *
  | H : context [Z.compare ?a ?b] |- _ =>
      destruct (Z.compare_spec a b); subst; simpl in *
  end;
  try done; try lia;
  rewrite ?Pos.compare_cont_spec in *; simpl in *;
  repeat match goal with
  | |- context [Pos.compare ?a ?b] => destruct (Pos.compare_spec a b); subst; simpl in *
  | H : context [Pos.compare ?a ?b] |- _ =>
      destruct (Pos.compare_spec a b); subst; simpl in *
  end;
  try done; try lia.

Lemma SFleb_trans a b c :
  SFleb a b = true -> SFleb b c = true -> SFleb a c = true.
Proof.
  unfold SFleb.
  destruct a as [sa|sa| |sa ma ea], b as [sb|sb| |sb mb eb],
    c as [sc|sc| |sc mc ec]; simpl; try done; intros; order_cases.
Qed.

Lemma SFltb_leb a b : SFltb a b = true -> SFleb a b = true.
Proof. unfold SFltb, SFleb. by destruct (SFcompare a b) as [[]|]. Qed.

Lemma SFltb_not_leb a b : SFltb a b = true -> SFleb b a = false.
Proof.
  unfold SFltb, SFleb.
  destruct a as [sa|sa| |sa ma ea], b as [sb|sb| |sb mb eb];
    simpl; try done; intros; order_cases.
Qed.

Lemma SFleb_total a b :
  a <> S754_nan -> b <> S754_nan -> SFltb a b = false -> SFleb b a = true.
Proof.
  unfold SFltb, SFleb.
  destruct a as [sa|sa| |sa ma ea], b as [sb|sb| |sb mb eb];
    simpl; try done; intros; order_cases.
Qed.

Lemma is_number_spec e : is_number e = true <-> Prim2SF e <> S754_nan.
Proof.
  unfold is_number, is_nan. rewrite negb_involutive, FloatAxioms.eqb_spec. unfold SFeqb.
  destruct (Prim2SF e) as [s|s| |s m x]; simpl.
  - by destruct s.
  - by destruct s.
  - split; [done | by intros []].
  - rewrite Z.compare_refl.
    change (PosDef.Pos.compare_cont Eq m m) with (Pos.compare m m).
    rewrite Pos.compare_refl. by destruct s.
Qed.

Lemma ltb_number a b : (a <? b) = true -> is_number a = true /\ is_number b = true.
Proof.
  rewrite FloatAxioms.ltb_spec, !is_number_spec. unfold SFltb.
  destruct (Prim2SF a), (Prim2SF b); simpl; done.
Qed.

Lemma ltb_leb a b : (a <? b) = true -> (a <=? b) = true.
Proof. rewrite FloatAxioms.ltb_spec, FloatAxioms.leb_spec. apply SFltb_leb. Qed.

Lemma ltb_not_leb a b : (a <? b) = true -> (b <=? a) = false.
Proof. rewrite FloatAxioms.ltb_spec, FloatAxioms.leb_spec. apply SFltb_not_leb. Qed.

Lemma leb_total a b :
  is_number a = true -> is_number b = true -> (a <? b) = false -> (b <=? a) = true.
Proof. rewrite !is_number_spec, FloatAxioms.ltb_spec, FloatAxioms.leb_spec. apply SFleb_total. Qed.

Lemma leb_trans a b c : (a <=? b) = true -> (b <=? c) = true -> (a <=? c) = true.
Proof. rewrite !FloatAxioms.leb_spec. apply SFleb_trans. Qed.

(** A value differs from itself by [+0], or by a NaN when it is not
    finite. *)
Lemma self_difference v :
  Prim2SF (abs (v - v)) = S754_zero false \/ Prim2SF (abs (v - v)) = S754_nan.
Proof.
  rewrite FloatAxioms.abs_spec, FloatAxioms.sub_spec. unfold SF64sub, SFsub.
  destruct (Prim2SF v) as [s|s| |s m e]; simpl.
  - left. by destruct s.
  - right. by destruct s.
  - by right.
  - left. rewrite Z.sub_diag. done.
Qed.

Lemma self_difference_ltb v a :
  Prim2SF a = S754_zero false \/ (0 <? a) = true ->
  (a <? abs (v - v)) = false.
Proof.
  intros Ha. rewrite FloatAxioms.ltb_spec. unfold SFltb.
  destruct (self_difference v) as [-> | ->]; [|by rewrite SFcompare_nan_r].
  destruct Ha as [-> | Ha]; [done|].
  rewrite FloatAxioms.ltb_spec in Ha. unfold SFltb in Ha.
  change (Prim2SF 0) with (S754_zero false) in Ha.
  destruct (Prim2SF a) as [s|s| |s m e]; simpl in *; try done; by destruct s.
Qed.

End float_order.

(** ** The compute phase of the two drivers *)

Section driver_compute.

Lemma vget_zip_with (f : float -> float -> float) (x y : list float) i :
  (Z.to_nat i < length x)%nat -> (Z.to_nat i < length y)%nat ->
  vget (zip_with f x y) i = f (vget x i) (vget y i).
Proof.
  intros Hx Hy. unfold vget. rewrite !nth_lookup, lookup_zip_with.
  destruct (lookup_lt_is_Some_2 x _ Hx) as [a ->].
  destruct (lookup_lt_is_Some_2 y _ Hy) as [b ->]. done.
Qed.

(** Whatever the schedule, the workers leave [alpha * x[i] + y[i]] in
    every [y[i]]. *)
Lemma compute_zip (c : config) (y0 : list float) (N : Z) sched :
  exact_cover N (ranges c) -> Z.of_nat (length y0) = N ->
  length (xs c) = length y0 ->
  (gated c = true -> parties c = length (ranges c) /\ (1 <= parties c)%nat) ->
  ys (compute c sched y0) = zip_with (axpy (Threads.alpha c)) (xs c) y0.
Proof.
  intros Hcover Hy Hx Hp. apply (done_zip c y0 N); try done.
  - unfold compute. apply (join_data_inv c y0 N); try done.
    apply (run_schedule_data_inv c y0 N); try done.
    by apply (initial_data_inv c y0 N).
  - by apply compute_all_done.
Qed.

Lemma bench_compute_zip N T a (xs ys0 : list float) (w : world) :
  0 <= N <= SIZE_MAX -> T <= SIZE_MAX ->
  Z.of_nat (length xs) = N -> Z.of_nat (length ys0) = N ->
  (1 < T -> T <= max_threads w) ->
  exists out,
    DaxpyBenchmark.compute_phase w (DaxpyBenchmark.Build xs ys0 N T a) =
    Ok (DaxpyBenchmark.Build xs (zip_with (axpy a) xs ys0) N T a, out).
Proof.
  intros HN HT Hx Hy Hw. unfold DaxpyBenchmark.compute_phase. simpl.
  destruct (1 <? T) eqn:E.
  - apply Z.ltb_lt in E. unfold DaxpyBenchmark.run_multithreaded. simpl.
    replace (max_threads w <? T) with false by (symmetry; apply Z.ltb_ge; lia).
    eexists. do 2 f_equal. f_equal.
    rewrite (compute_zip _ _ N); simpl; [done| |done|lia|done].
    rewrite bench_ranges_static by (unfold is_size_t; lia).
    apply static_ranges_contract; lia.
  - unfold DaxpyBenchmark.run_single_threaded. simpl.
    eexists. do 2 f_equal. f_equal.
    rewrite daxpy_thread_whole, <- Hy. apply sequential_pass_zip. lia.
Qed.

Lemma worker_compute_zip N T a (xs ys0 y_orig : list float) GEM5 (w : world) :
  1 <= N <= SIZE_MAX -> 1 <= T <= INT_MAX ->
  Z.of_nat (length xs) = N -> Z.of_nat (length ys0) = N ->
  MultiThreadedDaxpy.compute_phase GEM5 w
    (MultiThreadedDaxpy.Build N T a xs ys0 y_orig) =
  MultiThreadedDaxpy.Build N T a xs (zip_with (axpy a) xs ys0) y_orig.
Proof.
  intros HN HT Hx Hy. unfold MultiThreadedDaxpy.compute_phase,
    MultiThreadedDaxpy.with_y. simpl. f_equal.
  assert (Hc : contract N T (worker_ranges N T)).
  { apply worker_ranges_contract;
      unfold is_size_t, is_int, INT_MIN, INT_MAX in *; lia. }
  rewrite (compute_zip _ _ N); simpl; [done| |done|lia|].
  - apply Hc.
  - intros _. pose proof (exactly_T _ _ _ Hc). lia.
Qed.

End driver_compute.

(** C1 (as amended).  For every vector length [N >= 1], thread count
    [T >= 1], scalar [alpha] and vectors [x] and [y] of length [N], when the
    compute phase of either driver has completed, under any schedule,
    [y[i]] is [alpha * x[i] + y_before[i]] for every [i] in [[0, N)].  For
    [N = 4], [alpha = 2], [x = [1,2,3,4]], [y = [10,20,30,40]] the result
    is [[12,24,36,48]], with one thread and with four. *)
Theorem compute_phase_daxpy :
  (forall N T a (xs ys0 : list float) (w : world),
     1 <= N <= SIZE_MAX -> 1 <= T ->
     Z.of_nat (length xs) = N -> Z.of_nat (length ys0) = N ->
     (T <= SIZE_MAX -> T <= max_threads w ->
      exists o' out,
        DaxpyBenchmark.compute_phase w (DaxpyBenchmark.Build xs ys0 N T a)
          = Ok (o', out) /\
        forall i, 0 <= i < N ->
          vget (DaxpyBenchmark.y o') i = axpy a (vget xs i) (vget ys0 i)) /\
     (T <= INT_MAX -> forall GEM5 y_orig,
      let o' := MultiThreadedDaxpy.compute_phase GEM5 w
                  (MultiThreadedDaxpy.Build N T a xs ys0 y_orig) in
      forall i, 0 <= i < N ->
        vget (MultiThreadedDaxpy.y o') i = axpy a (vget xs i) (vget ys0 i))) /\
  (forall T (w : world), T = 1 \/ T = 4 -> T <= max_threads w ->
     (exists o' out,
        DaxpyBenchmark.compute_phase w (DaxpyBenchmark.Build x4 y4 4 T 2%float)
          = Ok (o', out) /\
        DaxpyBenchmark.y o' = [12; 24; 36; 48]%float) /\
     (forall GEM5 y_orig,
        MultiThreadedDaxpy.y
          (MultiThreadedDaxpy.compute_phase GEM5 w
             (MultiThreadedDaxpy.Build 4 T 2%float x4 y4 y_orig))
        = [12; 24; 36; 48]%float)).
Proof.
  split.
  - intros N T a xs ys0 w HN HT Hx Hy. split.
    + intros HTm Hw.
      destruct (bench_compute_zip N T a xs ys0 w) as [out E]; [lia..|].
      eexists _, out. split; [exact E|]. simpl. intros i Hi.
      apply vget_zip_with; lia.
    + intros HTm GEM5 y_orig o' i Hi. subst o'.
      rewrite worker_compute_zip by lia. simpl.
      apply vget_zip_with; lia.
  - intros T w HT Hw.
    assert (H4 : 1 <= 4 <= SIZE_MAX) by (unfold SIZE_MAX; lia).
    assert (HT' : 1 <= T <= INT_MAX) by (unfold INT_MAX; lia).
    split.
    + destruct (bench_compute_zip 4 T 2%float x4 y4 w) as [out E];
        [unfold SIZE_MAX; lia..|done|done|lia|].
      eexists _, out. split; [exact E|]. reflexivity.
    + intros GEM5 y_orig. rewrite worker_compute_zip by done. reflexivity.
Qed.

(** Four elements on four workers, in the sample environment. *)
Lemma compute_phase_daxpy_witness :
  (exists o' out,
     DaxpyBenchmark.compute_phase sample_world
       (DaxpyBenchmark.Build x4 y4 4 4 2%float) = Ok (o', out) /\
     DaxpyBenchmark.y o' = [12; 24; 36; 48]%float) /\
  MultiThreadedDaxpy.y
    (MultiThreadedDaxpy.compute_phase true sample_world
       (MultiThreadedDaxpy.Build 4 4 2%float x4 y4 y4))
  = [12; 24; 36; 48]%float.
Proof.
  destruct compute_phase_daxpy as [_ H].
  destruct (H 4 sample_world) as [H1 H2]; [by right | simpl; lia |].
  split; [exact H1 | apply H2].
Defined.

(** The value the specification gives for the last element, 44, is not
    what either driver computes: [2 * 4 + 40] is 48. *)
Lemma compute_phase_not_44 :
  ~ (MultiThreadedDaxpy.y
       (MultiThreadedDaxpy.compute_phase true sample_world
          (MultiThreadedDaxpy.Build 4 4 2%float x4 y4 y4))
     = [12; 24; 36; 44]%float) /\
  ~ (MultiThreadedDaxpy.y
       (MultiThreadedDaxpy.compute_phase true sample_world
          (MultiThreadedDaxpy.Build 4 1 2%float x4 y4 y4))
     = [12; 24; 36; 44]%float) /\
  ~ (exists o' out,
       DaxpyBenchmark.compute_phase sample_world
         (DaxpyBenchmark.Build x4 y4 4 4 2%float) = Ok (o', out) /\
       DaxpyBenchmark.y o' = [12; 24; 36; 44]%float) /\
  ~ (exists o' out,
       DaxpyBenchmark.compute_phase sample_world
         (DaxpyBenchmark.Build x4 y4 4 1 2%float) = Ok (o', out) /\
       DaxpyBenchmark.y o' = [12; 24; 36; 44]%float).
Proof.
  assert (Hne : forall l : list float,
            l = [12; 24; 36; 48]%float -> l <> [12; 24; 36; 44]%float).
  { intros l -> H. apply (f_equal (fun l => Prim2SF (nth 3 l 0%float))) in H.
    vm_compute in H. discriminate H. }
  repeat split.
  - apply Hne. vm_compute. reflexivity.
  - apply Hne. vm_compute. reflexivity.
  - intros (o' & out & E & H). revert H. apply Hne.
    vm_compute in E. by injection E as <- _.
  - intros (o' & out & E & H). revert H. apply Hne.
    vm_compute in E. by injection E as <- _.
Qed.

(** ** Parallel against sequential *)

Section self_comparison.

Import MultiThreadedDaxpy.

Lemma zero_below_tolerance : (0 <? tolerance)%float = true.
Proof. reflexivity. Qed.

Lemma compare_at_self (l : list float) i :
  compare_at l l i (true, 0%float) = (true, 0%float).
Proof.
  unfold compare_at, std_max.
  rewrite (self_difference_ltb _ 0%float) by (by left).
  rewrite (self_difference_ltb _ tolerance) by (right; apply zero_below_tolerance).
  done.
Qed.

Lemma for_count_compare_self (l : list float) (n : nat) : forall i,
  for_count n i (compare_at l l) (true, 0%float) = (true, 0%float).
Proof.
  induction n as [|n IH]; intros i; cbn [for_count]; [done|].
  by rewrite compare_at_self.
Qed.

(** Compared with itself, a vector passes with a maximum error of 0. *)
Lemma compare_self (l : list float) n : compare l l n = (true, 0%float).
Proof. apply for_count_compare_self. Qed.

Lemma within_tolerance_self (l : list float) n : within_tolerance l l n.
Proof.
  split.
  - exists 0%float. split; [apply compare_self | reflexivity].
  - intros i _. unfold error_at.
    apply self_difference_ltb. right. apply zero_below_tolerance.
Qed.

End self_comparison.

(** C3.  For every [N], [T], [alpha], [x] and [y], the result of the
    workers' updates over the [T] partitions, under any schedule, is the
    result of the single sequential pass [y[i] = alpha * x[i] + y[i]] for
    [i] from 0 to [N - 1]; the two are within [1e-10] of each other: the
    comparison loop of the verifier passes them with a maximum error within
    the tolerance, and no element differs by more than the tolerance.  This
    includes [T = 1]. *)
Theorem parallel_equals_sequential N T a (xs ys0 : list float) (w : world) :
  1 <= N <= SIZE_MAX -> 1 <= T ->
  Z.of_nat (length xs) = N -> Z.of_nat (length ys0) = N ->
  let y_seq := sequential_pass a xs N ys0 in
  (T <= SIZE_MAX -> T <= max_threads w ->
   exists o' out,
     DaxpyBenchmark.compute_phase w (DaxpyBenchmark.Build xs ys0 N T a)
       = Ok (o', out) /\
     DaxpyBenchmark.y o' = y_seq /\
     within_tolerance (DaxpyBenchmark.y o') y_seq N) /\
  (T <= INT_MAX -> forall GEM5 y_orig,
   let o' := MultiThreadedDaxpy.compute_phase GEM5 w
               (MultiThreadedDaxpy.Build N T a xs ys0 y_orig) in
   MultiThreadedDaxpy.y o' = y_seq /\
   within_tolerance (MultiThreadedDaxpy.y o') y_seq N).
Proof.
  intros HN HT Hx Hy y_seq.
  assert (Hseq : y_seq = zip_with (axpy a) xs ys0).
  { subst y_seq. rewrite <- Hy. apply sequential_pass_zip. lia. }
  split.
  - intros HTm Hw.
    destruct (bench_compute_zip N T a xs ys0 w) as [out E]; [lia..|].
    eexists _, out. split; [exact E|]. simpl. rewrite <- Hseq.
    split; [done | apply within_tolerance_self].
  - intros HTm GEM5 y_orig o'. subst o'.
    rewrite worker_compute_zip by lia. simpl. rewrite <- Hseq.
    split; [done | apply within_tolerance_self].
Qed.

(** Four elements on four workers of driver 2, in the sample environment. *)
Lemma parallel_equals_sequential_witness :
  let o' := MultiThreadedDaxpy.compute_phase true sample_world
              (MultiThreadedDaxpy.Build 4 4 2%float x4 y4 y4) in
  MultiThreadedDaxpy.y o' = sequential_pass 2%float x4 4 y4 /\
  within_tolerance (MultiThreadedDaxpy.y o') (sequential_pass 2%float x4 4 y4) 4.
Proof.
  assert (H4 : 1 <= 4 <= SIZE_MAX) by (unfold SIZE_MAX; lia).
  destruct (parallel_equals_sequential 4 4 2%float x4 y4 sample_world)
    as [_ H]; [done | lia | done | done |].
  apply H. unfold INT_MAX. lia.
Defined.

(** ** The verifier *)

Section verifier.

Import MultiThreadedDaxpy.
Local Open Scope float_scope.

Lemma ltb_irrefl e : (e <? e) = false.
Proof.
  destruct (e <? e) eqn:E; [|done].
  pose proof (ltb_leb _ _ E). pose proof (ltb_not_leb _ _ E). congruence.
Qed.

Lemma leb_refl e : is_number e = true -> (e <=? e) = true.
Proof. intros H. apply leb_total; auto using ltb_irrefl. Qed.

Lemma tolerance_number : is_number tolerance = true.
Proof. reflexivity. Qed.

Lemma compared_start err : compared err 0 (true, 0).
Proof.
  split; simpl; try done.
  - intros; lia.
  - by left.
  - split; [intros; lia | done].
Qed.

Lemma compared_step par y (i : Z) acc :
  (0 <= i)%Z -> compared (error_at par y) i acc ->
  compared (error_at par y) (i + 1) (compare_at par y i acc).
Proof.
  intros Hi [Hm Hc Hub Hatt Hall]. destruct acc as [c m]. simpl in *.
  unfold compare_at, std_max. fold (error_at par y i).
  set (e := error_at par y i) in *.
  assert (Hall' : (if tolerance <? e then false else c) = true <->
            forall j, (0 <= j < i + 1)%Z -> (tolerance <? error_at par y j) = false).
  { destruct (tolerance <? e) eqn:Et.
    - split; [done|]. intros H. specialize (H i ltac:(lia)). fold e in H. congruence.
    - rewrite Hall. split; intros H j Hj.
      + destruct (decide (j = i)) as [->|]; [done | apply H; lia].
      + apply H. lia. }
  destruct (m <? e) eqn:Eme.
  - destruct (ltb_number _ _ Eme) as [_ He]. pose proof (ltb_leb _ _ Eme) as Hle.
    split; simpl; try done.
    + destruct (tolerance <? e) eqn:Et.
      * symmetry. by apply ltb_not_leb.
      * pose proof (leb_total _ _ tolerance_number He Et) as Het.
        rewrite Het, Hc. by apply (leb_trans _ e).
    + intros j Hj Hn. destruct (decide (j = i)) as [->|].
      * by apply leb_refl.
      * apply (leb_trans _ m); [apply Hub; (done || lia) | done].
    + right. exists i. split; [lia | done].
  - split; simpl; try done.
    + destruct (tolerance <? e) eqn:Et; [|done].
      destruct (ltb_number _ _ Et) as [_ He].
      pose proof (leb_total _ _ Hm He Eme) as Hem.
      destruct (m <=? tolerance) eqn:Emt; [|done].
      pose proof (leb_trans _ _ _ Hem Emt) as H.
      pose proof (ltb_not_leb _ _ Et). congruence.
    + intros j Hj Hn. destruct (decide (j = i)) as [->|].
      * by apply leb_total.
      * apply Hub; (done || lia).
    + destruct Hatt as [?|(j & Hj & ?)]; [by left|].
      right. exists j. split; [lia | done].
Qed.

Lemma for_count_compared par y (n : nat) : forall i acc,
  (0 <= i)%Z -> compared (error_at par y) i acc ->
  compared (error_at par y) (i + Z.of_nat n)
           (for_count n i (compare_at par y) acc).
Proof.
  induction n as [|n IH]; intros i acc Hi H; cbn [for_count].
  - by rewrite Z.add_0_r.
  - replace (i + Z.of_nat (S n))%Z with (i + 1 + Z.of_nat n)%Z by lia.
    apply IH; [lia|]. by apply compared_step.
Qed.

Lemma compare_compared par y (N : Z) :
  compared (error_at par y) N (compare par y N).
Proof.
  unfold compare, for_loop. rewrite Z.sub_0_r.
  destruct (Z_le_gt_dec 0 N) as [HN|HN].
  - pose proof (for_count_compared par y (Z.to_nat N) 0 (true, 0)
                  ltac:(lia) (compared_start _)) as H.
    by rewrite Z.add_0_l, Z2Nat.id in H.
  - replace (Z.to_nat N) with 0%nat by lia. cbn [for_count].
    split; simpl; try done.
    + intros; lia.
    + by left.
    + split; [intros; lia | done].
Qed.

Lemma vget_sequential_pass a (x y : list float) (N i : Z) :
  (N <= Z.of_nat (length y))%Z -> (0 <= i < N)%Z ->
  vget (sequential_pass a x N y) i = axpy a (vget x i) (vget y i).
Proof.
  intros HN Hi. apply vget_lookup. unfold sequential_pass, for_loop.
  rewrite for_count_daxpy by lia.
  rewrite bool_decide_eq_true_2 by lia. by rewrite Z2Nat.id by lia.
Qed.

Lemma verify_results_unfold (o : t) :
  verify_results o =
  (o, [ Line Cout "Results verification: "
          (Text (verdict (fst (compare (y o)
             (sequential_pass (alpha o) (x o) (vector_size o) (y_original o))
             (vector_size o)))));
        Line Cout "Maximum error: "
          (Double (snd (compare (y o)
             (sequential_pass (alpha o) (x o) (vector_size o) (y_original o))
             (vector_size o))));
        Line Cout "First 10 results: "
          (Doubles (vget (y o) <$> counters (Z.min 10 (vector_size o)))) ]).
Proof.
  unfold verify_results, with_y. simpl.
  destruct (compare _ _ _) as [c m]. by destruct o.
Qed.

Lemma first_elements (l : list float) (k : Z) :
  (k <= Z.of_nat (length l))%Z -> vget l <$> counters k = take (Z.to_nat k) l.
Proof.
  intros Hk. apply list_eq. intros j. rewrite list_lookup_fmap.
  destruct (decide (j < Z.to_nat k)%nat) as [Hj|Hj].
  - rewrite lookup_counters, lookup_take_lt by done. simpl.
    unfold vget. rewrite Nat2Z.id, nth_lookup.
    destruct (lookup_lt_is_Some_2 l j) as [a ->]; [lia | done].
  - rewrite lookup_take_ge by lia.
    destruct (counters k !! j) eqn:E; [|done].
    apply lookup_counters_inv in E. lia.
Qed.

End verifier.

Section verifier_contract.

Lemma step_length c t s s' : step c t s = Some s' -> length (ys s') = length (ys s).
Proof.
  unfold step. destruct (pcs s !! t) as [p|]; [|done].
  destruct (ranges c !! t) as [[lo hi]|]; [|done].
  destruct p as [b|b tok|b|i|i v|]; repeat case_match; try done;
    intros [= <-]; simpl; by rewrite ?length_vset.
Qed.

Lemma pick_length c s t : length (ys (pick c s t)) = length (ys s).
Proof.
  unfold pick. destruct (step c t s) eqn:E; simpl; [|done].
  by eapply step_length.
Qed.

Lemma run_schedule_length c sched : forall s,
  length (ys (run_schedule c sched s)) = length (ys s).
Proof.
  induction sched as [|t sched IH]; intros s; simpl; [done|].
  by rewrite IH, pick_length.
Qed.

Lemma join_length c fuel : forall s, length (ys (join c fuel s)) = length (ys s).
Proof.
  induction fuel as [|fuel IH]; intros s; simpl; [done|].
  destruct (runnable c s); [|done]. by rewrite IH, pick_length.
Qed.

Lemma compute_length c sched y0 : length (ys (compute c sched y0)) = length y0.
Proof. unfold compute. by rewrite join_length, run_schedule_length. Qed.

End verifier_contract.

(** C4.  Given the snapshot [y_original], [alpha] and [x], the verifier
    recomputes [y_seq[i] = alpha * x[i] + y_original[i]] for all [i],
    compares it with the parallel result in [y], and prints the verdict
    and the maximum absolute error, whatever the verdict is.  The verdict is
    a pass exactly when that maximum is at most [1e-10], which is exactly
    when no element differs by more than [1e-10].  The maximum bounds the
    error of every element (an error that is a NaN is not ordered), and it
    is the error of some element or 0. *)
Theorem verify_results_verdict (o : MultiThreadedDaxpy.t) :
  let N := MultiThreadedDaxpy.vector_size o in
  Z.of_nat (length (MultiThreadedDaxpy.y_original o)) = N ->
  let y_seq (i : Z) :=
    axpy (MultiThreadedDaxpy.alpha o) (vget (MultiThreadedDaxpy.x o) i)
         (vget (MultiThreadedDaxpy.y_original o) i) in
  let error (i : Z) := abs (vget (MultiThreadedDaxpy.y o) i - y_seq i)%float in
  exists (correct : bool) (max_error : float) rest,
    snd (MultiThreadedDaxpy.verify_results o) =
      Line Cout "Results verification: "
           (Text (if correct then "PASSED" else "FAILED")) ::
      Line Cout "Maximum error: " (Double max_error) :: rest /\
    (correct = true <-> (max_error <=? MultiThreadedDaxpy.tolerance)%float = true) /\
    (correct = true <->
     forall i, 0 <= i < N -> (MultiThreadedDaxpy.tolerance <? error i)%float = false) /\
    is_number max_error = true /\
    (forall i, 0 <= i < N -> is_number (error i) = true ->
       (error i <=? max_error)%float = true) /\
    (max_error = 0%float \/ exists i, 0 <= i < N /\ max_error = error i).
Proof.
  intros N Hlen y_seq error.
  rewrite verify_results_unfold. simpl. fold N.
  set (seq := sequential_pass _ _ N _).
  pose proof (compare_compared (MultiThreadedDaxpy.y o) seq N) as H.
  assert (Herr : forall i, 0 <= i < N ->
            error_at (MultiThreadedDaxpy.y o) seq i = error i).
  { intros i Hi. unfold error_at, error, y_seq. subst seq.
    rewrite vget_sequential_pass by lia. done. }
  destruct (MultiThreadedDaxpy.compare _ seq N) as [c m].
  destruct H as [Hm Hc Hub Hatt Hall]. simpl in *.
  exists c, m. eexists. split; [reflexivity|].
  split; [by rewrite Hc|]. split; [|split; [done|split]].
  - rewrite Hall. split; intros H i Hi.
    + rewrite <- Herr by done. by apply H.
    + rewrite Herr by done. by apply H.
  - intros i Hi Hn. rewrite <- Herr in * by done. by apply Hub.
  - destruct Hatt as [?|(i & Hi & ?)]; [by left|].
    right. exists i. split; [done|]. by rewrite <- Herr.
Qed.

(** A parallel result that is off by a half in its last element fails,
    and the half is reported. *)
Lemma verify_results_verdict_witness :
  let o := MultiThreadedDaxpy.Build 4 2 2%float x4
             [12; 24; 36; 48.5]%float y4 in
  (exists (correct : bool) (max_error : float) rest,
     snd (MultiThreadedDaxpy.verify_results o) =
       Line Cout "Results verification: "
            (Text (if correct then "PASSED" else "FAILED")) ::
       Line Cout "Maximum error: " (Double max_error) :: rest /\
     (correct = true <->
      (max_error <=? MultiThreadedDaxpy.tolerance)%float = true)) /\
  take 2 (snd (MultiThreadedDaxpy.verify_results o)) =
    [ Line Cout "Results verification: " (Text "FAILED");
      Line Cout "Maximum error: " (Double 0.5%float) ].
Proof.
  intros o. split; [|vm_compute; reflexivity].
  destruct (verify_results_verdict o eq_refl)
    as (correct & max_error & rest & E & Hiff & _).
  by exists correct, max_error, rest.
Defined.

(** C5.  When the verification pass has completed, [y] again holds
    exactly the result of the parallel phase, and the "First 10 results"
    line printed after it lists the first [min(10, N)] elements of that
    parallel result. *)
Theorem verification_restores_parallel_result GEM5 (w : world)
    (o : MultiThreadedDaxpy.t) :
  Z.of_nat (length (MultiThreadedDaxpy.y o)) = MultiThreadedDaxpy.vector_size o ->
  MultiThreadedDaxpy.num_threads o <= max_threads w ->
  let parallel := MultiThreadedDaxpy.compute_phase GEM5 w o in
  fst (MultiThreadedDaxpy.verify_results parallel) = parallel /\
  exists o' out,
    MultiThreadedDaxpy.run_parallel GEM5 w o = (Ok (o', out), []) /\
    MultiThreadedDaxpy.y o' = MultiThreadedDaxpy.y parallel /\
    last out = Some (Line Cout "First 10 results: "
      (Doubles (take (Z.to_nat (Z.min 10 (MultiThreadedDaxpy.vector_size o)))
                     (MultiThreadedDaxpy.y parallel)))).
Proof.
  intros Hlen Hw parallel.
  split; [by rewrite verify_results_unfold|].
  unfold MultiThreadedDaxpy.run_parallel.
  replace (max_threads w <? _) with false by (symmetry; apply Z.ltb_ge; lia).
  fold parallel. rewrite verify_results_unfold.
  eexists _, _. split; [reflexivity|]. split; [done|].
  rewrite !app_assoc. simpl.
  rewrite first_elements.
  - change (MultiThreadedDaxpy.vector_size parallel)
      with (MultiThreadedDaxpy.vector_size o). reflexivity.
  - unfold parallel, MultiThreadedDaxpy.compute_phase. simpl.
    rewrite compute_length. lia.
Qed.

(** Four elements on two workers of driver 2, in the sample environment. *)
Lemma verification_restores_parallel_result_witness :
  let o := MultiThreadedDaxpy.Build 4 2 2%float x4 y4 y4 in
  exists o' out,
    MultiThreadedDaxpy.run_parallel true sample_world o = (Ok (o', out), []) /\
    MultiThreadedDaxpy.y o' = [12; 24; 36; 48]%float /\
    last out = Some (Line Cout "First 10 results: "
                       (Doubles [12; 24; 36; 48]%float)).
Proof.
  intros o.
  destruct (verification_restores_parallel_result true sample_world o)
    as (_ & o' & out & E & Hy & Hlast); [done | simpl; lia |].
  exists o', out. split; [exact E|]. split.
  - rewrite Hy. vm_compute. reflexivity.
  - rewrite Hlast. vm_compute. reflexivity.
Defined.

(** ** Driver 1 from the command line to the exit code *)

Section driver1.

Import DaxpyBenchmark.

Lemma digit_range a d : digit a = Some d -> 0 <= d <= 9.
Proof.
  unfold digit.
  destruct (48 <=? Z.of_nat (nat_of_ascii a)) eqn:E1; [|done].
  destruct (Z.of_nat (nat_of_ascii a) <=? 57) eqn:E2; [|done].
  simpl. intros [= <-]. lia.
Qed.

Lemma digits_nonneg s : forall acc seen m,
  0 <= acc -> digits s acc seen = Some m -> 0 <= m.
Proof.
  induction s as [|a s IH]; simpl; intros acc seen m Hacc H.
  - destruct seen; [|done]. by injection H as <-.
  - destruct (digit a) as [d|] eqn:Ed.
    + pose proof (digit_range _ _ Ed). eapply IH; [|done]. lia.
    + destruct seen; [|done]. by injection H as <-.
Qed.

Lemma sto_unsigned_range name s n :
  sto_unsigned name s = Ok n -> 0 <= n <= SIZE_MAX.
Proof.
  unfold sto_unsigned, scan_integer.
  destruct (split_sign (skip_spaces s)) as [neg t].
  destruct (digits t 0 false) as [m|] eqn:Ed; [|done].
  pose proof (digits_nonneg t 0 false m (Z.le_refl 0) Ed).
  destruct (SIZE_MAX <? m) eqn:Em; [done|]. apply Z.ltb_ge in Em.
  intros [= <-]. destruct neg; [|lia].
  unfold to_size_t, SIZE_MAX.
  assert (0 < 2 ^ 64) by done.
  pose proof (Z.mod_pos_bound (- m) (2 ^ 64)). lia.
Qed.

Lemma stoul_range s n : stoul s = Ok n -> 0 <= n <= SIZE_MAX.
Proof. apply sto_unsigned_range. Qed.

Lemma parse_arguments_range stod argv N T a :
  parse_arguments stod argv = Ok (N, T, a) ->
  0 <= N <= SIZE_MAX /\ 0 <= T <= SIZE_MAX.
Proof.
  unfold parse_arguments.
  destruct (2 <=? _).
  - destruct (stoul (arg argv 1)) as [n| |] eqn:En; simpl; [|done..].
    apply stoul_range in En.
    destruct (3 <=? _).
    + destruct (stoul (arg argv 2)) as [t| |] eqn:Et; simpl; [|done..].
      apply stoul_range in Et.
      destruct (if 4 <=? _ then _ else _); simpl; [|done..].
      by intros [= <- <- <-].
    + simpl. destruct (if 4 <=? _ then _ else _); simpl; [|done..].
      intros [= <- <- <-]. unfold SIZE_MAX in *. lia.
  - simpl. destruct (3 <=? _).
    + destruct (stoul (arg argv 2)) as [t| |] eqn:Et; simpl; [|done..].
      apply stoul_range in Et.
      destruct (if 4 <=? _ then _ else _); simpl; [|done..].
      intros [= <- <- <-]. unfold SIZE_MAX in *. lia.
    + simpl. destruct (if 4 <=? _ then _ else _); simpl; [|done..].
      intros [= <- <- <-]. unfold SIZE_MAX in *. lia.
Qed.

(** The constructor's loop fills the indices of [[i, i + n)]. *)
Lemma for_count_init N (n : nat) : forall (i : Z) (xy : list float * list float) (j : nat),
  0 <= i -> (Z.to_nat i + n <= length (fst xy))%nat ->
  (Z.to_nat i + n <= length (snd xy))%nat ->
  let r := for_count n i (init_at N) xy in
  fst r !! j = (if bool_decide (i <= Z.of_nat j < i + Z.of_nat n)
                then Some (to_double (size_add (Z.of_nat j) 1)) else fst xy !! j) /\
  snd r !! j = (if bool_decide (i <= Z.of_nat j < i + Z.of_nat n)
                then Some (to_double (size_sub N (Z.of_nat j))) else snd xy !! j).
Proof.
  induction n as [|n IH]; intros i xy j Hi Hx Hy; cbn [for_count].
  - simpl. rewrite bool_decide_eq_false_2 by lia. done.
  - destruct (IH (i + 1) (init_at N i xy) j) as [IHx IHy];
      [lia | simpl; rewrite length_vset; lia..|].
    simpl. rewrite IHx, IHy. simpl. unfold vset.
    destruct (decide (Z.of_nat j = i)) as [<-|Hne].
    + rewrite (bool_decide_eq_false_2 (Z.of_nat j + 1 <= _ < _)) by lia.
      rewrite bool_decide_eq_true_2 by lia.
      rewrite Nat2Z.id. rewrite !list_lookup_insert_eq by lia. done.
    + rewrite !list_lookup_insert_ne by lia.
      split; case_bool_decide; case_bool_decide; (done || lia).
Qed.

Lemma construct_vectors N T a :
  0 <= N <= SIZE_MAX -> construct N T a = Build (initial_x N) (initial_y N) N T a.
Proof.
  intros HN. unfold construct, for_loop. rewrite Z.sub_0_r.
  set (zeros := replicate (Z.to_nat N) 0%float).
  assert (Hz : length zeros = Z.to_nat N) by apply length_replicate.
  f_equal; apply list_eq; intros j;
    destruct (for_count_init N (Z.to_nat N) 0 (zeros, zeros) j) as [Hx Hy];
    simpl; try lia; unfold initial_x, initial_y; rewrite list_lookup_fmap.
  - rewrite Hx. case_bool_decide as Hj.
    + rewrite lookup_counters by lia. simpl. f_equal. f_equal.
      unfold size_add. apply to_size_t_id. unfold is_size_t. lia.
    + simpl. unfold zeros. rewrite (proj1 (lookup_replicate_None _ _ _)) by lia.
      destruct (counters N !! j) eqn:E; [|done].
      apply lookup_counters_inv in E. lia.
  - rewrite Hy. case_bool_decide as Hj.
    + rewrite lookup_counters by lia. simpl. f_equal. f_equal.
      unfold size_sub. apply to_size_t_id. unfold is_size_t. lia.
    + simpl. unfold zeros. rewrite (proj1 (lookup_replicate_None _ _ _)) by lia.
      destruct (counters N !! j) eqn:E; [|done].
      apply lookup_counters_inv in E. lia.
Qed.

Lemma length_initial_x N : Z.of_nat (length (initial_x N)) = Z.max 0 N.
Proof. unfold initial_x. rewrite length_fmap, length_counters. lia. Qed.

Lemma length_initial_y N : Z.of_nat (length (initial_y N)) = Z.max 0 N.
Proof. unfold initial_y. rewrite length_fmap, length_counters. lia. Qed.

(** [main] once its arguments have been converted. *)
Lemma main_parsed stod (w : world) argv N T a :
  parse_arguments stod argv = Ok (N, T, a) ->
  main stod w argv =
    if negb (can_allocate w N) then
      Process (Terminate (creation_error "vector::_M_default_append" N))
              (banner N T a) 0
    else if (1 <? T) && (max_threads w <? T)
    then Process (Terminate system_error) (banner N T a)
                 (Z.to_nat (Z.min (max_threads w) T))
    else Process (Exit 0) (expected_output w N T a)
                 (if 1 <? T then Z.to_nat (Z.min (max_threads w) T) else 0%nat).
Proof.
  intros Hp. unfold main. rewrite Hp.
  destruct (parse_arguments_range _ _ _ _ _ Hp) as [HN HT].
  destruct (negb (can_allocate w N)); [done|].
  rewrite construct_vectors by done.
  unfold threads_created. simpl.
  destruct ((1 <? T) && (max_threads w <? T)) eqn:E.
  - apply andb_true_iff in E as [E1 E2].
    unfold compute_phase, run_multithreaded. simpl. by rewrite E1, E2.
  - destruct (bench_compute_zip N T a (initial_x N) (initial_y N) w)
      as [out Hc]; [lia | lia | rewrite length_initial_x; lia
                    | rewrite length_initial_y; lia | |].
    { intros H1. apply Z.ltb_lt in H1. rewrite H1 in E. simpl in E.
      apply Z.ltb_ge in E. lia. }
    rewrite Hc. unfold expected_output.
    assert (out = [elapsed_line (if 1 <? T then "Multi-threaded execution time: "
                  else "Single-threaded execution time: ") w]) as ->.
    { revert Hc. unfold compute_phase, run_multithreaded, run_single_threaded.
      simpl. destruct (1 <? T); [destruct (max_threads w <? T); [done|]|];
        by intros [= _ <-]. }
    unfold print_results. simpl. f_equal. f_equal. f_equal. f_equal. f_equal.
    f_equal. f_equal.
    rewrite first_elements; [done|].
    unfold expected_y. rewrite length_zip_with.
    pose proof (length_initial_x N). pose proof (length_initial_y N). lia.
Qed.

End driver1.

Section command_line_facts.

Lemma stoi_range s v : stoi s = Ok v -> INT_MIN <= v <= INT_MAX.
Proof.
  unfold stoi. destruct (scan_integer s) as [[neg m]|]; [|done].
  destruct (_ || _); [done|].
  destruct (_ || _) eqn:E; [done|]. intros [= <-].
  apply orb_false_iff in E as [E1 E2].
  apply Z.ltb_ge in E1, E2. done.
Qed.

Lemma bad_thread_count_spec (w : world) T :
  INT_MIN <= T <= INT_MAX ->
  MultiThreadedDaxpy.bad_thread_count w T = true <->
  T < 1 \/ hardware_concurrency w < T.
Proof.
  intros HT. unfold MultiThreadedDaxpy.bad_thread_count.
  rewrite orb_true_iff, Z.leb_le, Z.ltb_lt.
  destruct (Z_le_gt_dec T 0) as [H0|H0]; [split; intros; left; lia|].
  rewrite to_unsigned_id by (unfold INT_MAX, UINT_MAX in *; lia). lia.
Qed.




End command_line_facts.

(** C6 (as amended).  Driver 2 prints its usage message and exits with
    code 1 whenever it is not given exactly three arguments; and, when it
    is and the three conversions ([std::stoull], [std::stoi], [std::stod],
    made before the checks and outside the [try] block) have returned, it
    exits with code 1 and a message on [std::cerr] whenever [num_threads] is
    outside [[1, hardware_concurrency()]] or [vector_size] is 0.  In each
    case no worker thread has been created. *)
Theorem driver2_rejects_bad_configuration GEM5 stod (w : world) (argv : list string) :
  (length argv <> 4%nat ->
   MultiThreadedDaxpy.main GEM5 stod w argv =
     Process (Exit 1) (MultiThreadedDaxpy.usage (arg argv 0)) 0) /\
  (forall N T a,
     length argv = 4%nat ->
     MultiThreadedDaxpy.parse_arguments stod argv = Ok (N, T, a) ->
     (T < 1 \/ hardware_concurrency w < T) \/ N = 0 ->
     let p := MultiThreadedDaxpy.main GEM5 stod w argv in
     status p = Exit 1 /\ workers p = 0%nat /\
     output p =
       if MultiThreadedDaxpy.bad_thread_count w T
       then [Line Cerr "Invalid number of threads. Must be between 1 and "
                  (Int (hardware_concurrency w))]
       else [Line Cerr "Vector size must be greater than 0" (Text "")]).
Proof.
  split.
  - intros Hlen. unfold MultiThreadedDaxpy.main.
    replace (length argv =? 4)%nat with false
      by (symmetry; by apply Nat.eqb_neq). done.
  - intros N T a Hlen Hp Hbad p. subst p. unfold MultiThreadedDaxpy.main.
    rewrite Hlen, Hp. simpl.
    assert (HT : INT_MIN <= T <= INT_MAX).
    { revert Hp. unfold MultiThreadedDaxpy.parse_arguments.
      destruct (stoull _); simpl; [|done..].
      destruct (stoi (arg argv 2)) as [t| |] eqn:Et; simpl; [|done..].
      destruct (stod _); simpl; [|done..]. intros [= _ <- _].
      by apply (stoi_range _ _ Et). }
    destruct (MultiThreadedDaxpy.bad_thread_count w T) eqn:Eb; [done|].
    destruct Hbad as [Hbad| ->]; [|done].
    apply (bad_thread_count_spec w T HT) in Hbad. congruence.
Qed.

(** Driver 2 asked for nine threads where eight are available, and asked
    for a vector of length zero. *)
Lemma driver2_rejects_bad_configuration_witness :
  MultiThreadedDaxpy.main true sample_stod sample_world
    ["multi_threaded_daxpy"; "1000"; "9"; "2.5"]%string =
    Process (Exit 1)
      [Line Cerr "Invalid number of threads. Must be between 1 and " (Int 8)] 0 /\
  status (MultiThreadedDaxpy.main true sample_stod sample_world
            ["multi_threaded_daxpy"; "0"; "4"; "2.5"]%string) = Exit 1 /\
  MultiThreadedDaxpy.main true sample_stod sample_world
    ["multi_threaded_daxpy"; "1000"; "4"]%string =
    Process (Exit 1) (MultiThreadedDaxpy.usage "multi_threaded_daxpy") 0.
Proof.
  split; [reflexivity|]. split.
  - destruct (driver2_rejects_bad_configuration true sample_stod sample_world
                ["multi_threaded_daxpy"; "0"; "4"; "2.5"]%string) as [_ H].
    destruct (H 0 4 2.5%float) as [Hs _]; [done | reflexivity | by right |].
    exact Hs.
  - destruct (driver2_rejects_bad_configuration true sample_stod sample_world
                ["multi_threaded_daxpy"; "1000"; "4"]%string) as [H _].
    apply H. simpl. lia.
Defined.

(** The checks come after the conversions: a thread count that is outside
    [[1, 8]] because it does not fit an [int], and a thread count of 0
    followed by a scalar that does not convert, end the process in
    [std::terminate] instead of the message and exit code 1. *)
Lemma checks_follow_conversions :
  scan_integer "2147483648" = Some (false, 2147483648) /\
  hardware_concurrency sample_world < 2147483648 /\
  MultiThreadedDaxpy.main true sample_stod sample_world
    ["multi_threaded_daxpy"; "4"; "2147483648"; "2"]%string =
    Process (Terminate (out_of_range "stoi")) [] 0 /\
  stoi "0" = Ok 0 /\
  MultiThreadedDaxpy.main true sample_stod sample_world
    ["multi_threaded_daxpy"; "1000"; "0"; "abc"]%string =
    Process (Terminate (invalid_argument "stod")) [] 0 /\
  status (MultiThreadedDaxpy.main true sample_stod sample_world
            ["multi_threaded_daxpy"; "4"; "2147483648"; "2"]%string) <> Exit 1 /\
  status (MultiThreadedDaxpy.main true sample_stod sample_world
            ["multi_threaded_daxpy"; "1000"; "0"; "abc"]%string) <> Exit 1.
Proof.
  split; [reflexivity|]. split; [simpl; lia|]. split; [reflexivity|].
  split; [reflexivity|]. split; [reflexivity|]. split; discriminate.
Qed.




(** C8 (as amended).  Driver 1 takes up to three optional arguments, read
    left to right, with the defaults [vector_size = 1000],
    [num_threads = 1] and [alpha = 2.5] for those that are omitted.  No
    value is rejected: whenever the arguments that are given convert, the
    two vectors can be allocated and the threads can be created, the
    process exits with code 0. *)
Theorem driver1_defaults_and_exit stod (w : world) :
  (forall prog,
     DaxpyBenchmark.parse_arguments stod [prog] = Ok (1000, 1, 2.5%float)) /\
  (forall prog a1,
     DaxpyBenchmark.parse_arguments stod [prog; a1] =
     bind (stoul a1) (fun N => Ok (N, 1, 2.5%float))) /\
  (forall prog a1 a2,
     DaxpyBenchmark.parse_arguments stod [prog; a1; a2] =
     bind (stoul a1) (fun N => bind (stoul a2) (fun T => Ok (N, T, 2.5%float)))) /\
  (forall prog a1 a2 a3 rest,
     DaxpyBenchmark.parse_arguments stod (prog :: a1 :: a2 :: a3 :: rest) =
     bind (stoul a1) (fun N => bind (stoul a2) (fun T =>
       bind (stod a3) (fun a => Ok (N, T, a))))) /\
  (forall argv N T a,
     DaxpyBenchmark.parse_arguments stod argv = Ok (N, T, a) ->
     can_allocate w N = true -> (1 < T -> T <= max_threads w) ->
     status (DaxpyBenchmark.main stod w argv) = Exit 0 /\
     output (DaxpyBenchmark.main stod w argv) = expected_output w N T a).
Proof.
  split; [done|]. split; [done|]. split; [done|]. split.
  - intros prog a1 a2 a3 rest. unfold DaxpyBenchmark.parse_arguments.
    cbn [length].
    replace (2 <=? _) with true by (symmetry; apply Z.leb_le; lia).
    replace (3 <=? _) with true by (symmetry; apply Z.leb_le; lia).
    replace (4 <=? _) with true by (symmetry; apply Z.leb_le; lia).
    done.
  - intros argv N T a Hp Halloc Hthreads.
    rewrite (main_parsed _ _ _ _ _ _ Hp), Halloc. simpl.
    destruct ((1 <? T) && (max_threads w <? T)) eqn:E; [|done].
    apply andb_true_iff in E as [E1 E2].
    apply Z.ltb_lt in E1, E2. lia.
Qed.

(** Twelve elements, the other two arguments left out. *)
Lemma driver1_defaults_and_exit_witness :
  status (DaxpyBenchmark.main sample_stod sample_world
            ["daxpy_benchmark"; "12"]%string) = Exit 0 /\
  output (DaxpyBenchmark.main sample_stod sample_world
            ["daxpy_benchmark"; "12"]%string) =
    expected_output sample_world 12 1 2.5%float.
Proof.
  destruct (driver1_defaults_and_exit sample_stod sample_world)
    as (_ & _ & _ & _ & H).
  apply H; [reflexivity | reflexivity | lia].
Defined.

(** Letters where the vector size should be: [std::stoul] throws,
    nothing catches, and the process does not exit with code 0. *)
Lemma driver1_exit_not_always_0 :
  DaxpyBenchmark.main sample_stod sample_world
    ["daxpy_benchmark"; "abc"]%string =
    Process (Terminate (invalid_argument "stoul")) [] 0 /\
  status (DaxpyBenchmark.main sample_stod sample_world
            ["daxpy_benchmark"; "abc"]%string) <> Exit 0.
Proof. split; [reflexivity | discriminate]. Qed.

(** C10.  Driver 1 fills its vectors with [x[i] = i + 1] and
    [y[i] = N - i]; nothing in them is random.  What the compute phase
    leaves in [y] is therefore [alpha * (i + 1) + (N - i)] whatever the
    scheduler does, the exit status and the result line of a run are the
    same whatever the scheduler and the clock do, and in a run that ends
    normally the result line is the first [min(10, N)] of these values: a
    function of the three arguments only. *)
Theorem driver1_deterministic :
  (forall N T a, 0 <= N <= SIZE_MAX ->
     let o := DaxpyBenchmark.construct N T a in
     Z.of_nat (length (DaxpyBenchmark.x o)) = N /\
     Z.of_nat (length (DaxpyBenchmark.y o)) = N /\
     forall i, 0 <= i < N ->
       vget (DaxpyBenchmark.x o) i = DaxpyBenchmark.to_double (i + 1) /\
       vget (DaxpyBenchmark.y o) i = DaxpyBenchmark.to_double (N - i)) /\
  (forall (w : world) N T a o' out,
     0 <= N <= SIZE_MAX -> T <= SIZE_MAX ->
     DaxpyBenchmark.compute_phase w (DaxpyBenchmark.construct N T a)
       = Ok (o', out) ->
     DaxpyBenchmark.y o' = expected_y N a) /\
  (forall stod (w : world) sched' elapsed' random' argv,
     let w' := World sched' elapsed' random' (hardware_concurrency w)
                     (can_allocate w) (max_threads w) in
     status (DaxpyBenchmark.main stod w argv) =
       status (DaxpyBenchmark.main stod w' argv) /\
     printed_results (DaxpyBenchmark.main stod w argv) =
       printed_results (DaxpyBenchmark.main stod w' argv)) /\
  (forall stod (w : world) argv N T a,
     DaxpyBenchmark.parse_arguments stod argv = Ok (N, T, a) ->
     status (DaxpyBenchmark.main stod w argv) = Exit 0 ->
     printed_results (DaxpyBenchmark.main stod w argv) =
       [take (Z.to_nat (Z.min 10 N)) (expected_y N a)]).
Proof.
  split; [|split; [|split]].
  - intros N T a HN o. subst o. rewrite construct_vectors by done. simpl.
    rewrite length_initial_x, length_initial_y.
    split; [lia|]. split; [lia|]. intros i Hi.
    unfold vget, initial_x, initial_y.
    rewrite !nth_lookup, !list_lookup_fmap, lookup_counters by lia. simpl.
    by rewrite Z2Nat.id by lia.
  - intros w N T a o' out HN HT. rewrite construct_vectors by done.
    destruct (1 <? T) eqn:E1; [destruct (max_threads w <? T) eqn:E2|].
    + unfold DaxpyBenchmark.compute_phase, DaxpyBenchmark.run_multithreaded.
      simpl. by rewrite E1, E2.
    + apply Z.ltb_ge in E2.
      destruct (bench_compute_zip N T a (initial_x N) (initial_y N) w)
        as [out' Hc]; [lia | lia | rewrite length_initial_x; lia
                       | rewrite length_initial_y; lia | lia |].
      rewrite Hc. by intros [= <- _].
    + apply Z.ltb_ge in E1.
      destruct (bench_compute_zip N T a (initial_x N) (initial_y N) w)
        as [out' Hc]; [lia | lia | rewrite length_initial_x; lia
                       | rewrite length_initial_y; lia | lia |].
      rewrite Hc. by intros [= <- _].
  - intros stod w sched' elapsed' random' argv w'.
    destruct (DaxpyBenchmark.parse_arguments stod argv) as [[[N T] a]|e|e] eqn:Hp.
    + rewrite !(main_parsed _ _ _ _ _ _ Hp). subst w'. simpl.
      destruct (negb (can_allocate w N)); [done|].
      destruct ((1 <? T) && (max_threads w <? T)); done.
    + unfold DaxpyBenchmark.main. by rewrite Hp.
    + unfold DaxpyBenchmark.main. by rewrite Hp.
  - intros stod w argv N T a Hp. rewrite (main_parsed _ _ _ _ _ _ Hp).
    destruct (negb (can_allocate w N)); [done|].
    destruct ((1 <? T) && (max_threads w <? T)); done.
Qed.

Section log_facts.

Lemma stats_call_ok c s t op :
  Forall (event_ok s t (Hook (crossing op))) (stats_call c t op).
Proof.
  unfold stats_call. destruct (t =? 0)%nat eqn:E; simpl; [|done].
  destruct (gem5 c); [|done]. apply Nat.eqb_eq in E as ->.
  constructor; [|done]. split; [done|]. split.
  - by intros ? ? [= _ <-].
  - intros b [= <-]. by right.
Qed.

Lemma writes_next t lo i : lo <= i -> writes t lo (i + 1) = writes t lo i ++ [Wrote t i].
Proof.
  intros H. unfold writes.
  replace (i + 1 - lo) with ((i - lo) + 1) by lia.
  rewrite seqZ_app by lia. rewrite fmap_app.
  replace (lo + (i - lo)) with i by lia.
  rewrite (seqZ_cons i 1) by lia. rewrite (seqZ_nil _ (Z.pred 1)) by done. done.
Qed.

Lemma writes_none t lo : writes t lo lo = [].
Proof. unfold writes. by rewrite seqZ_nil by lia. Qed.

Lemma length_stats_call c t op : (length (stats_call c t op) <= 1)%nat.
Proof. unfold stats_call. repeat case_match; simpl; lia. Qed.

End log_facts.

Section history_facts.

Context (c : config) (y0 : list float) (N : Z).
Hypothesis Hcover : exact_cover N (ranges c).
Hypothesis Hy0 : Z.of_nat (length y0) = N.
Hypothesis Hparties : gated c = true ->
  parties c = length (ranges c) /\ (1 <= parties c)%nat.

(** One action: which program counter moves, and what is logged. *)
Lemma step_effect s t s' :
  data_inv c y0 s -> barrier_inv c s -> step c t s = Some s' ->
  exists p r p' evs,
    pcs s !! t = Some p /\ ranges c !! t = Some r /\
    pcs s' = <[t := p']> (pcs s) /\ log s' = log s ++ evs /\
    history c t r p' = history c t r p ++ evs /\
    (length evs <= 1)%nat /\ Forall (event_ok s t p) evs.
Proof.
  intros Hd Hb Hstep. unfold step in Hstep.
  destruct (pcs s !! t) as [p|] eqn:Hp; [|done].
  destruct (ranges c !! t) as [[lo hi]|] eqn:Hr; [|done].
  destruct (inv_owned c y0 s Hd _ _ _ Hp Hr) as [Hok _].
  pose proof (bar_stage c s Hb _ _ Hp) as Hst. unfold stage_ok in Hst.
  exists p, (lo, hi).
  destruct p as [b|b tok|b|i|i v|]; simpl in Hok.
  - destruct (gated c) eqn:Hg; [|done].
    exists (Waiting b (phase s)), [Arrived b t].
    assert (Hh : history c t (lo, hi) (Waiting b (phase s)) =
                 history c t (lo, hi) (Arrive b) ++ [Arrived b t]).
    { destruct b; simpl; [done|]. by rewrite <- app_assoc. }
    assert (He : Forall (event_ok s t (Arrive b)) [Arrived b t]).
    { constructor; [|done]. split; [simpl; apply Nat.eqb_refl | done]. }
    destruct (S (arrived s) =? parties c)%nat; injection Hstep as <-;
      simpl; by repeat split.
  - destruct (phase s =? tok)%nat eqn:Hph; [done|]. injection Hstep as <-.
    apply Nat.eqb_neq in Hph.
    exists (Hook b), [Passed b t]. simpl. repeat split; try done.
    + destruct b; simpl; [done|]. by rewrite <- !app_assoc.
    + constructor; [|done]. split; [simpl; apply Nat.eqb_refl|].
      split; [done|]. intros b' [= <-]. left. by exists tok.
  - destruct (gated c) eqn:Hg; [|by destruct b].
    destruct b; injection Hstep as <-.
    + exists (Loop lo), (stats_call c t m5_dump_reset_stats). simpl.
      repeat split; try done.
      * unfold prologue. rewrite Hg, writes_none, app_nil_r. done.
      * apply length_stats_call.
      * apply (stats_call_ok c s t m5_dump_reset_stats).
    + exists Done, (stats_call c t m5_dump_stats). simpl.
      repeat split; try done.
      * unfold epilogue. rewrite Hg. by rewrite <- !app_assoc.
      * apply length_stats_call.
      * apply (stats_call_ok c s t m5_dump_stats).
  - destruct (i <? hi) eqn:Hi; injection Hstep as <-.
    + eexists (Store i _), []. simpl. rewrite !app_nil_r.
      repeat split; try done; lia.
    + apply Z.ltb_ge in Hi. assert (i = hi) as -> by lia.
      exists (if gated c then Arrive Closing else Done), []. simpl.
      rewrite !app_nil_r. repeat split; try done; [|lia].
      destruct (gated c) eqn:Hg; simpl; [done|].
      unfold epilogue. rewrite Hg. by rewrite app_nil_r.
  - injection Hstep as <-. destruct Hok as [Hi _].
    exists (Loop (i + 1)), [Wrote t i]. simpl. repeat split; try done.
    + rewrite writes_next by lia. by rewrite app_assoc.
    + constructor; [|done]. split; [simpl; apply Nat.eqb_refl | done].
  - done.
Qed.

End history_facts.

Section log_lemmas.

Lemma thread_log_own s t p evs :
  Forall (event_ok s t p) evs -> thread_log t evs = evs.
Proof.
  induction 1 as [|e evs [He _] _ IH]; [done|].
  unfold thread_log in *. simpl. by rewrite He, IH.
Qed.

Lemma thread_log_other s t t' p evs :
  t <> t' -> Forall (event_ok s t p) evs -> thread_log t' evs = [].
Proof.
  intros Hne. induction 1 as [|e evs [He _] _ IH]; [done|].
  unfold thread_log in *. simpl. rewrite IH.
  replace (by_thread t' e) with false; [done|].
  destruct e; simpl in *; apply Nat.eqb_eq in He; subst;
    symmetry; by apply Nat.eqb_neq.
Qed.

(** With [ph] phases completed, every worker has arrived at the
    rendezvous that ended the last of them. *)
Lemma arrived_in_history c ph t r p b :
  gated c = true -> stage_ok c ph p ->
  (b = Opening /\ ph = 1%nat) \/ (b = Closing /\ ph = 2%nat) ->
  In (Arrived b t) (history c t r p).
Proof.
  intros Hg Hst Hb. unfold stage_ok in Hst. rewrite Hg in Hst.
  assert (Hpro : In (Arrived Opening t) (prologue c t)).
  { unfold prologue. rewrite Hg. by left. }
  destruct Hb as [[-> ->]|[-> ->]].
  - destruct p as [[]|[] tok|[]|i|i v|]; simpl; try lia;
      try (by left); apply in_or_app; by left.
  - destruct p as [[]|[] tok|[]|i|i v|]; simpl; try lia.
    + apply in_or_app. right. apply in_or_app. right. by left.
    + apply in_or_app. right. apply in_or_app. right. by left.
    + apply in_or_app. right. apply in_or_app. right.
      unfold epilogue. rewrite Hg. by left.
Qed.

Lemma snoc_split (l : list event) e l1 x l2 :
  l ++ [e] = l1 ++ x :: l2 ->
  (l2 = [] /\ l1 = l /\ x = e) \/ (exists l2', l2 = l2' ++ [e] /\ l = l1 ++ x :: l2').
Proof.
  destruct l2 as [|y l2 _] using rev_ind.
  - intros H. apply app_inj_tail in H as [-> ->]. by left.
  - intros H. right. exists l2.
    rewrite app_comm_cons, app_assoc in H.
    apply app_inj_tail in H as [-> ->]. done.
Qed.

Lemma stats_log_thread0 (l : list event) :
  (forall op t, In (Stats op t) l -> t = 0%nat) ->
  stats_log l = stats_log (thread_log 0 l).
Proof.
  unfold stats_log, thread_log. induction l as [|e l IH]; intros H; [done|].
  simpl. rewrite IH by (intros; eapply H; by right).
  destruct e as [b t|b t|op t|t i]; simpl; try by destruct (t =? 0)%nat.
  rewrite (H op t) by (by left). done.
Qed.

Lemma stats_log_writes t lo i : stats_log (writes t lo i) = [].
Proof.
  unfold stats_log, writes. induction (seqZ lo (i - lo)) as [|z l IH]; done.
Qed.

End log_lemmas.

Section log_invariant.

Context (c : config) (y0 : list float) (N : Z).
Hypothesis Hcover : exact_cover N (ranges c).
Hypothesis Hy0 : Z.of_nat (length y0) = N.
Hypothesis Hparties : gated c = true ->
  parties c = length (ranges c) /\ (1 <= parties c)%nat.

Local Abbreviation log_inv := (log_inv c).
Local Abbreviation inv := (inv c y0).

Lemma initial_log_inv y : log_inv (initial c y).
Proof.
  split; simpl.
  - intros t p [lo hi] Hp Hr. rewrite list_lookup_fmap, Hr in Hp.
    injection Hp as <-. unfold first_pc, thread_log.
    destruct (gated c) eqn:Hg; simpl; [done|].
    unfold prologue. by rewrite Hg, writes_none.
  - done.
  - intros [|? ?] ? ? ? H; discriminate H.
Qed.

Lemma step_log_inv s t s' :
  data_inv c y0 s -> barrier_inv c s -> log_inv s ->
  step c t s = Some s' -> log_inv s'.
Proof.
  intros Hd Hb [Hth Hstats Hbar] Hstep.
  destruct (step_effect c y0 Hparties s t s' Hd Hb Hstep)
    as (p & r & p' & evs & Hp & Hr & Hpcs & Hlog & Hhist & Hlen & Hev).
  split.
  - intros t' q r' Hq Hr'. rewrite Hlog, Hpcs in *.
    unfold thread_log. rewrite List.filter_app. fold (thread_log t' (log s)).
    fold (thread_log t' evs).
    destruct (decide (t = t')) as [<-|Hne].
    + rewrite list_lookup_insert_eq in Hq by (by eapply lookup_lt_Some).
      injection Hq as <-. rewrite Hr in Hr'. injection Hr' as <-.
      rewrite (thread_log_own _ _ _ _ Hev), Hhist. f_equal. by apply Hth.
    + rewrite list_lookup_insert_ne in Hq by done.
      rewrite (thread_log_other _ _ _ _ _ Hne Hev), app_nil_r. by apply Hth.
  - intros op t'. rewrite Hlog. intros Hin. apply in_app_or in Hin as [Hin|Hin].
    + by eapply Hstats.
    + rewrite Forall_forall in Hev. apply list_elem_of_In in Hin.
      destruct (Hev _ Hin) as (_ & H0 & _). by eapply H0.
  - rewrite Hlog. destruct evs as [|e [|? ?]]; [|clear Hlen|simpl in Hlen; lia].
    + by rewrite app_nil_r.
    + intros l1 l2 e' b Heq Hfol t' Ht'.
      apply snoc_split in Heq as [(-> & -> & ->)|(l2' & -> & Heq)].
      2:{ by eapply Hbar. }
      apply Forall_cons_1 in Hev as [(Hby & _ & Hready) _].
      pose proof (bar_stage c s Hb _ _ Hp) as Hst. unfold stage_ok in Hst.
      assert (Hg : gated c = true).
      { clear -Hst Hready Hfol.
        destruct (Hready _ Hfol) as [(tok & -> & _)| ->]; by destruct (gated c). }
      rewrite Hg in Hst.
      destruct (lookup_lt_is_Some_2 (ranges c) t' Ht') as [r' Hr'].
      destruct (lookup_lt_is_Some_2 (pcs s) t') as [q Hq].
      { by rewrite (bar_workers c s Hb). }
      assert (Hin : In (Arrived b t') (history c t' r' q)).
      { apply (arrived_in_history c (phase s)); [done | by eapply bar_stage |].
        destruct (Hready _ Hfol) as [(tok & -> & Hph)| ->];
          destruct b; [left | right | left | right]; split; (done || lia). }
      rewrite <- (Hth _ _ _ Hq Hr') in Hin.
      unfold thread_log in Hin. by apply List.filter_In in Hin as [? _].
Qed.

Lemma initial_inv : inv (initial c y0).
Proof.
  split; [|split].
  - by apply (initial_data_inv c y0 N).
  - by apply initial_barrier_inv.
  - apply initial_log_inv.
Qed.

Lemma pick_inv s t : inv s -> inv (pick c s t).
Proof.
  intros (Hd & Hb & Hl). unfold pick.
  destruct (step c t s) as [s'|] eqn:E; simpl; [|done].
  split; [|split].
  - by eapply (step_data_inv c y0 N).
  - by eapply step_barrier_inv.
  - by eapply step_log_inv.
Qed.

Lemma run_schedule_inv sched : forall s, inv s -> inv (run_schedule c sched s).
Proof.
  induction sched as [|t sched IH]; intros s H; simpl; [done|].
  apply IH. by apply pick_inv.
Qed.

Lemma join_inv fuel : forall s, inv s -> inv (join c fuel s).
Proof.
  induction fuel as [|fuel IH]; intros s H; simpl; [done|].
  destruct (runnable c s); [|done]. apply IH. by apply pick_inv.
Qed.

Lemma compute_inv sched : inv (compute c sched y0).
Proof. unfold compute. apply join_inv, run_schedule_inv, initial_inv. Qed.

(** The whole phase: each worker's events, the statistics calls, and the
    order at the barrier. *)
Lemma compute_log sched :
  let s := compute c sched y0 in
  (forall t r, ranges c !! t = Some r -> thread_log t (log s) = history c t r Done) /\
  (forall r0, ranges c !! 0%nat = Some r0 ->
     stats_log (log s) = stats_log (prologue c 0 ++ epilogue c 0)) /\
  barrier_respected (length (ranges c)) (log s).
Proof.
  intros s. destruct (compute_inv sched) as (Hd & Hb & [Hth Hst Hbar]).
  change (compute c sched y0) with s in Hd, Hb, Hth, Hst, Hbar.
  assert (Hdone : all_done s = true) by (by apply compute_all_done).
  assert (Hth' : forall t r, ranges c !! t = Some r ->
            thread_log t (log s) = history c t r Done).
  { intros t r Hr.
    destruct (lookup_lt_is_Some_2 (pcs s) t) as [p Hp].
    { rewrite (bar_workers c s Hb). by eapply lookup_lt_Some. }
    pose proof (all_done_lookup _ _ _ Hdone Hp) as ->. by apply Hth. }
  split; [done|]. split; [|done].
  intros r0 Hr0. rewrite (stats_log_thread0 _ Hst), (Hth' _ _ Hr0). simpl.
  unfold stats_log. rewrite !List.filter_app.
  fold (stats_log (writes 0 r0.1 r0.2)). by rewrite stats_log_writes.
Qed.

End log_invariant.

(** C9 (as amended).  In driver 2, under any schedule, every worker
    arrives at the first barrier and passes it before its loop, and
    arrives at the second barrier and passes it after its loop; no worker
    passes a barrier before all [T] workers have arrived at it.  In a build
    with [GEM5] defined the statistics interface is called exactly twice,
    both times by worker 0: [m5_dump_reset_stats] right after worker 0 has
    passed the first barrier and [m5_dump_stats] right after it has passed
    the second, each after all [T] workers have arrived at that barrier.
    In a build without [GEM5] it is never called. *)
Theorem barrier_gated_workers N T a (xs ys0 y_orig : list float) GEM5 sched :
  1 <= N <= SIZE_MAX -> 1 <= T <= INT_MAX -> Z.of_nat (length ys0) = N ->
  let c := MultiThreadedDaxpy.workers_config GEM5
             (MultiThreadedDaxpy.Build N T a xs ys0 y_orig) in
  let s := compute c sched ys0 in
  (forall t : nat, Z.of_nat t < T ->
     thread_log t (log s) =
       [Arrived Opening t; Passed Opening t] ++
       (if (t =? 0)%nat && GEM5 then [Stats m5_dump_reset_stats t] else []) ++
       writes t (start_idx N T (Z.of_nat t)) (end_idx N T (Z.of_nat t)) ++
       [Arrived Closing t; Passed Closing t] ++
       (if (t =? 0)%nat && GEM5 then [Stats m5_dump_stats t] else [])) /\
  barrier_respected (Z.to_nat T) (log s) /\
  stats_log (log s) =
    (if GEM5 then [Stats m5_dump_reset_stats 0; Stats m5_dump_stats 0] else []).
Proof.
  intros HN HT Hy c s.
  assert (Hc : contract N T (worker_ranges N T)).
  { apply worker_ranges_contract;
      unfold is_size_t, is_int, INT_MIN, INT_MAX in *; lia. }
  assert (Hlen : length (ranges c) = Z.to_nat T).
  { simpl. pose proof (exactly_T _ _ _ Hc). lia. }
  assert (Hparties : gated c = true ->
            parties c = length (ranges c) /\ (1 <= parties c)%nat).
  { intros _. rewrite Hlen. simpl. lia. }
  assert (Hr : forall t : nat, Z.of_nat t < T ->
            ranges c !! t = Some (worker_range N T (Z.of_nat t))).
  { intros t Ht. simpl. unfold worker_ranges.
    rewrite list_lookup_fmap, lookup_counters by lia. done. }
  destruct (compute_log c ys0 N (covering _ _ _ Hc) Hy Hparties sched)
    as (Hth & Hst & Hbar).
  change (compute c sched ys0) with s in Hth, Hst, Hbar.
  split; [|split].
  - intros t Ht. rewrite (Hth _ _ (Hr t Ht)). simpl.
    unfold prologue, epilogue, stats_call. simpl. done.
  - by rewrite <- Hlen.
  - rewrite (Hst _ (Hr 0%nat ltac:(lia))).
    unfold prologue, epilogue, stats_call. simpl. by destruct GEM5.
Qed.

(** Four elements on two workers in a build with [GEM5]. *)
Lemma barrier_gated_workers_witness :
  let c := MultiThreadedDaxpy.workers_config true
             (MultiThreadedDaxpy.Build 4 2 2%float x4 y4 y4) in
  let s := compute c (schedule sample_world) y4 in
  thread_log 1 (log s) =
    [Arrived Opening 1; Passed Opening 1; Wrote 1 2; Wrote 1 3;
     Arrived Closing 1; Passed Closing 1] /\
  barrier_respected 2 (log s) /\
  stats_log (log s) = [Stats m5_dump_reset_stats 0; Stats m5_dump_stats 0].
Proof.
  cbv zeta.
  assert (H4 : 1 <= 4 <= SIZE_MAX) by (unfold SIZE_MAX; lia).
  assert (H2 : 1 <= 2 <= INT_MAX) by (unfold INT_MAX; lia).
  pose proof (barrier_gated_workers 4 2 2%float x4 y4 y4 true
                (schedule sample_world) H4 H2 eq_refl) as H.
  cbv zeta in H. destruct H as (Hth & Hbar & Hst).
  split; [|split].
  - rewrite (Hth 1%nat) by lia. reflexivity.
  - exact Hbar.
  - exact Hst.
Defined.

(** The same run in a build without [GEM5]: the statistics interface is
    not called at all, where the specification has it called once to reset
    and once to dump. *)
Lemma no_statistics_without_gem5 :
  stats_log
    (log (compute (MultiThreadedDaxpy.workers_config false
                     (MultiThreadedDaxpy.Build 4 2 2%float x4 y4 y4))
                  (schedule sample_world) y4)) = [] /\
  stats_log
    (log (compute (MultiThreadedDaxpy.workers_config false
                     (MultiThreadedDaxpy.Build 4 2 2%float x4 y4 y4))
                  (schedule sample_world) y4))
  <> [Stats m5_dump_reset_stats 0; Stats m5_dump_stats 0].
Proof.
  assert (E : stats_log
    (log (compute (MultiThreadedDaxpy.workers_config false
                     (MultiThreadedDaxpy.Build 4 2 2%float x4 y4 y4))
                  (schedule sample_world) y4)) = []) by (vm_compute; reflexivity).
  split; [exact E|]. rewrite E. discriminate.
Qed.

(** * Further properties of the two programs *)

(** ** The end of the compute phase *)

Section quiescence.

Context (c : config).
Hypothesis Hparties : gated c = true ->
  parties c = length (ranges c) /\ (1 <= parties c)%nat.

Lemma all_done_replicate (l : list pc) :
  forallb is_done l = true -> l = replicate (length l) Done.
Proof.
  induction l as [|p l IH]; simpl; [done|].
  intros [Hp Hl]%andb_prop. destruct p; try done. by rewrite <- IH.
Qed.

Lemma done_cannot_step s t : all_done s = true -> step c t s = None.
Proof.
  intros H. unfold step. destruct (pcs s !! t) as [p|] eqn:Hp; [|done].
  rewrite (all_done_lookup _ _ _ H Hp). by destruct (ranges c !! t) as [[? ?]|].
Qed.

Lemma join_barrier_inv fuel : forall s,
  barrier_inv c s -> barrier_inv c (join c fuel s).
Proof.
  induction fuel as [|fuel IH]; intros s H; simpl; [done|].
  destruct (runnable c s); [|done]. by apply IH, pick_barrier_inv.
Qed.

Lemma compute_barrier_inv sched y : barrier_inv c (compute c sched y).
Proof.
  unfold compute.
  by apply join_barrier_inv, run_schedule_barrier_inv, initial_barrier_inv.
Qed.

(** Every worker has returned and none can act any more. *)
Lemma compute_quiescent sched y :
  let s := compute c sched y in
  pcs s = replicate (length (ranges c)) Done /\ forall t, step c t s = None.
Proof.
  intros s. pose proof (compute_all_done c Hparties sched y) as Hd.
  pose proof (compute_barrier_inv sched y) as Hb.
  change (compute c sched y) with s in Hd, Hb. split.
  - rewrite <- (bar_workers c s Hb). by apply all_done_replicate.
  - intros t. by apply done_cannot_step.
Qed.

(** The barrier has been used twice and holds no arrival. *)
Lemma compute_barrier_spent sched y :
  gated c = true ->
  let s := compute c sched y in phase s = 2%nat /\ arrived s = 0%nat.
Proof.
  intros Hg s. pose proof (compute_all_done c Hparties sched y) as Hd.
  pose proof (compute_barrier_inv sched y) as Hb.
  change (compute c sched y) with s in Hd, Hb.
  destruct (Hparties Hg) as [Hp H1]. split.
  - destruct (lookup_lt_is_Some_2 (pcs s) 0) as [p Hp0].
    { rewrite (bar_workers c s Hb). lia. }
    pose proof (bar_stage c s Hb _ _ Hp0) as Hst.
    rewrite (all_done_lookup _ _ _ Hd Hp0) in Hst.
    unfold stage_ok in Hst. by rewrite Hg in Hst.
  - rewrite (bar_count c s Hb Hg). apply count_if_zero.
    intros t p Hp'. by rewrite (all_done_lookup _ _ _ Hd Hp').
Qed.

End quiescence.

(** X1.  Under every schedule the compute phase of either driver comes to
    an end with all [T] workers returned, so that every [join] returns: no
    worker is left blocked in the barrier and none has anything left to
    do.  In driver 2 the barrier has then completed exactly two phases and
    holds no arrival. *)
Theorem workers_all_return N T a (xs ys0 : list float) sched :
  1 <= T ->
  (forall GEM5 y_orig,
     let c := MultiThreadedDaxpy.workers_config GEM5
                (MultiThreadedDaxpy.Build N T a xs ys0 y_orig) in
     let s := compute c sched ys0 in
     pcs s = replicate (Z.to_nat T) Done /\
     (forall t, step c t s = None) /\
     phase s = 2%nat /\ arrived s = 0%nat) /\
  (let c := DaxpyBenchmark.workers_config (DaxpyBenchmark.Build xs ys0 N T a) in
   let s := compute c sched ys0 in
   pcs s = replicate (Z.to_nat T) Done /\ forall t, step c t s = None).
Proof.
  intros HT. split.
  - intros GEM5 y_orig c s.
    assert (Hlen : length (ranges c) = Z.to_nat T).
    { simpl. unfold worker_ranges. by rewrite length_fmap, length_counters. }
    assert (Hparties : gated c = true ->
              parties c = length (ranges c) /\ (1 <= parties c)%nat).
    { intros _. rewrite Hlen. simpl. lia. }
    destruct (compute_quiescent c Hparties sched ys0) as [Hp Hs].
    destruct (compute_barrier_spent c Hparties sched ys0 eq_refl) as [Hph Ha].
    rewrite Hlen in Hp. done.
  - intros c s.
    assert (Hlen : length (ranges c) = Z.to_nat T).
    { simpl. unfold bench_ranges. by rewrite length_fmap, length_counters. }
    assert (Hparties : gated c = true ->
              parties c = length (ranges c) /\ (1 <= parties c)%nat) by done.
    destruct (compute_quiescent c Hparties sched ys0) as [Hp Hs].
    rewrite Hlen in Hp. done.
Qed.

(** Two workers on four elements, in a build with [GEM5]. *)
Lemma workers_all_return_witness :
  pcs (compute (MultiThreadedDaxpy.workers_config true
                  (MultiThreadedDaxpy.Build 4 2 2%float x4 y4 y4))
               (schedule sample_world) y4) = [Done; Done] /\
  phase (compute (MultiThreadedDaxpy.workers_config true
                    (MultiThreadedDaxpy.Build 4 2 2%float x4 y4 y4))
                 (schedule sample_world) y4) = 2%nat.
Proof.
  assert (H1 : 1 <= 2) by lia.
  destruct (workers_all_return 4 2 2%float x4 y4 (schedule sample_world) H1)
    as [H _].
  destruct (H true y4) as (Hp & _ & Hph & _). split; [exact Hp | exact Hph].
Defined.

(** ** Which elements the workers assign *)

Section footprint_facts.

Lemma filter_through (P Q : event -> bool) (l : list event) :
  (forall e, In e l -> P e = true -> Q e = true) ->
  List.filter P l = List.filter P (List.filter Q l).
Proof.
  induction l as [|e l IH]; intros H; simpl; [done|].
  rewrite IH by (intros; apply H; [by right | done]).
  destruct (P e) eqn:HP.
  - rewrite (H e) by (done || by left). simpl. by rewrite HP.
  - destruct (Q e); simpl; by rewrite ?HP.
Qed.

Lemma filter_none (P : event -> bool) (l : list event) :
  (forall e, In e l -> P e = false) -> List.filter P l = [].
Proof.
  induction l as [|e l IH]; intros H; simpl; [done|].
  rewrite (H e) by (by left). apply IH. intros. apply H. by right.
Qed.

Lemma in_writes t t' lo hi i :
  In (Wrote t' i) (writes t lo hi) -> t' = t /\ lo <= i < hi.
Proof.
  unfold writes. intros H. apply list_elem_of_In, list_elem_of_fmap in H.
  destruct H as (j & [= -> ->] & Hj). apply elem_of_seqZ in Hj. lia.
Qed.

Lemma times_written_upto t lo i (n : nat) :
  times_written i (writes t lo (lo + Z.of_nat n)) =
    if bool_decide (lo <= i < lo + Z.of_nat n) then 1%nat else 0%nat.
Proof.
  unfold times_written. induction n as [|n IH].
  - rewrite Z.add_0_r, writes_none. simpl. by rewrite bool_decide_false by lia.
  - replace (lo + Z.of_nat (S n)) with (lo + Z.of_nat n + 1) by lia.
    rewrite writes_next by lia. rewrite List.filter_app, length_app, IH. simpl.
    destruct (Z.eqb_spec (lo + Z.of_nat n) i) as [<-|Hne]; simpl.
    + rewrite bool_decide_false by lia. by rewrite bool_decide_true by lia.
    + rewrite Nat.add_0_r.
      rewrite (bool_decide_ext _ (lo <= i < lo + Z.of_nat n + 1)); [done | lia].
Qed.

Lemma times_written_writes t lo hi i :
  lo <= hi ->
  times_written i (writes t lo hi) =
    if bool_decide (lo <= i < hi) then 1%nat else 0%nat.
Proof.
  intros H. replace hi with (lo + Z.of_nat (Z.to_nat (hi - lo))) at 1 by lia.
  rewrite times_written_upto.
  rewrite (bool_decide_ext _ (lo <= i < hi)); [done | lia].
Qed.

Lemma no_writes_in_prologue c t i : List.filter (writes_to i) (prologue c t) = [].
Proof. unfold prologue, stats_call. by repeat case_match. Qed.

Lemma no_writes_in_epilogue c t i : List.filter (writes_to i) (epilogue c t) = [].
Proof. unfold epilogue, stats_call. by repeat case_match. Qed.

Lemma not_in_prologue c t t' i : ~ In (Wrote t' i) (prologue c t).
Proof.
  intros H. assert (H' : In (Wrote t' i) (List.filter (writes_to i) (prologue c t))).
  { apply List.filter_In. split; [done | simpl; apply Z.eqb_refl]. }
  by rewrite no_writes_in_prologue in H'.
Qed.

Lemma not_in_epilogue c t t' i : ~ In (Wrote t' i) (epilogue c t).
Proof.
  intros H. assert (H' : In (Wrote t' i) (List.filter (writes_to i) (epilogue c t))).
  { apply List.filter_In. split; [done | simpl; apply Z.eqb_refl]. }
  by rewrite no_writes_in_epilogue in H'.
Qed.

Lemma thread_of_by_thread t e : by_thread t e = true -> thread_of e = t.
Proof. destruct e; simpl; by intros ?%Nat.eqb_eq. Qed.

End footprint_facts.

Section footprint.

Context (c : config) (y0 : list float) (N : Z).
Hypothesis Hcover : exact_cover N (ranges c).
Hypothesis Hy0 : Z.of_nat (length y0) = N.
Hypothesis Hparties : gated c = true ->
  parties c = length (ranges c) /\ (1 <= parties c)%nat.

Local Abbreviation inv := (inv c y0).
Local Abbreviation log_owned := (log_owned c).

Lemma pick_log_owned s t : inv s -> log_owned s -> log_owned (pick c s t).
Proof.
  intros (Hd & Hb & _) Ho. unfold pick.
  destruct (step c t s) as [s'|] eqn:E; simpl; [|done].
  destruct (step_effect c y0 Hparties s t s' Hd Hb E)
    as (p & r & p' & evs & Hp & Hr & _ & Hlog & _ & _ & Hev).
  unfold Footprint.log_owned. rewrite Hlog. apply Forall_app. split; [done|].
  eapply Forall_impl; [exact Hev|]. intros e (Hby & _). simpl.
  rewrite (thread_of_by_thread _ _ Hby). by eapply lookup_lt_Some.
Qed.

Lemma run_schedule_log_owned sched : forall s,
  inv s -> log_owned s -> log_owned (run_schedule c sched s).
Proof.
  induction sched as [|t sched IH]; intros s Hi Ho; simpl; [done|].
  apply IH; [by apply (pick_inv c y0 N) | by apply pick_log_owned].
Qed.

Lemma join_log_owned fuel : forall s,
  inv s -> log_owned s -> log_owned (join c fuel s).
Proof.
  induction fuel as [|fuel IH]; intros s Hi Ho; simpl; [done|].
  destruct (runnable c s); [|done].
  apply IH; [by apply (pick_inv c y0 N) | by apply pick_log_owned].
Qed.

Lemma compute_log_owned sched : log_owned (compute c sched y0).
Proof.
  unfold compute. apply join_log_owned.
  - apply (run_schedule_inv c y0 N); try done. by apply (initial_inv c y0 N).
  - apply run_schedule_log_owned; [by apply (initial_inv c y0 N) | constructor].
Qed.

(** Who assigns what, once the phase is over. *)
Lemma compute_writer sched t i :
  In (Wrote t i) (log (compute c sched y0)) ->
  exists lo hi, ranges c !! t = Some (lo, hi) /\ lo <= i < hi /\ 0 <= i < N.
Proof.
  intros Hin. pose proof (compute_log_owned sched) as Ho.
  unfold Footprint.log_owned in Ho. rewrite Forall_forall in Ho.
  pose proof (Ho _ (proj2 (list_elem_of_In _ _) Hin)) as Ht. simpl in Ht.
  destruct (lookup_lt_is_Some_2 _ _ Ht) as [[lo hi] Hr].
  destruct (compute_log c y0 N Hcover Hy0 Hparties sched) as (Hth & _ & _).
  assert (Hin' : In (Wrote t i) (history c t (lo, hi) Done)).
  { rewrite <- (Hth _ _ Hr). unfold thread_log. apply List.filter_In.
    split; [done | simpl; apply Nat.eqb_refl]. }
  simpl in Hin'. exists lo, hi. split; [done|].
  assert (Hi : lo <= i < hi).
  { apply in_app_or in Hin' as [H|H]; [by apply not_in_prologue in H|].
    apply in_app_or in H as [H|H]; [apply in_writes in H; lia|].
    by apply not_in_epilogue in H. }
  split; [done|]. destruct Hcover as (Hb & _ & _). specialize (Hb _ _ _ Hr). lia.
Qed.

Lemma compute_race_free sched : race_free N c (log (compute c sched y0)).
Proof.
  split; [|split].
  - intros t i. apply compute_writer.
  - intros i Hi. destruct Hcover as (Hb & Hc & Hdis).
    destruct (Hc i Hi) as (t0 & lo & hi & Hr & Hin).
    destruct (compute_log c y0 N Hcover Hy0 Hparties sched) as (Hth & _ & _).
    unfold times_written.
    rewrite (filter_through _ (by_thread t0)).
    + fold (thread_log t0 (log (compute c sched y0))). rewrite (Hth _ _ Hr).
      simpl. rewrite !List.filter_app, no_writes_in_prologue, no_writes_in_epilogue.
      rewrite app_nil_r. simpl.
      fold (times_written i (writes t0 lo hi)).
      rewrite times_written_writes by (specialize (Hb _ _ _ Hr); lia).
      by rewrite bool_decide_true.
    + intros [| |op t|t j] He Hw; try done. simpl in Hw.
      apply Z.eqb_eq in Hw as ->.
      destruct (compute_writer sched _ _ He) as (lo' & hi' & Hr' & Hin' & _).
      simpl. apply Nat.eqb_eq. eapply Hdis; eauto.
  - intros i Hi. unfold times_written. rewrite filter_none; [done|].
    intros [| |op t|t j] He; try done. simpl.
    destruct (compute_writer sched _ _ He) as (_ & _ & _ & _ & Hj).
    apply Z.eqb_neq. intros ->. done.
Qed.

End footprint.

(** X2.  In the compute phase of either driver, under every schedule,
    every assignment to [y] is made by a worker to an element of its own
    range, inside the vector, and every element of [[0, N)] is assigned
    exactly once: no two workers ever assign the same element. *)
Theorem each_element_written_once N T a (xs ys0 : list float) sched :
  0 <= N <= SIZE_MAX -> 1 <= T -> Z.of_nat (length ys0) = N ->
  (T <= INT_MAX -> forall GEM5 y_orig,
     let c := MultiThreadedDaxpy.workers_config GEM5
                (MultiThreadedDaxpy.Build N T a xs ys0 y_orig) in
     race_free N c (log (compute c sched ys0))) /\
  (T <= SIZE_MAX ->
     let c := DaxpyBenchmark.workers_config (DaxpyBenchmark.Build xs ys0 N T a) in
     race_free N c (log (compute c sched ys0))).
Proof.
  intros HN HT Hy. split.
  - intros HTi GEM5 y_orig c.
    assert (Hc : contract N T (worker_ranges N T)).
    { apply worker_ranges_contract;
        unfold is_size_t, is_int, INT_MIN, INT_MAX in *; lia. }
    apply compute_race_free; [apply (covering _ _ _ Hc) | done |].
    intros _. simpl. pose proof (exactly_T _ _ _ Hc). lia.
  - intros HTs c.
    assert (Hc : contract N T (bench_ranges N T)).
    { apply bench_ranges_contract; unfold is_size_t; lia. }
    apply compute_race_free; [apply (covering _ _ _ Hc) | done | done].
Qed.

(** Two workers on four elements: worker 1 assigns [y[2]] and [y[3]]. *)
Lemma each_element_written_once_witness :
  let c := MultiThreadedDaxpy.workers_config true
             (MultiThreadedDaxpy.Build 4 2 2%float x4 y4 y4) in
  race_free 4 c (log (compute c (schedule sample_world) y4)) /\
  times_written 3 (log (compute c (schedule sample_world) y4)) = 1%nat.
Proof.
  assert (H4 : 0 <= 4 <= SIZE_MAX) by (unfold SIZE_MAX; lia).
  assert (H2 : 1 <= 2) by lia.
  assert (Hi : 2 <= INT_MAX) by (unfold INT_MAX; lia).
  destruct (each_element_written_once 4 2 2%float x4 y4 (schedule sample_world)
              H4 H2 eq_refl) as [H _].
  pose proof (H Hi true y4) as Hr. cbv zeta in Hr. cbv zeta.
  split; [exact Hr | reflexivity].
Defined.

(** ** The measurement window of driver 2 *)

Section order_facts.

(** What precedes the first occurrence of [e] precedes every occurrence. *)
Lemma prefix_before_first (e : event) (A : list event) : forall X Y B,
  X ++ e :: Y = A ++ e :: B -> ~ In e A -> exists C, X = A ++ C.
Proof.
  induction A as [|a A IH]; intros X Y B Heq Hn; [by exists X|].
  destruct X as [|x X]; simpl in Heq.
  - injection Heq as -> _. destruct Hn. by left.
  - injection Heq as -> Heq. destruct (IH _ _ _ Heq) as [C ->].
    + intros H. apply Hn. by right.
    + by exists C.
Qed.

(** What a worker did before [e] is in the log before [e]. *)
Lemma thread_prefix t (l1 l2 A B : list event) e x :
  by_thread t e = true ->
  thread_log t (l1 ++ e :: l2) = A ++ e :: B -> ~ In e A ->
  In x A -> In x l1.
Proof.
  intros Hby Heq Hn Hx. unfold thread_log in Heq.
  rewrite List.filter_app in Heq. simpl in Heq. rewrite Hby in Heq.
  destruct (prefix_before_first _ _ _ _ _ Heq Hn) as [C HC].
  assert (Hin : In x (List.filter (by_thread t) l1)).
  { rewrite HC. apply in_or_app. by left. }
  by apply List.filter_In in Hin as [? _].
Qed.

Lemma writes_split t lo i hi :
  lo <= i < hi ->
  writes t lo hi = writes t lo i ++ Wrote t i :: writes t (i + 1) hi.
Proof.
  intros H. unfold writes.
  replace (hi - lo) with ((i - lo) + (hi - i)) by lia.
  rewrite seqZ_app by lia. rewrite fmap_app. f_equal.
  replace (lo + (i - lo)) with i by lia.
  rewrite (seqZ_cons i (hi - i)) by lia. simpl.
  by replace (Z.pred (hi - i)) with (hi - (i + 1)) by lia.
Qed.

End order_facts.

Section window.

Context (c : config) (y0 : list float) (N : Z).
Hypothesis Hcover : exact_cover N (ranges c).
Hypothesis Hy0 : Z.of_nat (length y0) = N.
Hypothesis Hparties : gated c = true ->
  parties c = length (ranges c) /\ (1 <= parties c)%nat.
Hypothesis Hgated : gated c = true.

Lemma compute_inside_window sched :
  inside_window (length (ranges c)) N (log (compute c sched y0)).
Proof.
  destruct (compute_log c y0 N Hcover Hy0 Hparties sched) as (Hth & _ & Hbar).
  intros l1 e l2 Hlog. split.
  - intros t i -> t' Ht'.
    destruct (compute_writer c y0 N Hcover Hy0 Hparties sched t i)
      as (lo & hi & Hr & Hi & _).
    { rewrite Hlog. apply in_or_app. right. by left. }
    pose proof (Hth _ _ Hr) as Hh. rewrite Hlog in Hh. simpl in Hh.
    rewrite (writes_split t lo i hi) in Hh by done.
    rewrite <- app_assoc, app_assoc in Hh.
    assert (Hp : In (Passed Opening t) l1).
    { eapply (thread_prefix t); [|exact Hh| |].
      - simpl. apply Nat.eqb_refl.
      - intros H. apply in_app_or in H as [H|H]; [by apply not_in_prologue in H|].
        apply in_writes in H. lia.
      - apply in_or_app. left. unfold prologue. rewrite Hgated. right. by left. }
    apply in_split in Hp as (k1 & k2 & ->).
    rewrite <- app_assoc in Hlog. simpl in Hlog.
    apply in_or_app. left. by eapply (Hbar _ _ _ Opening Hlog).
  - intros Hfol i Hi. destruct Hcover as (_ & Hc & _).
    destruct (Hc i Hi) as (t & lo & hi & Hr & Hin). exists t.
    assert (Ha : In (Arrived Closing t) l1).
    { eapply (Hbar _ _ _ Closing Hlog Hfol). by eapply lookup_lt_Some. }
    apply in_split in Ha as (m1 & m2 & ->).
    apply in_or_app. left.
    pose proof (Hth _ _ Hr) as Hh. rewrite Hlog, <- app_assoc in Hh. simpl in Hh.
    unfold epilogue in Hh. rewrite Hgated in Hh. simpl in Hh.
    rewrite app_assoc in Hh.
    eapply (thread_prefix t); [|exact Hh| |].
    + simpl. apply Nat.eqb_refl.
    + intros H. apply in_app_or in H as [H|H].
      * unfold prologue, stats_call in H. rewrite Hgated in H.
        repeat case_match; simpl in H; intuition discriminate.
      * unfold writes in H. apply list_elem_of_In, list_elem_of_fmap in H.
        by destruct H as (? & ? & _).
    + apply in_or_app. right. unfold writes.
      apply list_elem_of_In, list_elem_of_fmap. exists i. split; [done|].
      apply elem_of_seqZ. lia.
Qed.

End window.

(** X3.  In driver 2, under every schedule, all updates of [y] fall
    between the two barriers: no element is assigned before all [T]
    workers have arrived at the first barrier, and by the time any worker
    has passed the second barrier, or [m5_dump_stats] is called, every
    element of [[0, N)] has been assigned. *)
Theorem updates_inside_window N T a (xs ys0 y_orig : list float) GEM5 sched :
  0 <= N <= SIZE_MAX -> 1 <= T <= INT_MAX -> Z.of_nat (length ys0) = N ->
  let c := MultiThreadedDaxpy.workers_config GEM5
             (MultiThreadedDaxpy.Build N T a xs ys0 y_orig) in
  inside_window (Z.to_nat T) N (log (compute c sched ys0)).
Proof.
  intros HN HT Hy c.
  assert (Hc : contract N T (worker_ranges N T)).
  { apply worker_ranges_contract;
      unfold is_size_t, is_int, INT_MIN, INT_MAX in *; lia. }
  assert (Hlen : length (ranges c) = Z.to_nat T).
  { simpl. pose proof (exactly_T _ _ _ Hc). lia. }
  rewrite <- Hlen.
  apply compute_inside_window; [apply (covering _ _ _ Hc) | done | | done].
  intros _. rewrite Hlen. simpl. lia.
Qed.

(** Two workers on four elements, in a build with [GEM5]: when worker 0
    assigns [y[0]] both workers have arrived at the first barrier, and when
    the statistics are dumped [y[3]] has been assigned. *)
Lemma updates_inside_window_witness :
  let l := log (compute (MultiThreadedDaxpy.workers_config true
                           (MultiThreadedDaxpy.Build 4 2 2%float x4 y4 y4))
                        (schedule sample_world) y4) in
  l = [Arrived Opening 1; Arrived Opening 0; Passed Opening 0;
       Stats m5_dump_reset_stats 0; Passed Opening 1; Wrote 0 0; Wrote 0 1;
       Arrived Closing 0; Wrote 1 2; Wrote 1 3; Arrived Closing 1;
       Passed Closing 0; Stats m5_dump_stats 0; Passed Closing 1] /\
  In (Arrived Opening 1) (take 5 l) /\
  exists t, In (Wrote t 3) (take 12 l).
Proof.
  cbv zeta.
  assert (H4 : 0 <= 4 <= SIZE_MAX) by (unfold SIZE_MAX; lia).
  assert (H2 : 1 <= 2 <= INT_MAX) by (unfold INT_MAX; lia).
  pose proof (updates_inside_window 4 2 2%float x4 y4 y4 true
                (schedule sample_world) H4 H2 eq_refl) as H.
  cbv zeta in H.
  assert (Hl : log (compute (MultiThreadedDaxpy.workers_config true
                               (MultiThreadedDaxpy.Build 4 2 2%float x4 y4 y4))
                            (schedule sample_world) y4) =
               [Arrived Opening 1; Arrived Opening 0; Passed Opening 0;
                Stats m5_dump_reset_stats 0; Passed Opening 1; Wrote 0 0;
                Wrote 0 1; Arrived Closing 0; Wrote 1 2; Wrote 1 3;
                Arrived Closing 1; Passed Closing 0; Stats m5_dump_stats 0;
                Passed Closing 1]) by reflexivity.
  rewrite Hl in H |- *. split; [reflexivity|]. split.
  - destruct (H [Arrived Opening 1; Arrived Opening 0; Passed Opening 0;
                 Stats m5_dump_reset_stats 0; Passed Opening 1]
                (Wrote 0 0)
                [Wrote 0 1; Arrived Closing 0; Wrote 1 2; Wrote 1 3;
                 Arrived Closing 1; Passed Closing 0; Stats m5_dump_stats 0;
                 Passed Closing 1] eq_refl) as [Hw _].
    apply (Hw 0%nat 0 eq_refl 1%nat). lia.
  - destruct (H [Arrived Opening 1; Arrived Opening 0; Passed Opening 0;
                 Stats m5_dump_reset_stats 0; Passed Opening 1; Wrote 0 0;
                 Wrote 0 1; Arrived Closing 0; Wrote 1 2; Wrote 1 3;
                 Arrived Closing 1; Passed Closing 0]
                (Stats m5_dump_stats 0) [Passed Closing 1] eq_refl) as [_ Hd].
    apply (Hd eq_refl 3). lia.
Defined.

(** ** The start of the measurement window *)

Section log_growth.

Context (c : config).

Lemma step_log_grows t s s' :
  step c t s = Some s' -> exists evs, log s' = log s ++ evs.
Proof.
  unfold step. intros H.
  repeat case_match; try done; injection H as <-; simpl; by eexists.
Qed.

Lemma pick_log_grows s t : exists evs, log (pick c s t) = log s ++ evs.
Proof.
  unfold pick. destruct (step c t s) as [s'|] eqn:E; simpl.
  - by eapply step_log_grows.
  - exists []. by rewrite app_nil_r.
Qed.

Lemma join_log_grows fuel : forall s, exists evs, log (join c fuel s) = log s ++ evs.
Proof.
  induction fuel as [|fuel IH]; intros s; simpl.
  - exists []. by rewrite app_nil_r.
  - destruct (runnable c s) as [t|]; [|exists []; by rewrite app_nil_r].
    destruct (pick_log_grows s t) as [e1 H1].
    destruct (IH (pick c s t)) as [e2 H2].
    exists (e1 ++ e2). by rewrite H2, H1, app_assoc.
Qed.

(** The actions of a worker, one program counter at a time. *)
Lemma step_arrive s t b r :
  pcs s !! t = Some (Arrive b) -> ranges c !! t = Some r ->
  step c t s =
    Some (State (ys s) (<[t := Waiting b (phase s)]> (pcs s))
                (if (S (arrived s) =? parties c)%nat then 0%nat else S (arrived s))
                (if (S (arrived s) =? parties c)%nat then S (phase s) else phase s)
                (log s ++ [Arrived b t])).
Proof.
  unfold step. intros -> ->. destruct r.
  by destruct (S (arrived s) =? parties c)%nat.
Qed.

Lemma step_released s t b token r :
  pcs s !! t = Some (Waiting b token) -> ranges c !! t = Some r ->
  phase s <> token ->
  step c t s =
    Some (State (ys s) (<[t := Hook b]> (pcs s)) (arrived s) (phase s)
                (log s ++ [Passed b t])).
Proof.
  unfold step. intros -> -> H. destruct r.
  by rewrite (proj2 (Nat.eqb_neq _ _) H).
Qed.

Lemma step_hook_opening s t lo hi :
  pcs s !! t = Some (Hook Opening) -> ranges c !! t = Some (lo, hi) ->
  step c t s =
    Some (State (ys s) (<[t := Loop lo]> (pcs s)) (arrived s) (phase s)
                (log s ++ stats_call c t m5_dump_reset_stats)).
Proof. unfold step. by intros -> ->. Qed.

Lemma step_loop s t i lo hi :
  pcs s !! t = Some (Loop i) -> ranges c !! t = Some (lo, hi) -> i < hi ->
  step c t s =
    Some (State (ys s)
                (<[t := Store i (axpy (alpha c) (vget (xs c) i) (vget (ys s) i))]> (pcs s))
                (arrived s) (phase s) (log s ++ [])).
Proof.
  unfold step. intros -> -> H. by rewrite (proj2 (Z.ltb_lt _ _) H).
Qed.

Lemma step_store s t i v r :
  pcs s !! t = Some (Store i v) -> ranges c !! t = Some r ->
  step c t s =
    Some (State (vset (ys s) i v) (<[t := Loop (i + 1)]> (pcs s))
                (arrived s) (phase s) (log s ++ [Wrote t i])).
Proof. unfold step. intros -> ->. by destruct r. Qed.

End log_growth.

Section early_start.

Context (c : config) (n : nat) (y : list float).
Hypothesis Hgated : gated c = true.
Hypothesis Hworkers : length (ranges c) = n.
Hypothesis Hparties : parties c = n.

Lemma initial_arriving :
  initial c y = State y (replicate n (Arrive Opening)) 0 0 [].
Proof.
  unfold initial. f_equal. rewrite <- Hworkers.
  apply const_fmap. intros r. unfold first_pc. by rewrite Hgated.
Qed.

(** The first [k] workers have arrived and wait for the others. *)
Lemma arrivals k :
  (k < n)%nat ->
  run_schedule c (seq 0 k) (initial c y) =
    State y (replicate k (Waiting Opening 0) ++ replicate (n - k) (Arrive Opening))
          k 0 (Arrived Opening <$> seq 0 k).
Proof.
  induction k as [|k IH]; intros Hk.
  - simpl. by rewrite Nat.sub_0_r, initial_arriving.
  - rewrite seq_S. unfold run_schedule in *. rewrite foldl_snoc, IH by lia.
    destruct (lookup_lt_is_Some_2 (ranges c) k) as [r Hr]; [lia|].
    unfold pick. rewrite Nat.add_0_l.
    rewrite (step_arrive c _ k Opening r); [|cbn [pcs]|done].
    2:{ rewrite lookup_app_r by (rewrite length_replicate; lia).
        rewrite length_replicate, Nat.sub_diag. apply lookup_replicate_2. lia. }
    cbn [pcs arrived phase log ys].
    rewrite Hparties, (proj2 (Nat.eqb_neq (S k) n)) by lia.
    cbn [default from_option id]. f_equal.
    + rewrite insert_app_r_alt by (rewrite length_replicate; lia).
      rewrite length_replicate, Nat.sub_diag.
      replace (n - k)%nat with (S (n - S k)) by lia.
      rewrite (replicate_S_end k (Waiting Opening 0)), <- app_assoc. done.
    + by rewrite fmap_app.
Qed.

(** All of them have arrived: the first phase of the barrier is complete. *)
Lemma all_arrived :
  (1 <= n)%nat ->
  run_schedule c (seq 0 n) (initial c y) =
    State y (replicate n (Waiting Opening 0)) 0 1 (Arrived Opening <$> seq 0 n).
Proof.
  intros Hn. set (k := (n - 1)%nat).
  assert (Hk : (k < n)%nat) by lia.
  assert (Hseq : seq 0 n = seq 0 k ++ [k]).
  { replace n with (S k) at 1 by lia. apply seq_S. }
  assert (Hrep : replicate n (Waiting Opening 0) =
                 replicate k (Waiting Opening 0) ++ [Waiting Opening 0]).
  { rewrite <- replicate_S_end. f_equal. lia. }
  unfold run_schedule in *. rewrite Hseq, foldl_snoc.
  fold (run_schedule c (seq 0 k) (initial c y)). rewrite (arrivals k Hk).
  destruct (lookup_lt_is_Some_2 (ranges c) k) as [r Hr]; [lia|].
  unfold pick.
  rewrite (step_arrive c _ k Opening r); [|cbn [pcs]|done].
  2:{ rewrite lookup_app_r by (rewrite length_replicate; lia).
      rewrite length_replicate, Nat.sub_diag. apply lookup_replicate_2. lia. }
  cbn [pcs arrived phase log ys].
  rewrite Hparties, (proj2 (Nat.eqb_eq (S k) n)) by lia.
  cbn [default from_option id]. f_equal.
  + rewrite insert_app_r_alt by (rewrite length_replicate; lia).
    rewrite length_replicate, Nat.sub_diag.
    replace (n - k)%nat with 1%nat by lia. by rewrite Hrep.
  + by rewrite fmap_app.
Qed.

(** The last worker runs ahead of worker 0. *)
Lemma early_log lo hi :
  (2 <= n)%nat -> ranges c !! (n - 1)%nat = Some (lo, hi) -> lo < hi ->
  log (run_schedule c (early_schedule n) (initial c y)) =
    (Arrived Opening <$> seq 0 n) ++
    [Passed Opening (n - 1)%nat; Wrote (n - 1)%nat lo].
Proof.
  intros Hn Hr Hlt. unfold early_schedule, run_schedule.
  rewrite foldl_app. fold (run_schedule c (seq 0 n) (initial c y)).
  rewrite all_arrived by lia.
  set (t := (n - 1)%nat) in *.
  assert (Ht : (t < n)%nat) by lia.
  cbn [replicate foldl]. unfold pick.
  rewrite (step_released c _ t Opening 0 (lo, hi));
    [|cbn [pcs]; by apply lookup_replicate_2 | done | done].
  cbn [default from_option id pcs arrived phase log ys].
  rewrite (step_hook_opening c _ t lo hi);
    [|cbn [pcs]; apply list_lookup_insert_eq; by rewrite length_replicate | done].
  cbn [default from_option id pcs arrived phase log ys].
  rewrite (step_loop c _ t lo lo hi);
    [|cbn [pcs]; apply list_lookup_insert_eq;
      by rewrite length_insert, length_replicate | done | done].
  cbn [default from_option id pcs arrived phase log ys].
  erewrite (step_store c _ t lo _ (lo, hi));
    [|cbn [pcs]; apply list_lookup_insert_eq;
      by rewrite !length_insert, length_replicate | done].
  cbn [default from_option id log].
  unfold stats_call. rewrite (proj2 (Nat.eqb_neq t 0)) by lia.
  cbn [andb]. by rewrite !app_nil_r, <- app_assoc.
Qed.

End early_start.

(** X4.  The first barrier does not hold the workers back until the
    statistics have been reset: in a build with [GEM5] and with at least
    two workers there is a schedule under which a worker other than
    worker 0 has passed the barrier and assigned an element before worker 0
    calls [m5_dump_reset_stats], so that this update falls outside the
    measured window. *)
Theorem reset_may_follow_updates N T a (xs ys0 y_orig : list float) :
  1 <= N <= SIZE_MAX -> 2 <= T <= INT_MAX -> Z.of_nat (length ys0) = N ->
  let c := MultiThreadedDaxpy.workers_config true
             (MultiThreadedDaxpy.Build N T a xs ys0 y_orig) in
  write_before_reset (log (compute c (early_schedule (Z.to_nat T)) ys0)).
Proof.
  intros HN HT Hy c.
  assert (Hc : contract N T (worker_ranges N T)).
  { apply worker_ranges_contract;
      unfold is_size_t, is_int, INT_MIN, INT_MAX in *; lia. }
  assert (Hlen : length (ranges c) = Z.to_nat T).
  { simpl. pose proof (exactly_T _ _ _ Hc). lia. }
  assert (Hparties : gated c = true ->
            parties c = length (ranges c) /\ (1 <= parties c)%nat).
  { intros _. rewrite Hlen. simpl. lia. }
  assert (Hr : ranges c !! (Z.to_nat T - 1)%nat = Some ((T - 1) * (N / T), N)).
  { replace (Z.to_nat T - 1)%nat with (Z.to_nat (T - 1)) by lia.
    apply (last_range _ _ _ Hc). }
  assert (Hlo : (T - 1) * (N / T) < N).
  { pose proof (Z.mul_div_le N T ltac:(lia)).
    pose proof (Z.div_pos N T ltac:(lia) ltac:(lia)).
    destruct (Z.eq_dec (N / T) 0) as [E|E]; [rewrite E; lia | lia]. }
  pose proof (early_log c (Z.to_nat T) ys0 eq_refl Hlen eq_refl _ _
                ltac:(lia) Hr Hlo) as Hearly.
  unfold compute.
  set (s1 := run_schedule c (early_schedule (Z.to_nat T)) (initial c ys0)) in *.
  destruct (join_log_grows c (work_left c s1) s1) as [evs Hgrow].
  destruct (compute_log c ys0 N (covering _ _ _ Hc) Hy Hparties
              (early_schedule (Z.to_nat T))) as (_ & Hst & _).
  destruct (lookup_lt_is_Some_2 (ranges c) 0) as [r0 Hr0]; [lia|].
  specialize (Hst _ Hr0). unfold compute in Hst. fold s1 in Hst.
  assert (Hin : In (Stats m5_dump_reset_stats 0) (log (join c (work_left c s1) s1))).
  { assert (H : In (Stats m5_dump_reset_stats 0)
                   (stats_log (log (join c (work_left c s1) s1)))).
    { rewrite Hst. by left. }
    unfold stats_log in H. by apply List.filter_In in H as [? _]. }
  rewrite Hgrow, Hearly in Hin |- *.
  apply in_app_or in Hin as [Hin|Hin].
  { apply in_app_or in Hin as [Hin|Hin].
    - apply list_elem_of_In, list_elem_of_fmap in Hin. by destruct Hin as (? & ? & _).
    - simpl in Hin. intuition discriminate. }
  apply in_split in Hin as (e1 & e2 & ->).
  exists ((Arrived Opening <$> seq 0 (Z.to_nat T)) ++
          [Passed Opening (Z.to_nat T - 1)%nat]),
         (Z.to_nat T - 1)%nat, ((T - 1) * (N / T)), e1, e2.
  by rewrite <- !app_assoc.
Qed.

(** Two workers on four elements: worker 1 assigns [y[2]] first. *)
Lemma reset_may_follow_updates_witness :
  early_schedule 2 = [0; 1; 1; 1; 1; 1]%nat /\
  write_before_reset
    (log (compute (MultiThreadedDaxpy.workers_config true
                     (MultiThreadedDaxpy.Build 4 2 2%float x4 y4 y4))
                  (early_schedule 2) y4)).
Proof.
  assert (H4 : 1 <= 4 <= SIZE_MAX) by (unfold SIZE_MAX; lia).
  assert (H2 : 2 <= 2 <= INT_MAX) by (unfold INT_MAX; lia).
  split; [reflexivity|].
  exact (reset_may_follow_updates 4 2 2%float x4 y4 y4 H4 H2 eq_refl).
Defined.

(** ** Driver 2 from the command line to the exit code *)

Section driver2.

Import MultiThreadedDaxpy.

(** The constructor's loop fills the indices of [[i, i + n)]. *)
Lemma for_count_draws (rnd : nat -> float) (n : nat) :
  forall (i : Z) (v : list float * list float * list float) (j : nat),
  0 <= i -> (Z.to_nat i + n <= length v.1.1)%nat ->
  (Z.to_nat i + n <= length v.1.2)%nat -> (Z.to_nat i + n <= length v.2)%nat ->
  let r := for_count n i (init_at rnd) v in
  r.1.1 !! j = (if bool_decide (i <= Z.of_nat j < i + Z.of_nat n)
                then Some (rnd (2 * j)%nat) else v.1.1 !! j) /\
  r.1.2 !! j = (if bool_decide (i <= Z.of_nat j < i + Z.of_nat n)
                then Some (rnd (2 * j + 1)%nat) else v.1.2 !! j) /\
  r.2 !! j = (if bool_decide (i <= Z.of_nat j < i + Z.of_nat n)
              then Some (rnd (2 * j + 1)%nat) else v.2 !! j).
Proof.
  induction n as [|n IH]; intros i v j Hi Hx Hy Ho; cbn [for_count].
  - simpl. rewrite bool_decide_eq_false_2 by lia. done.
  - destruct (IH (i + 1) (init_at rnd i v) j) as (IHx & IHy & IHo);
      [lia | destruct v as [[vx vy] vo]; simpl in *; rewrite length_vset; lia..|].
    cbv zeta. rewrite IHx, IHy, IHo.
    destruct v as [[vx vy] vo]. simpl in *. unfold vset.
    destruct (decide (Z.of_nat j = i)) as [<-|Hne].
    + rewrite (bool_decide_eq_false_2 (Z.of_nat j + 1 <= _ < _)) by lia.
      rewrite bool_decide_eq_true_2 by lia.
      rewrite Nat2Z.id. rewrite !list_lookup_insert_eq by lia.
      split; [done|]. split; [done|]. f_equal.
      apply vget_lookup. rewrite Nat2Z.id. by rewrite list_lookup_insert_eq by lia.
    + rewrite !list_lookup_insert_ne by lia.
      repeat split; case_bool_decide; case_bool_decide; (done || lia).
Qed.

Lemma length_drawn_x w N : Z.of_nat (length (drawn_x w N)) = Z.max 0 N.
Proof. unfold drawn_x. rewrite length_fmap, length_counters. lia. Qed.

Lemma length_drawn_y w N : Z.of_nat (length (drawn_y w N)) = Z.max 0 N.
Proof. unfold drawn_y. rewrite length_fmap, length_counters. lia. Qed.

Lemma construct_draws (w : world) N T a :
  construct w N T a =
    if can_allocate w N
    then Ok (constructed w N T a, banner (constructed w N T a))
    else Throw (creation_error
                  "cannot create std::vector larger than max_size()" N).
Proof.
  unfold construct. destruct (can_allocate w N); simpl; [|done].
  unfold for_loop. rewrite Z.sub_0_r.
  set (zeros := replicate (Z.to_nat N) 0%float).
  assert (Hz : length zeros = Z.to_nat N) by apply length_replicate.
  pose proof (for_count_draws (random w) (Z.to_nat N) 0 (zeros, zeros, zeros)) as H.
  destruct (for_count (Z.to_nat N) 0 (init_at (random w)) (zeros, zeros, zeros))
    as [[vx vy] vo].
  simpl in H.
  assert (Hx : vx = drawn_x w N).
  { apply list_eq. intros j. destruct (H j) as (-> & _ & _); try lia.
    unfold drawn_x. rewrite list_lookup_fmap. case_bool_decide as Hj.
    - rewrite lookup_counters by lia. simpl. by rewrite Nat2Z.id.
    - unfold zeros. rewrite (proj1 (lookup_replicate_None _ _ _)) by lia.
      destruct (counters N !! j) eqn:E; [|done].
      apply lookup_counters_inv in E. lia. }
  assert (Hy : forall v, (forall j, v !! j =
              if bool_decide (0 <= Z.of_nat j < 0 + Z.of_nat (Z.to_nat N))
              then Some (random w (2 * j + 1)%nat) else zeros !! j) ->
            v = drawn_y w N).
  { intros v Hv. apply list_eq. intros j. rewrite Hv.
    unfold drawn_y. rewrite list_lookup_fmap. case_bool_decide as Hj.
    - rewrite lookup_counters by lia. simpl. by rewrite Nat2Z.id.
    - unfold zeros. rewrite (proj1 (lookup_replicate_None _ _ _)) by lia.
      destruct (counters N !! j) eqn:E; [|done].
      apply lookup_counters_inv in E. lia. }
  rewrite Hx, (Hy vy), (Hy vo); [done | |].
  - intros j. by destruct (H j) as (_ & _ & ->); try lia.
  - intros j. by destruct (H j) as (_ & -> & _); try lia.
Qed.

(** The verifier on the result of the compute phase. *)
Lemma verify_parallel_result (w : world) N T a :
  0 <= N ->
  verify_results
    (Build N T a (drawn_x w N) (verified_y w N a) (drawn_y w N)) =
  (Build N T a (drawn_x w N) (verified_y w N a) (drawn_y w N),
   [ Line Cout "Results verification: " (Text "PASSED");
     Line Cout "Maximum error: " (Double 0%float);
     Line Cout "First 10 results: "
       (Doubles (take (Z.to_nat (Z.min 10 N)) (verified_y w N a))) ]).
Proof.
  intros HN. rewrite verify_results_unfold.
  cbn [y x alpha vector_size y_original].
  pose proof (length_drawn_x w N) as Hx. pose proof (length_drawn_y w N) as Hy.
  pose proof (sequential_pass_zip a (drawn_x w N) (drawn_y w N)) as Hs.
  rewrite Hy, Z.max_r in Hs by lia. rewrite Hs by lia. fold (verified_y w N a).
  rewrite compare_self. simpl.
  rewrite first_elements; [done|].
  unfold verified_y. rewrite length_zip_with. lia.
Qed.

(** The body of the [try] block. *)
Lemma benchmark_outcome GEM5 (w : world) N T a :
  1 <= N <= SIZE_MAX -> 1 <= T <= INT_MAX ->
  benchmark GEM5 w N T a =
    if negb (can_allocate w N) then
      (Throw (creation_error
                "cannot create std::vector larger than max_size()" N), [])
    else if max_threads w <? T
    then (if max_threads w <=? 0 then Throw system_error else Abort system_error,
          output_before_launch w N T a)
    else (Ok (verified_output w N T a), []).
Proof.
  intros HN HT. unfold benchmark. rewrite construct_draws.
  destruct (can_allocate w N); simpl; [|done].
  unfold run_parallel. simpl.
  destruct (max_threads w <? T) eqn:E; [by destruct (max_threads w <=? 0)|].
  unfold constructed.
  rewrite worker_compute_zip;
    [| done | done | rewrite length_drawn_x; lia | rewrite length_drawn_y; lia].
  fold (verified_y w N a). rewrite verify_parallel_result by lia. done.
Qed.

Lemma converted_range stod argv N T a :
  parse_arguments stod argv = Ok (N, T, a) ->
  0 <= N <= SIZE_MAX /\ INT_MIN <= T <= INT_MAX.
Proof.
  unfold parse_arguments.
  destruct (stoull (arg argv 1)) as [n| |] eqn:En; simpl; [|done..].
  destruct (stoi (arg argv 2)) as [t| |] eqn:Et; simpl; [|done..].
  destruct (stod (arg argv 3)); simpl; [|done..]. intros [= <- <- <-].
  split; [apply (sto_unsigned_range "stoull" _ _ En) | by eapply stoi_range].
Qed.

(** [main] once its three arguments have been converted. *)
Lemma main_converted GEM5 stod (w : world) argv N T a :
  length argv = 4%nat -> parse_arguments stod argv = Ok (N, T, a) ->
  main GEM5 stod w argv =
    if bad_thread_count w T then
      Process (Exit 1)
        [Line Cerr "Invalid number of threads. Must be between 1 and "
              (Int (hardware_concurrency w))] 0
    else if N =? 0 then
      Process (Exit 1) [Line Cerr "Vector size must be greater than 0" (Text "")] 0
    else if negb (can_allocate w N) then
      Process (Exit 1)
        [Line Cerr "Error: "
           (Text (what (creation_error
                          "cannot create std::vector larger than max_size()" N)))] 0
    else if max_threads w <? T then
      if max_threads w <=? 0
      then Process (Exit 1)
             (output_before_launch w N T a ++
              [Line Cerr "Error: " (Text "Resource temporarily unavailable")]) 0
      else Process (Terminate system_error) (output_before_launch w N T a)
             (Z.to_nat (max_threads w))
    else Process (Exit 0) (verified_output w N T a) (Z.to_nat T).
Proof.
  intros Hlen Hp. unfold main. rewrite Hlen, Hp. simpl.
  destruct (converted_range _ _ _ _ _ Hp) as [HN HT].
  destruct (bad_thread_count w T) eqn:Eb; [done|].
  assert (HT1 : 1 <= T).
  { destruct (Z.le_gt_cases 1 T) as [?|Hlt]; [done|].
    rewrite (proj2 (bad_thread_count_spec w T HT)) in Eb; [done | lia]. }
  destruct (Z.eqb_spec N 0) as [->|HN0]; [done|].
  rewrite benchmark_outcome by (unfold INT_MAX in *; lia).
  destruct (negb (can_allocate w N)); [done|].
  destruct (max_threads w <? T); [|done].
  by destruct (max_threads w <=? 0).
Qed.

End driver2.

(** X5.  The constructor of driver 2 creates the three vectors before it
    does anything else.  When they cannot be created it throws, and
    nothing has been printed: [std::length_error] for a size above
    [max_size()], [std::bad_alloc] for a size the allocator cannot serve.
    When they can, the three vectors have [N] elements each, [x[i]] is
    draw [2i] and [y[i]] is draw [2i + 1] of the generator, [y_original]
    is a copy of [y], and the four banner lines are printed. *)
Theorem constructor_draws (w : world) N T a :
  0 <= N ->
  (can_allocate w N = false -> VECTOR_MAX < N ->
   MultiThreadedDaxpy.construct w N T a =
     Throw (length_error "cannot create std::vector larger than max_size()")) /\
  (can_allocate w N = false -> N <= VECTOR_MAX ->
   MultiThreadedDaxpy.construct w N T a = Throw bad_alloc) /\
  (can_allocate w N = true ->
   exists o,
     MultiThreadedDaxpy.construct w N T a = Ok (o, MultiThreadedDaxpy.banner o) /\
     MultiThreadedDaxpy.vector_size o = N /\
     MultiThreadedDaxpy.num_threads o = T /\
     MultiThreadedDaxpy.alpha o = a /\
     Z.of_nat (length (MultiThreadedDaxpy.x o)) = N /\
     Z.of_nat (length (MultiThreadedDaxpy.y o)) = N /\
     MultiThreadedDaxpy.y_original o = MultiThreadedDaxpy.y o /\
     forall i, 0 <= i < N ->
       vget (MultiThreadedDaxpy.x o) i = random w (2 * Z.to_nat i)%nat /\
       vget (MultiThreadedDaxpy.y o) i = random w (2 * Z.to_nat i + 1)%nat).
Proof.
  intros HN. rewrite construct_draws. unfold creation_error.
  split; [|split].
  - intros -> Hm. by rewrite (proj2 (Z.ltb_lt _ _) Hm).
  - intros -> Hm. by rewrite (proj2 (Z.ltb_ge _ _) Hm).
  - intros ->. exists (constructed w N T a). simpl.
    rewrite length_drawn_x, length_drawn_y.
    repeat split; try done; try lia.
    + apply vget_lookup. unfold drawn_x.
      rewrite list_lookup_fmap, lookup_counters by lia. simpl.
      by rewrite Z2Nat.id by lia.
    + apply vget_lookup. unfold drawn_y.
      rewrite list_lookup_fmap, lookup_counters by lia. simpl.
      by rewrite Z2Nat.id by lia.
Qed.

(** Three elements: the draws are [1.5], [2.5], ..., [6.5].  And
    [2^64 - 1] elements, which no vector can hold. *)
Lemma constructor_draws_witness :
  (exists o,
     MultiThreadedDaxpy.construct sample_world 3 2 2%float =
       Ok (o, MultiThreadedDaxpy.banner o) /\
     MultiThreadedDaxpy.x o = [1.5; 3.5; 5.5]%float /\
     MultiThreadedDaxpy.y o = [2.5; 4.5; 6.5]%float /\
     MultiThreadedDaxpy.y_original o = [2.5; 4.5; 6.5]%float) /\
  MultiThreadedDaxpy.construct sample_world 18446744073709551615 2 2%float =
    Throw (length_error "cannot create std::vector larger than max_size()").
Proof.
  split.
  - assert (H3 : 0 <= 3) by lia.
    destruct (constructor_draws sample_world 3 2 2%float H3) as (_ & _ & H).
    destruct (H eq_refl) as (o & Ho & _).
    exists o. split; [exact Ho|].
    assert (E : Ok (o, MultiThreadedDaxpy.banner o) =
                MultiThreadedDaxpy.construct sample_world 3 2 2%float)
      by (by rewrite Ho).
    vm_compute in E. injection E as ->. by vm_compute.
  - assert (HN : 0 <= 18446744073709551615) by lia.
    assert (Hm : VECTOR_MAX < 18446744073709551615) by reflexivity.
    destruct (constructor_draws sample_world 18446744073709551615 2 2%float HN)
      as (H & _).
    exact (H eq_refl Hm).
Defined.

(** X6.  Driver 2 exits with code 0 exactly when it is given three
    arguments that convert, a thread count in
    [[1, hardware_concurrency()]] and a non-zero size, and the system
    has the memory and the threads.  It then prints, whatever the
    schedule and whether or not [GEM5] is defined, the banner, the timing,
    [Results verification: PASSED], [Maximum error: 0] and the first
    [min(10, N)] elements of [alpha * x + y], and it has created [T]
    workers. *)
Theorem driver2_successful_run GEM5 stod (w : world) (argv : list string) :
  (forall N T a,
     length argv = 4%nat ->
     MultiThreadedDaxpy.parse_arguments stod argv = Ok (N, T, a) ->
     runs w N T ->
     MultiThreadedDaxpy.main GEM5 stod w argv =
       Process (Exit 0) (verified_output w N T a) (Z.to_nat T)) /\
  (status (MultiThreadedDaxpy.main GEM5 stod w argv) = Exit 0 ->
   length argv = 4%nat /\
   exists N T a,
     MultiThreadedDaxpy.parse_arguments stod argv = Ok (N, T, a) /\ runs w N T).
Proof.
  split.
  - intros N T a Hlen Hp (HT & HN & Ha & Hm).
    rewrite (main_converted GEM5 stod w argv N T a Hlen Hp).
    destruct (converted_range _ _ _ _ _ Hp) as [_ Hi].
    destruct (MultiThreadedDaxpy.bad_thread_count w T) eqn:Eb.
    { apply (bad_thread_count_spec w T Hi) in Eb. lia. }
    rewrite (proj2 (Z.eqb_neq N 0) HN), Ha. simpl.
    by rewrite (proj2 (Z.ltb_ge (max_threads w) T)) by lia.
  - intros Hst. destruct (decide (length argv = 4%nat)) as [Hlen|Hlen].
    2:{ unfold MultiThreadedDaxpy.main in Hst.
        rewrite (proj2 (Nat.eqb_neq _ _) Hlen) in Hst. done. }
    split; [done|].
    destruct (MultiThreadedDaxpy.parse_arguments stod argv) as [[[N T] a]|e|e] eqn:Hp.
    2,3: unfold MultiThreadedDaxpy.main in Hst; by rewrite Hlen, Hp in Hst.
    exists N, T, a. split; [done|].
    rewrite (main_converted GEM5 stod w argv N T a Hlen Hp) in Hst.
    destruct (converted_range _ _ _ _ _ Hp) as [_ Hi].
    destruct (MultiThreadedDaxpy.bad_thread_count w T) eqn:Eb; [done|].
    destruct (Z.eqb_spec N 0) as [->|HN]; [done|].
    destruct (can_allocate w N) eqn:Ha; [|done]. simpl in Hst.
    destruct (Z.ltb_spec (max_threads w) T) as [Hm|Hm].
    { by destruct (max_threads w <=? 0). }
    pose proof (bad_thread_count_spec w T Hi) as Hb. rewrite Eb in Hb.
    unfold runs. repeat split; try done.
    + destruct (Z.le_gt_cases 1 T) as [?|?]; [done|].
      assert (false = true) by (apply Hb; lia). done.
    + destruct (Z.le_gt_cases T (hardware_concurrency w)) as [?|?]; [done|].
      assert (false = true) by (apply Hb; lia). done.
Qed.

(** Four elements on two workers. *)
Lemma driver2_successful_run_witness :
  MultiThreadedDaxpy.main true sample_stod sample_world
    ["multi_threaded_daxpy"; "4"; "2"; "2"]%string =
  Process (Exit 0)
    [ Line Cout "DAXPY Multi-threaded Benchmark" (Text "");
      Line Cout "Vector size: " (Int 4);
      Line Cout "Threads: " (Int 2);
      Line Cout "Alpha: " (Double 2%float);
      Line Cout "Starting parallel computation..." (Text "");
      Line Cout "Parallel execution time: " (Int 250);
      Line Cout "Results verification: " (Text "PASSED");
      Line Cout "Maximum error: " (Double 0%float);
      Line Cout "First 10 results: " (Doubles [5.5; 11.5; 17.5; 23.5]%float);
      Line Cout "Benchmark completed successfully!" (Text "") ] 2.
Proof.
  destruct (driver2_successful_run true sample_stod sample_world
              ["multi_threaded_daxpy"; "4"; "2"; "2"]%string) as [H _].
  rewrite (H 4 2 2%float); [reflexivity | reflexivity | reflexivity |].
  unfold runs. simpl. repeat split; (lia || done).
Defined.

(** X7.  On a platform where [hardware_concurrency()] returns 0 (the value
    is not computable), driver 2 accepts no thread count at all: every
    invocation ends unsuccessfully without creating a worker, and one
    whose three arguments convert is answered with the "Invalid number of
    threads" message and exit code 1. *)
Theorem no_hardware_threads GEM5 stod (w : world) (argv : list string) :
  hardware_concurrency w <= 0 ->
  let p := MultiThreadedDaxpy.main GEM5 stod w argv in
  status p <> Exit 0 /\ workers p = 0%nat /\
  forall N T a,
    length argv = 4%nat ->
    MultiThreadedDaxpy.parse_arguments stod argv = Ok (N, T, a) ->
    p = Process (Exit 1)
          [Line Cerr "Invalid number of threads. Must be between 1 and "
                (Int (hardware_concurrency w))] 0.
Proof.
  intros Hw p.
  assert (Hconv : forall N T a, length argv = 4%nat ->
            MultiThreadedDaxpy.parse_arguments stod argv = Ok (N, T, a) ->
            p = Process (Exit 1)
                  [Line Cerr "Invalid number of threads. Must be between 1 and "
                        (Int (hardware_concurrency w))] 0).
  { intros N T a Hlen Hp. unfold p.
    rewrite (main_converted GEM5 stod w argv N T a Hlen Hp).
    destruct (converted_range _ _ _ _ _ Hp) as [_ Hi].
    rewrite (proj2 (bad_thread_count_spec w T Hi)); [done | lia]. }
  destruct (decide (length argv = 4%nat)) as [Hlen|Hlen].
  - destruct (MultiThreadedDaxpy.parse_arguments stod argv) as [[[N T] a]|e|e] eqn:Hp.
    + by rewrite (Hconv N T a Hlen eq_refl).
    + unfold p, MultiThreadedDaxpy.main. by rewrite Hlen, Hp.
    + unfold p, MultiThreadedDaxpy.main. by rewrite Hlen, Hp.
  - unfold p, MultiThreadedDaxpy.main.
    rewrite (proj2 (Nat.eqb_neq _ _) Hlen). simpl.
    split; [done|]. split; [done|]. intros; done.
Qed.

(** Two threads asked for where the hardware reports none. *)
Lemma no_hardware_threads_witness :
  MultiThreadedDaxpy.main true sample_stod unknown_world
    ["multi_threaded_daxpy"; "4"; "2"; "2"]%string =
  Process (Exit 1)
    [Line Cerr "Invalid number of threads. Must be between 1 and " (Int 0)] 0.
Proof.
  assert (H0 : hardware_concurrency unknown_world <= 0) by (simpl; lia).
  destruct (no_hardware_threads true sample_stod unknown_world
              ["multi_threaded_daxpy"; "4"; "2"; "2"]%string H0) as (_ & _ & H).
  exact (H 4 2 2%float eq_refl eq_refl).
Defined.

(** X8.  In driver 2, when the system refuses to create one of the [T]
    threads, the result is neither verified nor printed.  If the very
    first thread is refused, the exception reaches the handler in [main]:
    an [Error:] line and exit code 1.  If a later one is refused, the
    threads already created are still joinable when the exception leaves
    [run_parallel], so the process ends in [std::terminate] and the
    handler is never reached. *)
Theorem thread_creation_failure GEM5 stod (w : world) (argv : list string) N T a :
  length argv = 4%nat ->
  MultiThreadedDaxpy.parse_arguments stod argv = Ok (N, T, a) ->
  1 <= T <= hardware_concurrency w -> N <> 0 -> can_allocate w N = true ->
  max_threads w < T ->
  MultiThreadedDaxpy.main GEM5 stod w argv =
    if max_threads w <=? 0
    then Process (Exit 1)
           (output_before_launch w N T a ++
            [Line Cerr "Error: " (Text (MultiThreadedDaxpy.what system_error))]) 0
    else Process (Terminate system_error) (output_before_launch w N T a)
           (Z.to_nat (max_threads w)).
Proof.
  intros Hlen Hp HT HN Ha Hm.
  rewrite (main_converted GEM5 stod w argv N T a Hlen Hp).
  destruct (converted_range _ _ _ _ _ Hp) as [_ Hi].
  destruct (MultiThreadedDaxpy.bad_thread_count w T) eqn:Eb.
  { apply (bad_thread_count_spec w T Hi) in Eb. lia. }
  rewrite (proj2 (Z.eqb_neq N 0) HN), Ha. simpl.
  by rewrite (proj2 (Z.ltb_lt (max_threads w) T)) by lia.
Qed.

(** Two workers where only one thread can be created, and where none can. *)
Lemma thread_creation_failure_witness :
  MultiThreadedDaxpy.main true sample_stod crowded_world
    ["multi_threaded_daxpy"; "4"; "2"; "2"]%string =
  Process (Terminate system_error) (output_before_launch crowded_world 4 2 2%float) 1 /\
  status (MultiThreadedDaxpy.main true sample_stod exhausted_world
            ["multi_threaded_daxpy"; "4"; "2"; "2"]%string) = Exit 1.
Proof.
  assert (HT : 1 <= 2 <= 8) by lia.
  assert (HN : 4 <> 0) by lia.
  split.
  - assert (Hm : max_threads crowded_world < 2) by (simpl; lia).
    exact (thread_creation_failure true sample_stod crowded_world
             ["multi_threaded_daxpy"; "4"; "2"; "2"]%string 4 2 2%float
             eq_refl eq_refl HT HN eq_refl Hm).
  - assert (Hm : max_threads exhausted_world < 2) by (simpl; lia).
    rewrite (thread_creation_failure true sample_stod exhausted_world
               ["multi_threaded_daxpy"; "4"; "2"; "2"]%string 4 2 2%float
               eq_refl eq_refl HT HN eq_refl Hm).
    reflexivity.
Defined.

(** X9.  In driver 2, when the vectors cannot be created, the
    constructor throws before its body has printed anything, and the
    handler in [main] reports it: the only output is one [Error:] line on
    [std::cerr], the exit code is 1 and no worker is created.  The line
    carries the message of [std::length_error] when the size is above
    [max_size()], and that of [std::bad_alloc] otherwise. *)
Theorem allocation_failure GEM5 stod (w : world) (argv : list string) N T a :
  length argv = 4%nat ->
  MultiThreadedDaxpy.parse_arguments stod argv = Ok (N, T, a) ->
  1 <= T <= hardware_concurrency w -> N <> 0 -> can_allocate w N = false ->
  MultiThreadedDaxpy.main GEM5 stod w argv =
    Process (Exit 1)
      [Line Cerr "Error: "
         (Text (if VECTOR_MAX <? N
                then "cannot create std::vector larger than max_size()"
                else "std::bad_alloc"))] 0.
Proof.
  intros Hlen Hp HT HN Ha.
  rewrite (main_converted GEM5 stod w argv N T a Hlen Hp).
  destruct (converted_range _ _ _ _ _ Hp) as [_ Hi].
  destruct (MultiThreadedDaxpy.bad_thread_count w T) eqn:Eb.
  { apply (bad_thread_count_spec w T Hi) in Eb. lia. }
  rewrite (proj2 (Z.eqb_neq N 0) HN), Ha. simpl.
  unfold creation_error. by destruct (VECTOR_MAX <? N).
Qed.

(** A size of [-1], which is [2^64 - 1] elements, and a size just above
    what the sample system has room for. *)
Lemma allocation_failure_witness :
  MultiThreadedDaxpy.main true sample_stod sample_world
    ["multi_threaded_daxpy"; "-1"; "2"; "2.5"]%string =
  Process (Exit 1)
    [Line Cerr "Error: "
       (Text "cannot create std::vector larger than max_size()")] 0 /\
  MultiThreadedDaxpy.main true sample_stod sample_world
    ["multi_threaded_daxpy"; "4294967297"; "2"; "2"]%string =
  Process (Exit 1) [Line Cerr "Error: " (Text "std::bad_alloc")] 0.
Proof.
  assert (HT : 1 <= 2 <= hardware_concurrency sample_world) by (simpl; lia).
  split.
  - assert (HN : 18446744073709551615 <> 0) by lia.
    exact (allocation_failure true sample_stod sample_world
             ["multi_threaded_daxpy"; "-1"; "2"; "2.5"]%string
             18446744073709551615 2 2.5%float eq_refl eq_refl HT HN eq_refl).
  - assert (HN : 4294967297 <> 0) by lia.
    exact (allocation_failure true sample_stod sample_world
             ["multi_threaded_daxpy"; "4294967297"; "2"; "2"]%string
             4294967297 2 2%float eq_refl eq_refl HT HN eq_refl).
Defined.

(** X10.  Driver 1 has no handler at all.  When the vectors cannot be
    created the process ends in [std::terminate] after the banner, on the
    [std::length_error] of [x.resize] for a size above [max_size()] and on
    [std::bad_alloc] otherwise, and when one of the [T > 1] threads cannot
    be created it ends in [std::terminate] as well.  Otherwise it exits
    with code 0, having created [T] threads when [T > 1] and none when [T]
    is 0 or 1: a thread count of 0 runs the loop on the calling thread, and
    [vector_size / num_threads] is never evaluated. *)
Theorem driver1_resource_failures stod (w : world) (argv : list string) N T a :
  DaxpyBenchmark.parse_arguments stod argv = Ok (N, T, a) ->
  let p := DaxpyBenchmark.main stod w argv in
  (can_allocate w N = false -> VECTOR_MAX < N ->
   p = Process (Terminate (length_error "vector::_M_default_append"))
         (DaxpyBenchmark.banner N T a) 0) /\
  (can_allocate w N = false -> N <= VECTOR_MAX ->
   p = Process (Terminate bad_alloc) (DaxpyBenchmark.banner N T a) 0) /\
  (can_allocate w N = true -> 1 < T -> max_threads w < T ->
   p = Process (Terminate system_error) (DaxpyBenchmark.banner N T a)
         (Z.to_nat (max_threads w))) /\
  (can_allocate w N = true -> 1 < T <= max_threads w ->
   status p = Exit 0 /\ workers p = Z.to_nat T) /\
  (can_allocate w N = true -> T <= 1 ->
   status p = Exit 0 /\ workers p = 0%nat /\
   In (DaxpyBenchmark.elapsed_line "Single-threaded execution time: " w) (output p)).
Proof.
  intros Hp p. unfold p. rewrite (main_parsed stod w argv N T a Hp).
  unfold creation_error.
  split; [|split; [|split; [|split]]].
  - intros -> Hm. simpl. by rewrite (proj2 (Z.ltb_lt _ _) Hm).
  - intros -> Hm. simpl. by rewrite (proj2 (Z.ltb_ge _ _) Hm).
  - intros -> H1 Hm. simpl.
    rewrite (proj2 (Z.ltb_lt 1 T)), (proj2 (Z.ltb_lt (max_threads w) T)) by lia.
    simpl. by rewrite Z.min_l by lia.
  - intros -> [H1 Hm]. simpl.
    rewrite (proj2 (Z.ltb_ge (max_threads w) T)), andb_false_r by lia.
    rewrite (proj2 (Z.ltb_lt 1 T)) by lia. simpl. by rewrite Z.min_r by lia.
  - intros -> H1. simpl. rewrite (proj2 (Z.ltb_ge 1 T)) by lia. simpl.
    split; [done|]. split; [done|].
    unfold expected_output. rewrite (proj2 (Z.ltb_ge 1 T)) by lia.
    simpl. tauto.
Qed.

(** A thread count of 0, a vector the sample system has no room for, and
    a size of [-1]. *)
Lemma driver1_resource_failures_witness :
  (status (DaxpyBenchmark.main sample_stod sample_world
             ["daxpy_benchmark"; "12"; "0"]%string) = Exit 0 /\
   workers (DaxpyBenchmark.main sample_stod sample_world
              ["daxpy_benchmark"; "12"; "0"]%string) = 0%nat) /\
  DaxpyBenchmark.main sample_stod sample_world
    ["daxpy_benchmark"; "4294967297"]%string =
  Process (Terminate bad_alloc)
    (DaxpyBenchmark.banner 4294967297 1 2.5%float) 0 /\
  DaxpyBenchmark.main sample_stod sample_world
    ["daxpy_benchmark"; "-1"]%string =
  Process (Terminate (length_error "vector::_M_default_append"))
    (DaxpyBenchmark.banner 18446744073709551615 1 2.5%float) 0.
Proof.
  split; [|split].
  - assert (H0 : (0 : Z) <= 1) by lia.
    destruct (driver1_resource_failures sample_stod sample_world
                ["daxpy_benchmark"; "12"; "0"]%string 12 0 2.5%float eq_refl)
      as (_ & _ & _ & _ & H).
    destruct (H eq_refl H0) as (Hs & Hw & _). split; [exact Hs | exact Hw].
  - assert (Hm : 4294967297 <= VECTOR_MAX) by (apply Z.leb_le; reflexivity).
    destruct (driver1_resource_failures sample_stod sample_world
                ["daxpy_benchmark"; "4294967297"]%string 4294967297 1 2.5%float
                eq_refl) as (_ & H & _).
    exact (H eq_refl Hm).
  - assert (Hm : VECTOR_MAX < 18446744073709551615) by reflexivity.
    destruct (driver1_resource_failures sample_stod sample_world
                ["daxpy_benchmark"; "-1"]%string 18446744073709551615 1 2.5%float
                eq_refl) as (H & _).
    exact (H eq_refl Hm).
Defined.

(** ** How the numeric arguments are spelled *)

Section spelling.

Local Open Scope string_scope.

Lemma digits_app rest : starts_with_digit rest = false ->
  forall s acc seen m,
  digits s acc seen = Some m -> digits (s ++ rest) acc seen = Some m.
Proof.
  intros Hr. induction s as [|a s IH]; simpl; intros acc seen m H.
  - destruct seen; [|done]. injection H as <-.
    destruct rest as [|b rest]; [done|]. simpl in *.
    by destruct (digit b).
  - destruct (digit a); [by apply IH | done].
Qed.

Lemma skip_spaces_app rest s :
  skip_spaces s <> "" -> skip_spaces (s ++ rest) = skip_spaces s ++ rest.
Proof.
  induction s as [|a s IH]; simpl; [done|].
  destruct (isspace a); [done|]. done.
Qed.

Lemma split_sign_app rest s :
  s <> "" -> split_sign (s ++ rest) = ((split_sign s).1, (split_sign s).2 ++ rest).
Proof.
  destruct s as [|a s]; [done|]. intros _.
  by destruct a as [[] [] [] [] [] [] [] []].
Qed.

(** What follows the digits is not looked at. *)
Lemma scan_integer_app rest s r :
  starts_with_digit rest = false ->
  scan_integer s = Some r -> scan_integer (s ++ rest) = Some r.
Proof.
  intros Hr. unfold scan_integer.
  destruct (decide (skip_spaces s = "")) as [E|E].
  { rewrite E. done. }
  rewrite skip_spaces_app, split_sign_app by done.
  destruct (split_sign (skip_spaces s)) as [neg t]. simpl.
  destruct (digits t 0 false) as [m|] eqn:Ed; [|done].
  by rewrite (digits_app rest Hr _ _ _ _ Ed).
Qed.

Lemma sto_unsigned_app name rest s v :
  starts_with_digit rest = false ->
  sto_unsigned name s = Ok v -> sto_unsigned name (s ++ rest) = Ok v.
Proof.
  intros Hr. unfold sto_unsigned.
  destruct (scan_integer s) as [r|] eqn:E; [|done].
  by rewrite (scan_integer_app rest s r Hr E).
Qed.

Lemma stoi_app rest s v :
  starts_with_digit rest = false -> stoi s = Ok v -> stoi (s ++ rest) = Ok v.
Proof.
  intros Hr. unfold stoi.
  destruct (scan_integer s) as [r|] eqn:E; [|done].
  by rewrite (scan_integer_app rest s r Hr E).
Qed.

(** A minus sign in front of the digits. *)
Lemma sto_unsigned_minus name d m :
  digits d 0 false = Some m -> 1 <= m <= SIZE_MAX ->
  sto_unsigned name (String "-" d) = Ok (2 ^ 64 - m).
Proof.
  intros Hd Hm. unfold sto_unsigned, scan_integer. simpl. rewrite Hd.
  rewrite (proj2 (Z.ltb_ge SIZE_MAX m)) by lia. f_equal.
  unfold to_size_t, SIZE_MAX in *.
  rewrite <- (Z.mod_add (- m) 1 (2 ^ 64)) by lia.
  rewrite Z.mod_small by lia. lia.
Qed.

End spelling.

(** X11.  Neither driver looks at what follows the digits of a numeric
    argument: characters appended to a vector size or thread count that
    converts (anything that does not start with a digit, as in [1000abc],
    [4.7] or [1e6]) change nothing in the run. *)
Theorem trailing_characters_ignored stod (w : world) prog s1 r1 s2 r2 N T :
  starts_with_digit r1 = false -> starts_with_digit r2 = false ->
  (stoul s1 = Ok N -> stoul s2 = Ok T ->
   forall rest,
     DaxpyBenchmark.main stod w (prog :: (s1 ++ r1) :: (s2 ++ r2) :: rest)%string =
     DaxpyBenchmark.main stod w (prog :: s1 :: s2 :: rest)) /\
  (stoull s1 = Ok N -> stoi s2 = Ok T ->
   forall GEM5 s3,
     MultiThreadedDaxpy.main GEM5 stod w [prog; s1 ++ r1; s2 ++ r2; s3]%string =
     MultiThreadedDaxpy.main GEM5 stod w [prog; s1; s2; s3]).
Proof.
  intros H1 H2. split.
  - intros HN HT rest. unfold DaxpyBenchmark.main. f_equal.
    unfold DaxpyBenchmark.parse_arguments. cbn [length arg nth].
    unfold stoul in *.
    by rewrite (sto_unsigned_app _ r1 s1 N H1 HN), (sto_unsigned_app _ r2 s2 T H2 HT),
      HN, HT.
  - intros HN HT GEM5 s3. unfold MultiThreadedDaxpy.main. cbn [length arg nth].
    unfold MultiThreadedDaxpy.parse_arguments. cbn [length arg nth].
    unfold stoull in *.
    by rewrite (sto_unsigned_app _ r1 s1 N H1 HN), (stoi_app r2 s2 T H2 HT), HN, HT.
Qed.

(** [12abc] elements and [2.9] threads are 12 elements and 2 threads. *)
Lemma trailing_characters_ignored_witness :
  DaxpyBenchmark.main sample_stod sample_world
    ["daxpy_benchmark"; "12abc"; "2.9"]%string =
  DaxpyBenchmark.main sample_stod sample_world
    ["daxpy_benchmark"; "12"; "2"]%string /\
  MultiThreadedDaxpy.main true sample_stod sample_world
    ["multi_threaded_daxpy"; "12abc"; "2.9"; "2.5"]%string =
  MultiThreadedDaxpy.main true sample_stod sample_world
    ["multi_threaded_daxpy"; "12"; "2"; "2.5"]%string.
Proof.
  split.
  - destruct (trailing_characters_ignored sample_stod sample_world
                "daxpy_benchmark" "12" "abc" "2" ".9" 12 2 eq_refl eq_refl)
      as [H _].
    exact (H eq_refl eq_refl []).
  - destruct (trailing_characters_ignored sample_stod sample_world
                "multi_threaded_daxpy" "12" "abc" "2" ".9" 12 2 eq_refl eq_refl)
      as [_ H].
    exact (H eq_refl eq_refl true "2.5"%string).
Defined.

(** X12.  A vector size written with a minus sign is not rejected by
    either driver: [std::stoul] and [std::stoull] negate in the unsigned
    type, so [-m] becomes [2^64 - m], which is not 0 and passes the size
    check of driver 2. *)
Theorem negative_size_wraps stod d m :
  digits d 0 false = Some m -> 1 <= m <= SIZE_MAX ->
  (forall prog,
     DaxpyBenchmark.parse_arguments stod [prog; String "-" d] =
     Ok (2 ^ 64 - m, 1, 2.5%float)) /\
  (forall prog s2 s3,
     MultiThreadedDaxpy.parse_arguments stod [prog; String "-" d; s2; s3] =
     bind (stoi s2) (fun T => bind (stod s3) (fun a => Ok (2 ^ 64 - m, T, a)))) /\
  (2 ^ 64 - m =? 0) = false.
Proof.
  intros Hd Hm. split; [|split].
  - intros prog. unfold DaxpyBenchmark.parse_arguments. cbn [length arg nth].
    unfold stoul. by rewrite (sto_unsigned_minus _ d m Hd Hm).
  - intros prog s2 s3. unfold MultiThreadedDaxpy.parse_arguments.
    cbn [length arg nth]. unfold stoull.
    by rewrite (sto_unsigned_minus _ d m Hd Hm).
  - apply Z.eqb_neq. unfold SIZE_MAX in Hm. lia.
Qed.

(** A size of [-1] is [2^64 - 1] elements. *)
Lemma negative_size_wraps_witness :
  DaxpyBenchmark.parse_arguments sample_stod ["daxpy_benchmark"; "-1"]%string =
    Ok (18446744073709551615, 1, 2.5%float) /\
  MultiThreadedDaxpy.parse_arguments sample_stod
    ["multi_threaded_daxpy"; "-1"; "2"; "2.5"]%string =
    Ok (18446744073709551615, 2, 2.5%float).
Proof.
  assert (H1 : 1 <= 1 <= SIZE_MAX) by (unfold SIZE_MAX; lia).
  destruct (negative_size_wraps sample_stod "1" 1 eq_refl H1) as (Ha & Hb & _).
  split.
  - exact (Ha "daxpy_benchmark"%string).
  - exact (Hb "multi_threaded_daxpy"%string "2"%string "2.5"%string).
Defined.

(** ** How the work is shared out *)

Section shares.

Lemma contract_share N T rs (t : nat) lo hi :
  1 <= T -> 0 <= N -> contract N T rs -> rs !! t = Some (lo, hi) ->
  lo = Z.of_nat t * (N / T) /\
  hi - lo = (if Z.of_nat t =? T - 1 then N / T + N mod T else N / T).
Proof.
  intros HT HN Hc Hr.
  assert (Ht : Z.of_nat t < T).
  { pose proof (exactly_T _ _ _ Hc). apply lookup_lt_Some in Hr. lia. }
  destruct (Z.eqb_spec (Z.of_nat t) (T - 1)) as [E|E].
  - pose proof (last_range _ _ _ Hc) as Hl. rewrite <- E, Nat2Z.id, Hr in Hl.
    injection Hl as -> ->. split; [done|].
    pose proof (Z.mod_eq N T ltac:(lia)). lia.
  - pose proof (inner_ranges _ _ _ Hc t ltac:(lia)) as Hi. rewrite Hr in Hi.
    injection Hi as -> ->. split; [done | lia].
Qed.

End shares.

(** X13.  Both partitioners give every worker but the last exactly
    [N / T] elements, starting at [t * (N / T)], and give the last worker
    the remaining [N / T + N mod T].  With more workers than elements
    every worker but the last has nothing to do and the last one updates
    the whole vector. *)
Theorem partition_shares N T (t : nat) lo hi :
  0 <= N <= SIZE_MAX -> 1 <= T ->
  (T <= SIZE_MAX /\ bench_ranges N T !! t = Some (lo, hi)) \/
  (T <= INT_MAX /\ worker_ranges N T !! t = Some (lo, hi)) ->
  lo = Z.of_nat t * (N / T) /\
  hi - lo = (if Z.of_nat t =? T - 1 then N / T + N mod T else N / T) /\
  (N < T -> if Z.of_nat t =? T - 1 then lo = 0 /\ hi = N else lo = hi).
Proof.
  intros HN HT H.
  assert (Hs : lo = Z.of_nat t * (N / T) /\
               hi - lo = (if Z.of_nat t =? T - 1 then N / T + N mod T else N / T)).
  { destruct H as [[HTs Hr]|[HTi Hr]].
    - eapply contract_share; [done | lia | | done].
      apply bench_ranges_contract; unfold is_size_t; lia.
    - eapply contract_share; [done | lia | | done].
      apply worker_ranges_contract;
        unfold is_size_t, is_int, INT_MIN, INT_MAX in *; lia. }
  destruct Hs as [Hlo Hsz]. split; [done|]. split; [done|].
  intros Hlt. rewrite Z.div_small in Hlo, Hsz by lia.
  rewrite Z.mod_small in Hsz by lia.
  destruct (Z.of_nat t =? T - 1); lia.
Qed.

(** Ten elements on three workers: three, three and four. *)
Lemma partition_shares_witness :
  bench_ranges 10 3 !! 2%nat = Some (6, 10) /\ 10 - 6 = 10 / 3 + 10 mod 3.
Proof.
  assert (HN : 0 <= 10 <= SIZE_MAX) by (unfold SIZE_MAX; lia).
  assert (HT : 1 <= 3) by lia.
  assert (Hr : bench_ranges 10 3 !! 2%nat = Some (6, 10)) by reflexivity.
  assert (Hs : 3 <= SIZE_MAX) by (unfold SIZE_MAX; lia).
  destruct (partition_shares 10 3 2 6 10 HN HT (or_introl (conj Hs Hr)))
    as (_ & H & _).
  split; [exact Hr | exact H].
Defined.

(** ** The kernel on ranges *)

Section kernel_ranges.

Lemma lookup_daxpy_thread a x lo hi (y : list float) (j : nat) :
  0 <= lo <= hi -> hi <= Z.of_nat (length y) ->
  daxpy_thread a x lo hi y !! j =
    if bool_decide (lo <= Z.of_nat j < hi)
    then Some (axpy a (vget x (Z.of_nat j)) (vget y (Z.of_nat j)))
    else y !! j.
Proof.
  intros Hlo Hhi. unfold daxpy_thread, for_loop.
  rewrite for_count_daxpy by lia.
  rewrite (bool_decide_ext _ (lo <= Z.of_nat j < hi)); [done | lia].
Qed.

Lemma length_daxpy_thread a x lo hi (y : list float) :
  length (daxpy_thread a x lo hi y) = length y.
Proof. apply length_for_count_daxpy. Qed.

Lemma vget_eq_lookup (v v' : list float) (j : nat) :
  v !! j = v' !! j -> vget v (Z.of_nat j) = vget v' (Z.of_nat j).
Proof. unfold vget. rewrite Nat2Z.id, !nth_lookup. by intros ->. Qed.

End kernel_ranges.

(** X14.  [daxpy_thread(start, end)] on a range inside the vector updates
    exactly the elements of the range and keeps the length; an empty range
    changes nothing; two adjacent ranges can be handled one after the
    other, in either order, with the result of handling their union
    once. *)
Theorem daxpy_thread_ranges a x (y : list float) lo mid hi :
  0 <= lo <= mid -> mid <= hi <= Z.of_nat (length y) ->
  (forall i, lo <= i < hi ->
     vget (daxpy_thread a x lo hi y) i = axpy a (vget x i) (vget y i)) /\
  (forall i, 0 <= i < lo \/ hi <= i -> vget (daxpy_thread a x lo hi y) i = vget y i) /\
  length (daxpy_thread a x lo hi y) = length y /\
  daxpy_thread a x mid mid y = y /\
  daxpy_thread a x mid hi (daxpy_thread a x lo mid y) = daxpy_thread a x lo hi y /\
  daxpy_thread a x lo mid (daxpy_thread a x mid hi y) = daxpy_thread a x lo hi y.
Proof.
  intros Hlo Hhi.
  assert (Hin : forall i, lo <= i < hi ->
            vget (daxpy_thread a x lo hi y) i = axpy a (vget x i) (vget y i)).
  { intros i Hi. apply vget_lookup. rewrite lookup_daxpy_thread by lia.
    rewrite bool_decide_true by lia. by rewrite Z2Nat.id by lia. }
  assert (Hout : forall i, 0 <= i < lo \/ hi <= i ->
            vget (daxpy_thread a x lo hi y) i = vget y i).
  { intros i Hi. rewrite <- (Z2Nat.id i) by lia. apply vget_eq_lookup.
    rewrite lookup_daxpy_thread by lia. by rewrite bool_decide_false by lia. }
  split; [done|]. split; [done|]. split; [apply length_daxpy_thread|].
  split; [|split].
  - unfold daxpy_thread, for_loop. by rewrite Z.sub_diag.
  - apply list_eq. intros j.
    rewrite !lookup_daxpy_thread by (rewrite ?length_daxpy_thread; lia).
    repeat case_bool_decide; try done; try lia.
    f_equal. f_equal. apply vget_eq_lookup.
    rewrite lookup_daxpy_thread by lia. by rewrite bool_decide_false by lia.
  - apply list_eq. intros j.
    rewrite !lookup_daxpy_thread by (rewrite ?length_daxpy_thread; lia).
    repeat case_bool_decide; try done; try lia.
    f_equal. f_equal. apply vget_eq_lookup.
    rewrite lookup_daxpy_thread by lia. by rewrite bool_decide_false by lia.
Qed.

(** The four sample elements, in two halves. *)
Lemma daxpy_thread_ranges_witness :
  daxpy_thread 2%float x4 0 2 (daxpy_thread 2%float x4 2 4 y4) =
    daxpy_thread 2%float x4 0 4 y4 /\
  daxpy_thread 2%float x4 0 4 y4 = [12; 24; 36; 48]%float.
Proof.
  assert (H1 : 0 <= 0 <= 2) by lia.
  assert (H2 : 2 <= 4 <= Z.of_nat (length y4)) by (simpl; lia).
  destruct (daxpy_thread_ranges 2%float x4 y4 0 2 4 H1 H2)
    as (_ & _ & _ & _ & _ & H).
  split; [exact H | reflexivity].
Defined.

(** ** The sequential rerun of driver 2 *)

(** X15.  [run_sequential] starts from [y_original] whatever [y] holds:
    it leaves [alpha * x + y_original] in [y] and touches nothing else, so
    that running it again changes nothing, and running it after
    [run_parallel] on a freshly constructed object leaves the parallel
    result in place. *)
Theorem run_sequential_reruns (w : world) (o : MultiThreadedDaxpy.t) :
  let N := MultiThreadedDaxpy.vector_size o in
  let T := MultiThreadedDaxpy.num_threads o in
  Z.of_nat (length (MultiThreadedDaxpy.x o)) = N ->
  Z.of_nat (length (MultiThreadedDaxpy.y_original o)) = N ->
  let o' := (MultiThreadedDaxpy.run_sequential w o).1 in
  o' = MultiThreadedDaxpy.with_y o
         (zip_with (axpy (MultiThreadedDaxpy.alpha o)) (MultiThreadedDaxpy.x o)
                   (MultiThreadedDaxpy.y_original o)) /\
  (forall y', (MultiThreadedDaxpy.run_sequential w
                 (MultiThreadedDaxpy.with_y o y')).1 = o') /\
  (MultiThreadedDaxpy.run_sequential w o').1 = o' /\
  (forall GEM5 o'' out,
     1 <= N <= SIZE_MAX -> 1 <= T <= INT_MAX ->
     MultiThreadedDaxpy.y o = MultiThreadedDaxpy.y_original o ->
     MultiThreadedDaxpy.run_parallel GEM5 w o = (Ok (o'', out), []) ->
     (MultiThreadedDaxpy.run_sequential w o'').1 = o'').
Proof.
  intros N T Hx Hy o'.
  assert (Hseq : forall y', (MultiThreadedDaxpy.run_sequential w
                   (MultiThreadedDaxpy.with_y o y')).1 =
            MultiThreadedDaxpy.with_y o
              (zip_with (axpy (MultiThreadedDaxpy.alpha o)) (MultiThreadedDaxpy.x o)
                        (MultiThreadedDaxpy.y_original o))).
  { intros y'. unfold MultiThreadedDaxpy.run_sequential, MultiThreadedDaxpy.with_y.
    simpl. f_equal. fold N. rewrite <- Hy. apply sequential_pass_zip. lia. }
  assert (Ho' : o' = MultiThreadedDaxpy.with_y o
            (zip_with (axpy (MultiThreadedDaxpy.alpha o)) (MultiThreadedDaxpy.x o)
                      (MultiThreadedDaxpy.y_original o))).
  { rewrite <- (Hseq (MultiThreadedDaxpy.y o)). unfold o'. by destruct o. }
  split; [done|]. split; [by intros y'; rewrite Hseq|]. split.
  - rewrite Ho'. apply Hseq.
  - intros GEM5 o'' out HN HT Hyo Hrun.
    unfold MultiThreadedDaxpy.run_parallel in Hrun.
    destruct (max_threads w <? MultiThreadedDaxpy.num_threads o); [done|].
    rewrite verify_results_unfold in Hrun. injection Hrun as <- _.
    destruct o as [N' T' a' x' y' yo']. simpl in *. subst y'.
    rewrite worker_compute_zip by (done || lia).
    change (MultiThreadedDaxpy.Build N' T' a' x' (zip_with (axpy a') x' yo') yo')
      with (MultiThreadedDaxpy.with_y (MultiThreadedDaxpy.Build N' T' a' x' yo' yo')
              (zip_with (axpy a') x' yo')).
    unfold N. rewrite (Hseq (zip_with (axpy a') x' yo')). 
    by unfold MultiThreadedDaxpy.with_y.
Qed.

(** The four sample elements, [y] having been overwritten meanwhile. *)
Lemma run_sequential_reruns_witness :
  MultiThreadedDaxpy.y
    (MultiThreadedDaxpy.run_sequential sample_world
       (MultiThreadedDaxpy.Build 4 2 2%float x4 [0; 0; 0; 0]%float y4)).1 =
  [12; 24; 36; 48]%float.
Proof.
  pose proof (run_sequential_reruns sample_world
                (MultiThreadedDaxpy.Build 4 2 2%float x4 [0; 0; 0; 0]%float y4)
                eq_refl eq_refl) as H.
  cbv zeta in H. destruct H as (-> & _). reflexivity.
Defined.

(** ** What the verifier does not see *)

Section nan_blind.

Import MultiThreadedDaxpy.
Local Open Scope float_scope.

Lemma is_nan_spec e : is_nan e = true -> Prim2SF e = S754_nan.
Proof.
  intros H. pose proof (is_number_spec e) as Hs. unfold is_number in Hs.
  rewrite H in Hs. simpl in Hs.
  destruct (Prim2SF e); try done; destruct Hs as [_ Hs]; by specialize (Hs ltac:(done)).
Qed.

Lemma error_of_nan a b : is_nan a = true -> Prim2SF (abs (a - b)) = S754_nan.
Proof.
  intros H. rewrite FloatAxioms.abs_spec, FloatAxioms.sub_spec, (is_nan_spec a H).
  by destruct (Prim2SF b).
Qed.

Lemma compare_at_nan par y i :
  is_nan (vget par i) = true -> compare_at par y i (true, 0) = (true, 0).
Proof.
  intros H. unfold compare_at, std_max.
  pose proof (error_of_nan (vget par i) (vget y i) H) as He.
  rewrite !FloatAxioms.ltb_spec, He. unfold SFltb.
  by rewrite !SFcompare_nan_r.
Qed.

Lemma for_count_compare_nan par y (n : nat) : forall i,
  (forall j, (i <= j < i + Z.of_nat n)%Z -> is_nan (vget par j) = true) ->
  for_count n i (compare_at par y) (true, 0) = (true, 0).
Proof.
  induction n as [|n IH]; intros i H; cbn [for_count]; [done|].
  rewrite compare_at_nan by (apply H; lia). apply IH. intros j Hj. apply H. lia.
Qed.

End nan_blind.

(** X16.  [verify_results] does not notice a result that is not a number:
    a NaN in the parallel result makes the error at that index a NaN, which
    neither [error > 1e-10] nor [std::max] picks up, so that a parallel
    result made of NaNs only is reported as [PASSED] with a maximum error
    of 0. *)
Theorem verifier_passes_nan (o : MultiThreadedDaxpy.t) :
  (forall i, 0 <= i < MultiThreadedDaxpy.vector_size o ->
     is_nan (vget (MultiThreadedDaxpy.y o) i) = true) ->
  MultiThreadedDaxpy.verify_results o =
    (o, [ Line Cout "Results verification: " (Text "PASSED");
          Line Cout "Maximum error: " (Double 0%float);
          Line Cout "First 10 results: "
            (Doubles (vget (MultiThreadedDaxpy.y o) <$>
                      counters (Z.min 10 (MultiThreadedDaxpy.vector_size o)))) ]).
Proof.
  intros H. rewrite verify_results_unfold.
  unfold MultiThreadedDaxpy.compare, for_loop. rewrite Z.sub_0_r.
  rewrite for_count_compare_nan; [done|].
  intros j Hj. apply H. lia.
Qed.

(** Two elements that are not numbers, against the sequential [12; 24]. *)
Lemma verifier_passes_nan_witness :
  (MultiThreadedDaxpy.verify_results
     (MultiThreadedDaxpy.Build 2 1 2%float [1; 2]%float [nan; nan]%float
        [10; 20]%float)).2 =
  [ Line Cout "Results verification: " (Text "PASSED");
    Line Cout "Maximum error: " (Double 0%float);
    Line Cout "First 10 results: " (Doubles [nan; nan]%float) ].
Proof.
  assert (H : forall i, 0 <= i < 2 ->
            is_nan (vget [nan; nan]%float i) = true).
  { intros i Hi. assert (i = 0 \/ i = 1) as [-> | ->] by lia; reflexivity. }
  rewrite (verifier_passes_nan
             (MultiThreadedDaxpy.Build 2 1 2%float [1; 2]%float [nan; nan]%float
                [10; 20]%float) H).
  reflexivity.
Defined.

(** ** Every moment of the compute phase *)

(** X17.  Not only at the end but after any sequence of scheduler picks,
    in either driver: every loop counter is inside its worker's range, a
    pending store carries [alpha * x[i] + y0[i]] for an index of that
    range, [y[j]] holds [alpha * x[j] + y0[j]] for the indices its owner
    has gone past and [y0[j]] for the others, the barrier's counter is the
    number of workers blocked in it and stays below [T], and what each
    worker has logged is the history of its program counter. *)
Theorem reachable_states_consistent N T a (xs ys0 : list float) sched :
  0 <= N <= SIZE_MAX -> 1 <= T -> Z.of_nat (length ys0) = N ->
  (T <= INT_MAX -> forall GEM5 y_orig,
     let c := MultiThreadedDaxpy.workers_config GEM5
                (MultiThreadedDaxpy.Build N T a xs ys0 y_orig) in
     inv c ys0 (run_schedule c sched (initial c ys0))) /\
  (T <= SIZE_MAX ->
     let c := DaxpyBenchmark.workers_config (DaxpyBenchmark.Build xs ys0 N T a) in
     inv c ys0 (run_schedule c sched (initial c ys0))).
Proof.
  intros HN HT Hy. split.
  - intros HTi GEM5 y_orig c.
    assert (Hc : contract N T (worker_ranges N T)).
    { apply worker_ranges_contract;
        unfold is_size_t, is_int, INT_MIN, INT_MAX in *; lia. }
    assert (Hparties : gated c = true ->
              parties c = length (ranges c) /\ (1 <= parties c)%nat).
    { intros _. simpl. pose proof (exactly_T _ _ _ Hc). lia. }
    apply (run_schedule_inv c ys0 N); try done; [apply (covering _ _ _ Hc)|].
    apply (initial_inv c ys0 N); try done. apply (covering _ _ _ Hc).
  - intros HTs c.
    assert (Hc : contract N T (bench_ranges N T)).
    { apply bench_ranges_contract; unfold is_size_t; lia. }
    apply (run_schedule_inv c ys0 N); try done; [apply (covering _ _ _ Hc)|].
    apply (initial_inv c ys0 N); try done. apply (covering _ _ _ Hc).
Qed.

(** Two workers on four elements, stopped after five picks: worker 1 is
    about to store [y[2]]. *)
Lemma reachable_states_consistent_witness :
  let c := MultiThreadedDaxpy.workers_config true
             (MultiThreadedDaxpy.Build 4 2 2%float x4 y4 y4) in
  inv c y4 (run_schedule c [0; 1; 1; 1; 1]%nat (initial c y4)) /\
  pcs (run_schedule c [0; 1; 1; 1; 1]%nat (initial c y4)) =
    [Waiting Opening 0; Store 2 36%float].
Proof.
  assert (H4 : 0 <= 4 <= SIZE_MAX) by (unfold SIZE_MAX; lia).
  assert (H2 : 1 <= 2) by lia.
  assert (Hi : 2 <= INT_MAX) by (unfold INT_MAX; lia).
  destruct (reachable_states_consistent 4 2 2%float x4 y4 [0; 1; 1; 1; 1]%nat
              H4 H2 eq_refl) as [H _].
  pose proof (H Hi true y4) as Hr. cbv zeta in Hr. cbv zeta.
  split; [exact Hr | reflexivity].
Defined.

(** ** The two partitioners side by side *)

(** X18.  The two drivers cut the vector in the same way: although
    driver 1 computes on [size_t] throughout and driver 2 converts its
    [int] thread count and thread id, both hand worker [t] the same
    range, for every size and every thread count an [int] can hold. *)
Theorem partitioners_agree N T :
  0 <= N <= SIZE_MAX -> 1 <= T <= INT_MAX ->
  bench_ranges N T = worker_ranges N T /\
  forall t, 0 <= t < T -> bench_range N T t = worker_range N T t.
Proof.
  intros HN HT.
  assert (His : is_size_t T) by (unfold is_size_t, SIZE_MAX, INT_MAX in *; lia).
  assert (Hii : is_int T) by (unfold is_int, INT_MIN, INT_MAX in *; lia).
  split.
  - rewrite bench_ranges_static, worker_ranges_static by (done || lia). done.
  - intros t Ht. unfold bench_range, worker_range.
    rewrite bench_start_eq, bench_end_eq, start_idx_eq, end_idx_eq
      by (done || lia). done.
Qed.

(** Ten elements, three workers. *)
Lemma partitioners_agree_witness :
  bench_ranges 10 3 = worker_ranges 10 3 /\
  bench_range 10 3 2 = worker_range 10 3 2.
Proof.
  assert (HN : 0 <= 10 <= SIZE_MAX) by (unfold SIZE_MAX; lia).
  assert (HT : 1 <= 3 <= INT_MAX) by (unfold INT_MAX; lia).
  destruct (partitioners_agree 10 3 HN HT) as [H1 H2].
  split; [exact H1 | apply H2; lia].
Defined.

(** ** How many workers driver 2 creates *)

(** X19.  Whatever its arguments and whatever the system allows, driver 2
    never has more worker threads than [hardware_concurrency()]
    reports. *)
Theorem workers_bounded_by_hardware GEM5 stod (w : world) (argv : list string) :
  Z.of_nat (workers (MultiThreadedDaxpy.main GEM5 stod w argv)) <=
  Z.max 0 (hardware_concurrency w).
Proof.
  destruct (decide (length argv = 4%nat)) as [Hlen|Hlen].
  2:{ unfold MultiThreadedDaxpy.main.
      rewrite (proj2 (Nat.eqb_neq _ _) Hlen). simpl. lia. }
  destruct (MultiThreadedDaxpy.parse_arguments stod argv) as [[[N T] a]|e|e] eqn:Hp.
  2,3: unfold MultiThreadedDaxpy.main; rewrite Hlen, Hp; simpl; lia.
  rewrite (main_converted GEM5 stod w argv N T a Hlen Hp).
  destruct (converted_range _ _ _ _ _ Hp) as [_ Hi].
  destruct (MultiThreadedDaxpy.bad_thread_count w T) eqn:Eb; [simpl; lia|].
  assert (HT : 1 <= T <= hardware_concurrency w).
  { pose proof (bad_thread_count_spec w T Hi) as Hb. rewrite Eb in Hb.
    split.
    - destruct (Z.le_gt_cases 1 T) as [?|?]; [done|].
      assert (false = true) by (apply Hb; lia). done.
    - destruct (Z.le_gt_cases T (hardware_concurrency w)) as [?|?]; [done|].
      assert (false = true) by (apply Hb; lia). done. }
  destruct (N =? 0); [simpl; lia|].
  destruct (negb (can_allocate w N)); [simpl; lia|].
  destruct (Z.ltb_spec (max_threads w) T); [|simpl; lia].
  destruct (max_threads w <=? 0); simpl; lia.
Qed.

(** ** No moment at which nobody can act *)

Section progress.

Context (c : config).
Hypothesis Hparties : gated c = true ->
  parties c = length (ranges c) /\ (1 <= parties c)%nat.

Lemma reachable_progress sched y :
  let s := run_schedule c sched (initial c y) in
  all_done s = true \/
  exists t, (t < length (ranges c))%nat /\ is_Some (step c t s).
Proof.
  intros s.
  assert (Hb : barrier_inv c s).
  { by apply run_schedule_barrier_inv, initial_barrier_inv. }
  destruct (all_done s) eqn:E; [by left | right].
  destruct (progress_step c Hparties s Hb E) as [t Ht]. exists t. split; [|done].
  rewrite <- (bar_workers c s Hb). destruct Ht as [s' Hs]. unfold step in Hs.
  destruct (pcs s !! t) eqn:Hp; [|done]. by eapply lookup_lt_Some.
Qed.

End progress.

(** X20.  The workers of either driver are never deadlocked: after any
    sequence of scheduler picks either every worker has returned or at
    least one of the [T] workers can take its next action; in driver 2 this
    says that the two barriers never leave all unfinished workers
    waiting. *)
Theorem never_deadlocked N T a (xs ys0 : list float) sched :
  1 <= T ->
  (forall GEM5 y_orig,
     let c := MultiThreadedDaxpy.workers_config GEM5
                (MultiThreadedDaxpy.Build N T a xs ys0 y_orig) in
     let s := run_schedule c sched (initial c ys0) in
     all_done s = true \/
     exists t, (t < Z.to_nat T)%nat /\ is_Some (step c t s)) /\
  (let c := DaxpyBenchmark.workers_config (DaxpyBenchmark.Build xs ys0 N T a) in
   let s := run_schedule c sched (initial c ys0) in
   all_done s = true \/
   exists t, (t < Z.to_nat T)%nat /\ is_Some (step c t s)).
Proof.
  intros HT. split.
  - intros GEM5 y_orig c s.
    assert (Hlen : length (ranges c) = Z.to_nat T).
    { simpl. unfold worker_ranges. by rewrite length_fmap, length_counters. }
    rewrite <- Hlen. apply reachable_progress.
    intros _. rewrite Hlen. simpl. lia.
  - intros c s.
    assert (Hlen : length (ranges c) = Z.to_nat T).
    { simpl. unfold bench_ranges. by rewrite length_fmap, length_counters. }
    rewrite <- Hlen. by apply reachable_progress.
Qed.

(** Two workers, the first of which has arrived at the barrier and waits:
    the second can act. *)
Lemma never_deadlocked_witness :
  let c := MultiThreadedDaxpy.workers_config true
             (MultiThreadedDaxpy.Build 4 2 2%float x4 y4 y4) in
  pcs (run_schedule c [0; 0; 0]%nat (initial c y4)) =
    [Waiting Opening 0; Arrive Opening] /\
  (all_done (run_schedule c [0; 0; 0]%nat (initial c y4)) = true \/
   exists t, (t < 2)%nat /\
     is_Some (step c t (run_schedule c [0; 0; 0]%nat (initial c y4)))).
Proof.
  assert (H2 : 1 <= 2) by lia.
  destruct (never_deadlocked 4 2 2%float x4 y4 [0; 0; 0]%nat H2) as [H _].
  pose proof (H true y4) as Hr. cbv zeta in Hr. cbv zeta.
  split; [reflexivity | exact Hr].
Defined.
